(** * HelmyTask user service: a shallow embedding and its checked properties

    The development follows the layout of the Go repository:
    - [GoLib]: the few functions of the Go standard library the code calls
      ([strings.TrimSpace], [strings.ToUpper] on a one-byte string,
      [strconv.Atoi], integer conversions), modelled on byte strings;
    - [core]: [NormalizeName];
    - [models]: the [User] entity and the request/response records;
    - [services]: the user service over an abstract repository, cache,
      hasher, signer and logger, as a state monad that records every
      call made to a collaborator;
    - [middlewares]: the bearer-token [Auth] middleware;
    - [mocks]: canned collaborators in the style of the repository's
      testify mocks, used to run the service on concrete inputs.

    The properties come after the definitions; each ends with its run on
    the mocks.

    Go strings are byte sequences: a [string] here is the list of its
    bytes, one [ascii] per byte. *)

From Stdlib Require Import ZArith NArith Bool List Lia.
From Stdlib Require Import Strings.String Strings.Ascii.
From Stdlib Require Import Floats.
From stdpp Require Import base gmap strings.

Local Open Scope string_scope.
Local Open Scope list_scope.
Local Open Scope Z_scope.

(* ===================================================================== *)
(** * Go library functions used by the code                               *)
(* ===================================================================== *)

Module GoLib.

(** The numeric value of a byte. *)
Definition byteval (c : ascii) : Z := Z.of_N (N_of_ascii c).

Definition byte (z : Z) : ascii := ascii_of_N (Z.to_N z).

(** [len(s)] *)
Definition len (s : string) : Z := Z.of_nat (String.length s).

(** [s[n:]] for [0 <= n <= len(s)] *)
Fixpoint drop (n : nat) (s : string) : string :=
  match n, s with
  | O, _ => s
  | S k, String _ r => drop k r
  | S _, EmptyString => EmptyString
  end.

(** [s[:n]] for [0 <= n <= len(s)] *)
Fixpoint take (n : nat) (s : string) : string :=
  match n, s with
  | O, _ => EmptyString
  | S k, String c r => String c (take k r)
  | S _, EmptyString => EmptyString
  end.

(** ** unicode/utf8 *)

Definition RuneError : Z := 65533.   (* U+FFFD *)
Definition RuneSelf : Z := 128.

(** What the first byte of a sequence announces (the table [first] of
    package utf8 together with [acceptRanges]): the length of the sequence
    and the range the second byte must lie in. *)
Inductive lead :=
| LeadASCII
| LeadInvalid
| LeadSeq (size : nat) (lo hi : Z).

Definition first (b : Z) : lead :=
  if b <? 128 then LeadASCII
  else if b <? 194 then LeadInvalid                (* 0x80-0xC1 *)
  else if b <? 224 then LeadSeq 2 128 191          (* 0xC2-0xDF *)
  else if b =? 224 then LeadSeq 3 160 191          (* 0xE0 *)
  else if b <? 237 then LeadSeq 3 128 191          (* 0xE1-0xEC *)
  else if b =? 237 then LeadSeq 3 128 159          (* 0xED *)
  else if b <? 240 then LeadSeq 3 128 191          (* 0xEE-0xEF *)
  else if b =? 240 then LeadSeq 4 144 191          (* 0xF0 *)
  else if b <? 244 then LeadSeq 4 128 191          (* 0xF1-0xF3 *)
  else if b =? 244 then LeadSeq 4 128 143          (* 0xF4 *)
  else LeadInvalid.                                (* 0xF5-0xFF *)

Definition continuation (b : Z) : bool := (128 <=? b) && (b <=? 191).

(** [utf8.DecodeRuneInString]: the first rune of [s] and its width in
    bytes; [(RuneError, 1)] on an invalid or truncated sequence and
    [(RuneError, 0)] on the empty string. *)
Definition DecodeRuneInString (s : string) : Z * nat :=
  match s with
  | EmptyString => (RuneError, 0%nat)
  | String c0 r0 =>
    let s0 := byteval c0 in
    match first s0 with
    | LeadASCII => (s0, 1%nat)
    | LeadInvalid => (RuneError, 1%nat)
    | LeadSeq sz lo hi =>
      if (String.length s <? sz)%nat then (RuneError, 1%nat) else
      match r0 with
      | EmptyString => (RuneError, 1%nat)
      | String c1 r1 =>
        let s1 := byteval c1 in
        if (s1 <? lo) || (hi <? s1) then (RuneError, 1%nat)
        else if (sz <=? 2)%nat then
          (Z.lor (Z.shiftl (Z.land s0 31) 6) (Z.land s1 63), 2%nat)
        else
        match r1 with
        | EmptyString => (RuneError, 1%nat)
        | String c2 r2 =>
          let s2 := byteval c2 in
          if negb (continuation s2) then (RuneError, 1%nat)
          else if (sz <=? 3)%nat then
            (Z.lor (Z.lor (Z.shiftl (Z.land s0 15) 12)
                          (Z.shiftl (Z.land s1 63) 6))
                   (Z.land s2 63), 3%nat)
          else
          match r2 with
          | EmptyString => (RuneError, 1%nat)
          | String c3 _ =>
            let s3 := byteval c3 in
            if negb (continuation s3) then (RuneError, 1%nat)
            else
              (Z.lor (Z.lor (Z.lor (Z.shiftl (Z.land s0 7) 18)
                                   (Z.shiftl (Z.land s1 63) 12))
                            (Z.shiftl (Z.land s2 63) 6))
                     (Z.land s3 63), 4%nat)
          end
        end
      end
    end
  end.

(** [utf8.RuneStart]: the byte is not a continuation byte. *)
Definition RuneStart (b : Z) : bool := negb (Z.land b 192 =? 128).

(** The backward scan of [utf8.DecodeLastRuneInString]: from index
    [start], step down while [start >= lim] and the byte there does not
    start a rune. [bytes_rev] holds the bytes at indices [start], [start-1],
    ... in that order. *)
Fixpoint scanBack (bytes_rev : string) (start lim : Z) : Z :=
  match bytes_rev with
  | EmptyString => start
  | String c r =>
    if start <? lim then start
    else if RuneStart (byteval c) then start
    else scanBack r (start - 1) lim
  end.

Fixpoint rev (s : string) : string :=
  match s with
  | EmptyString => EmptyString
  | String c r => rev r +:+ String c EmptyString
  end.

(** [utf8.DecodeLastRuneInString]: the last rune of [s] and its width. *)
Definition DecodeLastRuneInString (s : string) : Z * nat :=
  let end_ := len s in
  if end_ =? 0 then (RuneError, 0%nat) else
  match rev s with
  | EmptyString => (RuneError, 0%nat)
  | String cl before_rev =>
    let r := byteval cl in
    if r <? RuneSelf then (r, 1%nat) else
    let lim := Z.max 0 (end_ - 4) in
    let start := Z.max 0 (scanBack before_rev (end_ - 2) lim) in
    let '(r', size) := DecodeRuneInString (drop (Z.to_nat start) s) in
    if start + Z.of_nat size =? end_ then (r', size) else (RuneError, 1%nat)
  end.

(** ** unicode *)

(** [unicode.IsSpace]: the Latin-1 cases of the function's switch, then
    the [White_Space] range table above Latin-1. *)
Definition IsSpace (r : Z) : bool :=
  if (0 <=? r) && (r <=? 255) then
    (r =? 9) || (r =? 10) || (r =? 11) || (r =? 12) || (r =? 13)
    || (r =? 32) || (r =? 133) || (r =? 160)
  else
    (r =? 5760)                               (* U+1680 *)
    || ((8192 <=? r) && (r <=? 8202))         (* U+2000-U+200A *)
    || ((8232 <=? r) && (r <=? 8233))         (* U+2028-U+2029 *)
    || (r =? 8239)                            (* U+202F *)
    || (r =? 8287)                            (* U+205F *)
    || (r =? 12288).                          (* U+3000 *)

(** ** strings *)

(** [strings.TrimLeftFunc(s, unicode.IsSpace)]: drop leading runes while
    they are white space. [fuel] bounds the number of runes by the number
    of bytes. *)
Fixpoint trimLeftSpace (fuel : nat) (s : string) : string :=
  match fuel with
  | O => s
  | S k =>
    match s with
    | EmptyString => s
    | _ =>
      let '(r, w) := DecodeRuneInString s in
      if IsSpace r then trimLeftSpace k (drop w s) else s
    end
  end.

(** [strings.TrimRightFunc(s, unicode.IsSpace)] *)
Fixpoint trimRightSpace (fuel : nat) (s : string) : string :=
  match fuel with
  | O => s
  | S k =>
    match s with
    | EmptyString => s
    | _ =>
      let '(r, w) := DecodeLastRuneInString s in
      if IsSpace r then trimRightSpace k (take (String.length s - w) s)
      else s
    end
  end.

(** [strings.TrimSpace]: "returns a slice of the string s, with all leading
    and trailing white space removed, as defined by Unicode". The library
    first strips ASCII space bytes at both ends and falls back to the two
    functions above at the first byte >= 0x80; the result is the same. *)
Definition TrimSpace (s : string) : string :=
  let l := trimLeftSpace (String.length s) s in
  trimRightSpace (String.length l) l.

(** The ASCII branch of [strings.ToUpper]: ['a'..'z'] lose 32. *)
Definition upperASCII (c : ascii) : ascii :=
  let b := byteval c in
  if (97 <=? b) && (b <=? 122) then byte (b - 32) else c.

(** U+FFFD encoded in UTF-8: the bytes EF BF BD. *)
Definition RuneErrorUTF8 : string :=
  String (byte 239) (String (byte 191) (String (byte 189) EmptyString)).

(** [strings.ToUpper] on a string of exactly one byte, which is all
    [NormalizeName] ever passes. An ASCII byte takes the ASCII branch. A
    byte >= 0x80 alone is never valid UTF-8: the library goes through
    [strings.Map(unicode.ToUpper, s)], whose range loop reads it as
    [RuneError] of width 1 and writes that rune back, encoded. *)
Definition ToUpper1 (c : ascii) : string :=
  if byteval c <? RuneSelf then String (upperASCII c) EmptyString
  else RuneErrorUTF8.

(** ** Machine integers

    The image is built for GOARCH=amd64: [int] and [uint] are 64 bits. A
    value of type [int] is a [Z] in [-2^63, 2^63); a value of type [uint]
    is an [N] below [2^64]. *)

Definition int_min : Z := - 2 ^ 63.
Definition int_max : Z := 2 ^ 63 - 1.

(** Reduction of an exact result to the [int] range (two's complement). *)
Definition wrap_int (z : Z) : Z := (z + 2 ^ 63) mod 2 ^ 64 - 2 ^ 63.

Definition int_sub (a b : Z) : Z := wrap_int (a - b).
Definition int_mul (a b : Z) : Z := wrap_int (a * b).

(** The conversion [uint(n)] of an [int]: the same 64 bits, unsigned. *)
Definition uint_of_int (n : Z) : N := Z.to_N (n mod 2 ^ 64).

(** The integer part of a [float64], toward zero; [None] for NaN and the
    infinities. *)
Definition float64_trunc (v : float) : option Z :=
  match Prim2SF v with
  | S754_zero _ => Some 0
  | S754_finite sgn m e =>
    let mag := if 0 <=? e then Z.pos m * 2 ^ e else Z.pos m / 2 ^ (- e) in
    Some (if sgn then - mag else mag)
  | S754_infinity _ => None
  | S754_nan => None
  end.

(** The conversion [uint(v)] of a [float64]. The language specification
    fixes the result where the truncated value fits the type, and leaves it
    implementation-dependent elsewhere ("the conversion succeeds but the
    result value is implementation-dependent"): [impl] stands for what the
    compiler's code yields there. The result is a [uint] in every case. *)
Definition uint_of_float64 (impl : float -> N) (v : float) : N :=
  match float64_trunc v with
  | Some z =>
    if (0 <=? z) && (z <? 2 ^ 64) then Z.to_N z
    else (impl v mod 2 ^ 64)%N
  | None => (impl v mod 2 ^ 64)%N
  end.

(** ** fmt and strconv *)

(** The digit loop of the formatter: the decimal digits of [u] are
    produced from the least significant one and put in front of [acc].
    Twenty digits hold any 64-bit value. *)
Fixpoint formatBits (fuel : nat) (u : N) (acc : string) : string :=
  match fuel with
  | O => acc
  | S k =>
    if (u <? 10)%N then String (ascii_of_N (48 + u)) acc
    else formatBits k (u / 10) (String (ascii_of_N (48 + u mod 10)) acc)
  end.

(** [fmt.Sprint] and the verb [%d] on an unsigned integer. *)
Definition SprintUint (n : N) : string := formatBits 20 n EmptyString.

(** [fmt.Sprint] on a signed integer. *)
Definition SprintInt (z : Z) : string :=
  if z <? 0 then String "-" (SprintUint (Z.to_N (- z)))
  else SprintUint (Z.to_N z).

(** ** Errors

    An [error] value is identified by what a caller can observe of it: the
    sentinel it is, or its message. *)
Inductive error :=
| errorString (msg : string)        (* errors.New(msg) *)
| ErrRecordNotFound                 (* gorm.ErrRecordNotFound *)
| ErrDuplicatedKey                  (* gorm.ErrDuplicatedKey: a unique index rejected the row *)
| redisNil                          (* redis.Nil: the key does not exist *)
| otherError (origin msg : string). (* any other error of a library or a server *)

Definition errors_New (msg : string) : error := errorString msg.

(** The method [Error()]. *)
Definition Error (e : error) : string :=
  match e with
  | errorString msg => msg
  | ErrRecordNotFound => "record not found"
  | ErrDuplicatedKey => "duplicated key not allowed"
  | redisNil => "redis: nil"
  | otherError origin msg => origin +:+ ": " +:+ msg
  end.

#[global] Instance error_eq_dec : EqDecision error.
Proof. solve_decision. Defined.

(** [strconv.Atoi]. The digits are accumulated left to right as in the
    library's loop; [None] as soon as a byte is not a decimal digit. *)
Fixpoint parseDigits (s : string) (n : Z) : option Z :=
  match s with
  | EmptyString => Some n
  | String ch r =>
    let d := byteval ch - 48 in
    if (0 <=? d) && (d <=? 9) then parseDigits r (n * 10 + d) else None
  end.

Definition ErrSyntax : error := otherError "strconv.Atoi" "invalid syntax".
Definition ErrRange : error := otherError "strconv.Atoi" "value out of range".

(** An optional sign, then one or more decimal digits (base 10 is passed
    explicitly, so no prefix and no underscore is accepted); a value outside
    [int] is [ErrRange] with the nearest bound, anything else malformed is
    [ErrSyntax] with 0. *)
Definition Atoi (s : string) : Z * option error :=
  match s with
  | EmptyString => (0, Some ErrSyntax)
  | String c0 r =>
    let neg := Ascii.eqb c0 "-" in
    let body := if neg || Ascii.eqb c0 "+" then r else s in
    match body with
    | EmptyString => (0, Some ErrSyntax)
    | _ =>
      match parseDigits body 0 with
      | None => (0, Some ErrSyntax)
      | Some un =>
        if neg then
          if un <=? 2 ^ 63 then (- un, None) else (int_min, Some ErrRange)
        else
          if un <? 2 ^ 63 then (un, None) else (int_max, Some ErrRange)
      end
    end
  end.

(** ** Dynamic values

    A value of type [any] ([interface{}]), by its dynamic type: what a
    decoded JSON document holds ([nil], [bool], [float64], [string],
    slices and maps) and the integers the service stores in token claims
    and the middleware stores in the request context. *)
#[warnings="-register-all"]
Inductive any :=
| anyNil
| anyBool (b : bool)
| anyFloat64 (v : float)
| anyString (s : string)
| anyUint (n : N)
| anyInt64 (z : Z)
| anySlice (l : list any)
| anyMap (m : list (string * any)).

(** [time.Duration] counts nanoseconds. *)
Definition Duration := Z.
Definition Second : Duration := 1000000000.
Definition Minute : Duration := 60 * Second.


(** ** ASCII names *)

(** One of the six ASCII white-space bytes: tab, line feed, vertical tab,
    form feed, carriage return, space. *)
Definition asciiSpace (c : ascii) : bool :=
  let b := byteval c in
  ((9 <=? b) && (b <=? 13)) || (b =? 32).

(** A string of ASCII white-space bytes only. *)
Fixpoint asciiBlank (s : string) : bool :=
  match s with
  | EmptyString => true
  | String c r => asciiSpace c && asciiBlank r
  end.

(** An ASCII byte that is not white space. *)
Definition asciiInk (c : ascii) : bool :=
  (byteval c <? 128) && negb (asciiSpace c).

(** The last byte of a string, if any. *)
Fixpoint lastByte (s : string) : option ascii :=
  match s with
  | EmptyString => None
  | String c EmptyString => Some c
  | String _ r => lastByte r
  end.

(** A string that begins and ends with an ASCII byte that is not white
    space; the bytes in between are arbitrary. *)
Definition inkBounded (s : string) : bool :=
  match s, lastByte s with
  | String c _, Some l => asciiInk c && asciiInk l
  | _, _ => false
  end.

End GoLib.

(* ===================================================================== *)
(** * package core                                                         *)
(* ===================================================================== *)

Module core.
Import GoLib.

(** [[
func NormalizeName(s string) string {
	s = strings.TrimSpace(s)
	if s == "" { return s }
	return strings.ToUpper(s[:1]) + s[1:]
}
]] *)
Definition NormalizeName (s : string) : string :=
  let s := TrimSpace s in
  match s with
  | EmptyString => s
  | String c rest => ToUpper1 c +:+ rest
  end.

(** Two names for the examples: "élan", the bytes C3 A9 6C 61 6E, and
    "Élan", the bytes C3 89 6C 61 6E. *)
Definition elan : string := String (byte 195) (String (byte 169) "lan").
Definition Elan : string := String (byte 195) (String (byte 137) "lan").

End core.


(* ===================================================================== *)
(** * package models                                                       *)
(* ===================================================================== *)

Module models.
Import GoLib.

(** [time.Time], as an instant counted from the zero value [time.Time{}];
    the service only copies these fields. *)
Definition Time := Z.

(** [[
type User struct {
	ID        uint      `gorm:"primaryKey" json:"id"`
	Name      string    `json:"name"`
	Email     string    `gorm:"...uniqueIndex..." json:"email"`
	Password  string    `json:"-"` // hashed
	CreatedAt time.Time `json:"created_at"`
	UpdatedAt time.Time `json:"updated_at"`
}
]] *)
Module User.
Record t := mk {
  ID : N;
  Name : string;
  Email : string;
  Password : string;
  CreatedAt : Time;
  UpdatedAt : Time
}.
(** [var u models.User] *)
Definition zero : t := mk 0 "" "" "" 0 0.
Definition with_Name (u : t) (v : string) : t :=
  mk (ID u) v (Email u) (Password u) (CreatedAt u) (UpdatedAt u).
Definition with_Email (u : t) (v : string) : t :=
  mk (ID u) (Name u) v (Password u) (CreatedAt u) (UpdatedAt u).
Definition with_Password (u : t) (v : string) : t :=
  mk (ID u) (Name u) (Email u) v (CreatedAt u) (UpdatedAt u).
End User.

Module RegisterRequest.
Record t := mk { Name : string; Email : string; Password : string }.
End RegisterRequest.

Module LoginRequest.
Record t := mk { Email : string; Password : string }.
End LoginRequest.

(** Pointer fields: [None] is [nil], "no change". *)
Module UpdateUserRequest.
Record t := mk {
  Name : option string;
  Email : option string;
  Password : option string
}.
End UpdateUserRequest.

Module PagedUsers.
Record t := mk {
  Items : list User.t;
  Total : Z;
  Page : Z;
  Limit : Z
}.
End PagedUsers.

(** ** The JSON view of a [User]

    encoding/json reads and writes a struct through its tagged fields. The
    five fields below are the ones tagged with a name; [Password] carries
    the tag [json:"-"], so the encoder never reads it and the decoder never
    writes it. *)
Module UserJSON.
Record t := mk {
  id : N;
  name : string;
  email : string;
  created_at : Time;
  updated_at : Time
}.
End UserJSON.

(** The fields the encoder reads from [u]. *)
Definition jsonFields (u : User.t) : UserJSON.t :=
  UserJSON.mk (User.ID u) (User.Name u) (User.Email u)
              (User.CreatedAt u) (User.UpdatedAt u).

(** The fields the decoder writes into [u]. *)
Definition setJSONFields (u : User.t) (j : UserJSON.t) : User.t :=
  User.mk (UserJSON.id j) (UserJSON.name j) (UserJSON.email j)
          (User.Password u)
          (UserJSON.created_at j) (UserJSON.updated_at j).

End models.

(* ===================================================================== *)
(** * package services                                                     *)
(* ===================================================================== *)

Module services.
Import GoLib models.

(** ** Calls to collaborators

    Every call the service makes to the store, the cache, the password
    hasher or the logger is recorded, with its arguments, in the order it
    is made. *)
Inductive Event :=
| RepoCreate (u : User.t)
| RepoFindByEmail (email : string)
| RepoFindByID (id : N)
| RepoUpdate (u : User.t)
| RepoDelete (id : N)
| RepoList (offset limit : Z)
| HashCall (raw : string)
| RedisGet (key : string)
| RedisSet (key value : string) (ttl : Duration)
| RedisDel (key : string)
| LogCall (level msg : string) (meta : gmap string string).

Definition isRepoCall (e : Event) : bool :=
  match e with
  | RepoCreate _ | RepoFindByEmail _ | RepoFindByID _
  | RepoUpdate _ | RepoDelete _ | RepoList _ _ => true
  | _ => false
  end.

(** Calls that change what the store holds. *)
Definition isRepoWrite (e : Event) : bool :=
  match e with
  | RepoCreate _ | RepoUpdate _ | RepoDelete _ => true
  | _ => false
  end.

Definition isRepoUpdate (e : Event) : bool :=
  match e with RepoUpdate _ => true | _ => false end.

Definition isRepoCreate (e : Event) : bool :=
  match e with RepoCreate _ => true | _ => false end.

Definition isHashCall (e : Event) : bool :=
  match e with HashCall _ => true | _ => false end.

Definition isRedisSet (e : Event) : bool :=
  match e with RedisSet _ _ _ => true | _ => false end.

(** Calls to the cache that write: SET and DEL. *)
Definition isCacheWrite (e : Event) : bool :=
  match e with RedisSet _ _ _ | RedisDel _ => true | _ => false end.

(** The calls the caller of a method cannot tell from the method's result
    alone are the ones to the logger; the others are the calls a test
    double counts. *)
Definition isLogCall (e : Event) : bool :=
  match e with LogCall _ _ _ => true | _ => false end.

Definition withoutLogs (tr : list Event) : list Event :=
  List.filter (fun e => negb (isLogCall e)) tr.

(** A call that neither hashes a password nor writes to the store or to
    the cache. *)
Definition quiet (e : Event) : bool :=
  negb (isHashCall e || isRepoWrite e || isCacheWrite e).

(** The values written to the cache by a call, with their time-to-live. *)
Definition cacheSets (evs : list Event) : list (string * Duration) :=
  flat_map (fun e => match e with
                     | RedisSet _ value ttl => [(value, ttl)]
                     | _ => []
                     end) evs.

Section Interfaces.
Context {W : Type}.

(** [repositories.UserRepository]. [W] is the state of everything outside
    the service (database, cache server, entropy, clock). A method that
    takes a [*models.User] returns the struct as the callee leaves it: the
    store assigns the identifier and the timestamps through the pointer.
    The finders return either a user or an error, as [userRepo] does. *)
Record UserRepository := {
  Create : User.t -> W -> (User.t * option error) * W;
  FindByEmail : string -> W -> (User.t + error) * W;
  FindByID : N -> W -> (User.t + error) * W;
  Update : User.t -> W -> (User.t * option error) * W;
  Delete : N -> W -> option error * W;
  List : Z -> Z -> W -> (list User.t * Z * option error) * W
}.

(** The three commands of [*redis.Client] the service issues. [Get] is
    [Get(ctx, key).Result()]; [Set_] is [Set(ctx, key, value, ttl).Err()]
    and [Del] is [Del(ctx, key).Err()]. *)
Record RedisClient := {
  Get : string -> W -> (string * option error) * W;
  Set_ : string -> string -> Duration -> W -> option error * W;
  Del : string -> W -> option error * W
}.

(** [*redislog.Logger]: [push level msg meta] is the body of the method
    [log] (LPUSH of the entry stamped with the current time, LTRIM,
    EXPIRE), [None] when the logger's own client is nil and [log] returns
    at once. *)
Record Logger := {
  push : option (string -> string -> gmap string string -> W -> W)
}.

(** The libraries behind package utils, the signer, the clock and
    encoding/json on [models.User]. *)
Class Platform := {
  (** [bcrypt.GenerateFromPassword(password, cost)]: salted from the
      entropy in [W]. *)
  bcrypt_GenerateFromPassword : string -> Z -> W -> (string * option error) * W;
  (** [bcrypt.CompareHashAndPassword(hash, password)] *)
  bcrypt_CompareHashAndPassword : string -> string -> option error;
  (** [jwt.NewWithClaims(jwt.SigningMethodHS256, claims).SignedString(key)] *)
  jwt_SignedString : gmap string any -> string -> string * option error;
  (** [time.Now()], in nanoseconds since the Unix epoch. *)
  time_Now : W -> Z * W;
  (** The text encoding/json writes for the tagged fields of a user. *)
  json_encode : UserJSON.t -> string * option error;
  (** The tagged fields encoding/json reads from a text into a zero
      [User], and the error it returns. *)
  json_decode : string -> UserJSON.t * option error
}.

(** [[
type userService struct {
	repo repositories.UserRepository
	rdb  *redis.Client    // may be nil if cache disabled
	log  *redislog.Logger // may be nil if not configured
}
]] *)
Record userService := {
  repo : UserRepository;
  rdb : option RedisClient;
  log : option Logger
}.

End Interfaces.
Arguments UserRepository : clear implicits.
Arguments RedisClient : clear implicits.
Arguments Logger : clear implicits.
Arguments Platform : clear implicits.
Arguments userService : clear implicits.

(** ** The monad of a service call

    A computation reads and changes the outside world and emits the calls
    it makes, in order. *)

Definition M (W A : Type) : Type := W -> A * W * list Event.

Definition ret {W A} (a : A) : M W A := fun w => (a, w, []).

Definition bind {W A B} (m : M W A) (k : A -> M W B) : M W B :=
  fun w =>
    let '(a, w1, e1) := m w in
    let '(b, w2, e2) := k a w1 in
    (b, w2, e1 ++ e2).

(** Perform a collaborator's method and record the call. *)
Definition call {W A} (e : Event) (f : W -> A * W) : M W A :=
  fun w => let '(a, w') := f w in (a, w', [e]).

(** Perform a library function that is not recorded (the clock). *)
Definition lift {W A} (f : W -> A * W) : M W A :=
  fun w => let '(a, w') := f w in (a, w', []).

(** The three components of a finished call. *)
Definition result {W A} (x : A * W * list Event) : A := fst (fst x).
Definition world {W A} (x : A * W * list Event) : W := snd (fst x).
Definition events {W A} (x : A * W * list Event) : list Event := snd x.

Declare Scope svc_scope.
Delimit Scope svc_scope with svc.
Notation "'let*' x ':=' m 'in' k" := (bind m (fun x => k))
  (at level 10, x pattern, m at level 100, k at level 200) : svc_scope.
Notation "m ';;;' k" := (bind m (fun _ => k))
  (at level 100, k at level 200, right associativity) : svc_scope.

Local Open Scope svc_scope.

Section Methods.
Context {W : Type} `{P : Platform W}.
Implicit Type s : userService W.

(** ** package utils *)

(** [bcrypt.DefaultCost] *)
Definition DefaultCost : Z := 10.

(** [[
func HashPassword(raw string) (string, error) {
	b, err := bcrypt.GenerateFromPassword([]byte(raw), bcrypt.DefaultCost)
	return string(b), err
}
]] *)
Definition HashPassword (raw : string) : M W (string * option error) :=
  call (HashCall raw) (bcrypt_GenerateFromPassword raw DefaultCost).

(** [[
func CheckPassword(hash, raw string) bool {
	return bcrypt.CompareHashAndPassword([]byte(hash), []byte(raw)) == nil
}
]] *)
Definition CheckPassword (hash raw : string) : bool :=
  match bcrypt_CompareHashAndPassword hash raw with
  | None => true
  | Some _ => false
  end.

(** ** encoding/json at [models.User] *)

(** [json.Marshal(u)] *)
Definition json_Marshal (u : User.t) : string * option error :=
  json_encode (jsonFields u).

(** [json.Unmarshal([]byte(val), &u)]: the struct as the decoder leaves it
    and the error returned. *)
Definition json_Unmarshal (val : string) (u : User.t) : User.t * option error :=
  let '(j, err) := json_decode val in (setJSONFields u j, err).

(** ** Logging: [if s.log != nil { s.log.X(msg, meta) }] *)

(** The literal [map[string]string{...}]. *)
Definition metaMap (meta : list (string * string)) : gmap string string :=
  list_to_map meta.

Definition logAt (level : string) s (msg : string)
    (meta : list (string * string)) : M W unit :=
  match log s with
  | None => ret tt
  | Some l =>
    let m := metaMap meta in
    call (LogCall level msg m)
         (fun w => (tt, match push l with
                        | None => w
                        | Some f => f level msg m w
                        end))
  end.

Definition logInfo := logAt "info".
Definition logWarn := logAt "warn".
Definition logError := logAt "error".

(** The world a log call leaves behind. *)
Definition logged (level : string) s (msg : string)
    (meta : list (string * string)) (w : W) : W :=
  world (logAt level s msg meta w).

(** ** The service *)

(** [const userCacheTTL = 10 * time.Minute] *)
Definition userCacheTTL : Duration := 10 * Minute.

(** [userCacheTTL.String()] *)
Definition userCacheTTL_String : string := "10m0s".

(** [fmt.Sprintf("user:%d", id)] *)
Definition cacheKeyUser (id : N) : string := "user:" +:+ SprintUint id.

(** The block both [Register] and [UpdateUser] use to write a user to the
    cache, ignoring the outcome:
[[
if b, _ := json.Marshal(u); len(b) > 0 {
	_ = s.rdb.Set(ctx, key, b, userCacheTTL).Err()
	...
}
]]
    [after] is what follows the SET inside the [if]. *)
Definition setIfMarshalled (c : RedisClient W) (key : string) (u : User.t)
    (after : M W unit) : M W unit :=
  let '(b, _) := json_Marshal u in
  if 0 <? len b then
    (let* _ := call (RedisSet key b userCacheTTL) (Set_ c key b userCacheTTL) in
     after)
  else ret tt.

(** The entity Register builds before the insert:
    [u := &models.User{Name: core.NormalizeName(req.Name), Email: req.Email,
    Password: hash}]. *)
Definition newUser (req : RegisterRequest.t) (hash : string) : User.t :=
  User.mk 0 (core.NormalizeName (RegisterRequest.Name req))
          (RegisterRequest.Email req) hash 0 0.

(** [func (s *userService) Register(req models.RegisterRequest)], which
    returns a [*models.User] and an [error]: the uniqueness pre-check, the
    hash, the insert, the cache warm-up. A result [(None, Some err)] is
    [return nil, err]. *)
Definition Register s (req : RegisterRequest.t)
  : M W (option User.t * option error) :=
  let email := RegisterRequest.Email req in
  let* found := call (RepoFindByEmail email) (FindByEmail (repo s) email) in
  match found with
  | inl _ =>                                   (* err == nil *)
    logWarn s "register email exists" [("email", email)] ;;;
    ret (None, Some (errors_New "email already exists"))
  | inr _ =>
    let* (hash, err) := HashPassword (RegisterRequest.Password req) in
    match err with
    | Some err =>
      logError s "register hash error" [("email", email); ("err", Error err)] ;;;
      ret (None, Some err)
    | None =>
      let u := newUser req hash in
      let* (u, err) := call (RepoCreate u) (Create (repo s) u) in
      match err with
      | Some err =>
        logError s "register db create error"
                 [("email", email); ("err", Error err)] ;;;
        ret (None, Some err)
      | None =>
        match rdb s with
        | Some c =>
          setIfMarshalled c (cacheKeyUser (User.ID u)) u
            (logInfo s "cache warm after register"
               [("key", cacheKeyUser (User.ID u));
                ("user_id", SprintUint (User.ID u))])
        | None => ret tt
        end ;;;
        logInfo s "register success"
                [("user_id", SprintUint (User.ID u)); ("email", User.Email u)] ;;;
        ret (Some u, None)
      end
    end
  end.

(** [time.Time.Unix()] of an instant given in nanoseconds. *)
Definition Unix (t : Z) : Z := t / Second.

(** [func (s *userService) Login(req models.LoginRequest, jwtSecret string,
    exp time.Duration) (string, error)] *)
Definition Login s (req : LoginRequest.t) (jwtSecret : string) (exp : Duration)
  : M W (string * option error) :=
  let email := LoginRequest.Email req in
  let* found := call (RepoFindByEmail email) (FindByEmail (repo s) email) in
  match found with
  | inr _ =>
    logWarn s "login user not found" [("email", email)] ;;;
    ret ("", Some (errors_New "invalid credentials"))
  | inl u =>
    if negb (CheckPassword (User.Password u) (LoginRequest.Password req)) then
      logWarn s "login wrong password" [("email", email)] ;;;
      ret ("", Some (errors_New "invalid credentials"))
    else
      let* t_exp := lift time_Now in
      let* t_iat := lift time_Now in
      let claims : gmap string any :=
        list_to_map [("sub", anyUint (User.ID u));
                     ("exp", anyInt64 (Unix (t_exp + exp)));
                     ("iat", anyInt64 (Unix t_iat));
                     ("eml", anyString (User.Email u))] in
      let '(signed, err) := jwt_SignedString claims jwtSecret in
      match err with
      | Some err =>
        logError s "login token sign error"
                 [("email", User.Email u); ("err", Error err)] ;;;
        ret ("", Some err)
      | None =>
        logInfo s "login success"
                [("user_id", SprintUint (User.ID u)); ("email", User.Email u)] ;;;
        ret (signed, None)
      end
  end.

(** The first half of [GetByID]: the attempt on the cache. [Some u] is the
    early [return &u, nil]; [None] falls through to the store. *)
Definition tryCache s (id : N) : M W (option User.t) :=
  match rdb s with
  | None => ret None
  | Some c =>
    let key := cacheKeyUser id in
    logInfo s "cache try GET" [("key", key); ("user_id", SprintUint id)] ;;;
    let* (val, err) := call (RedisGet key) (Get c key) in
    match err with
    | None =>
      let '(u, uerr) := json_Unmarshal val User.zero in
      match uerr with
      | None =>
        logInfo s "cache HIT" [("key", key); ("user_id", SprintUint id)] ;;;
        ret (Some u)
      | Some _ =>
        logWarn s "cache unmarshal failed" [("key", key)] ;;;
        ret None
      end
    | Some err =>
      if decide (err = redisNil) then
        logWarn s "cache MISS" [("key", key); ("user_id", SprintUint id)] ;;;
        ret None
      else
        logError s "cache GET error" [("key", key); ("err", Error err)] ;;;
        ret None
    end
  end.

(** [func (s *userService) GetByID(id uint)]: the cache first, then the
    store, then the cache is filled. *)
Definition GetByID s (id : N) : M W (option User.t * option error) :=
  let* hit := tryCache s id in
  match hit with
  | Some u => ret (Some u, None)
  | None =>
    let* found := call (RepoFindByID id) (FindByID (repo s) id) in
    match found with
    | inr err =>
      logError s "db fetch error in GetByID"
               [("user_id", SprintUint id); ("err", Error err)] ;;;
      ret (None, Some err)
    | inl u =>
      logInfo s "db fetch success in GetByID" [("user_id", SprintUint id)] ;;;
      match rdb s with
      | None => ret tt
      | Some c =>
        let key := cacheKeyUser id in
        let '(b, _) := json_Marshal u in
        if 0 <? len b then
          let* err := call (RedisSet key b userCacheTTL)
                           (Set_ c key b userCacheTTL) in
          match err with
          | None =>
            logInfo s "cache SET" [("key", key); ("user_id", SprintUint id);
                                   ("ttl", userCacheTTL_String)]
          | Some err =>
            logError s "cache SET error" [("key", key); ("err", Error err)]
          end
        else ret tt
      end ;;;
      ret (Some u, None)
    end
  end.

(** [CreateUser] and [GetUser] log the call and delegate. *)
Definition CreateUser s (req : RegisterRequest.t)
  : M W (option User.t * option error) :=
  logInfo s "CreateUser called" [("email", RegisterRequest.Email req)] ;;;
  Register s req.

Definition GetUser s (id : N) : M W (option User.t * option error) :=
  logInfo s "GetUser called" [("user_id", SprintUint id)] ;;;
  GetByID s id.

(** The name step of [UpdateUser]. *)
Definition applyName (u : User.t) (req : UpdateUserRequest.t) : User.t :=
  match UpdateUserRequest.Name req with
  | Some name => User.with_Name u (core.NormalizeName name)
  | None => u
  end.

(** The email step of [UpdateUser]: [inr err] is the early return. *)
Definition applyEmail s (u : User.t) (req : UpdateUserRequest.t)
  : M W (User.t + error) :=
  match UpdateUserRequest.Email req with
  | None => ret (inl u)
  | Some email =>
    if negb (String.eqb email (User.Email u)) then
      let* found := call (RepoFindByEmail email) (FindByEmail (repo s) email) in
      match found with
      | inl _ =>
        logWarn s "UpdateUser email exists" [("email", email)] ;;;
        ret (inr (errors_New "email already exists"))
      | inr _ => ret (inl (User.with_Email u email))
      end
    else ret (inl u)
  end.

(** The password step of [UpdateUser]: [inr err] is the early return. *)
Definition applyPassword s (id : N) (u : User.t) (req : UpdateUserRequest.t)
  : M W (User.t + error) :=
  match UpdateUserRequest.Password req with
  | None => ret (inl u)
  | Some raw =>
    let* (hash, err) := HashPassword raw in
    match err with
    | Some err =>
      logError s "UpdateUser hash error"
               [("user_id", SprintUint id); ("err", Error err)] ;;;
      ret (inr err)
    | None => ret (inl (User.with_Password u hash))
    end
  end.

(** [func (s *userService) UpdateUser(id uint, req
    models.UpdateUserRequest)] *)
Definition UpdateUser s (id : N) (req : UpdateUserRequest.t)
  : M W (option User.t * option error) :=
  logInfo s "UpdateUser called" [("user_id", SprintUint id)] ;;;
  let* found := call (RepoFindByID id) (FindByID (repo s) id) in
  match found with
  | inr err =>
    logError s "UpdateUser not found"
             [("user_id", SprintUint id); ("err", Error err)] ;;;
    ret (None, Some err)
  | inl u =>
    let u := applyName u req in
    let* r := applyEmail s u req in
    match r with
    | inr err => ret (None, Some err)
    | inl u =>
      let* r := applyPassword s id u req in
      match r with
      | inr err => ret (None, Some err)
      | inl u =>
        let* (u, err) := call (RepoUpdate u) (Update (repo s) u) in
        match err with
        | Some err =>
          logError s "UpdateUser db error"
                   [("user_id", SprintUint id); ("err", Error err)] ;;;
          ret (None, Some err)
        | None =>
          match rdb s with
          | None => ret tt
          | Some c =>
            let key := cacheKeyUser id in
            call (RedisDel key) (Del c key) ;;;
            setIfMarshalled c key u (ret tt) ;;;
            logInfo s "UpdateUser cache refreshed" [("key", key)]
          end ;;;
          ret (Some u, None)
        end
      end
    end
  end.

(** [func (s *userService) DeleteUser(id uint) error] *)
Definition DeleteUser s (id : N) : M W (option error) :=
  logInfo s "DeleteUser called" [("user_id", SprintUint id)] ;;;
  let* err := call (RepoDelete id) (Delete (repo s) id) in
  match err with
  | Some err =>
    logError s "DeleteUser db error"
             [("user_id", SprintUint id); ("err", Error err)] ;;;
    ret (Some err)
  | None =>
    match rdb s with
    | None => ret tt
    | Some c =>
      call (RedisDel (cacheKeyUser id)) (Del c (cacheKeyUser id)) ;;; ret tt
    end ;;;
    logInfo s "DeleteUser success" [("user_id", SprintUint id)] ;;;
    ret None
  end.

(** [if page < 1 { page = 1 }] *)
Definition clampPage (page : Z) : Z := if page <? 1 then 1 else page.

(** [if limit <= 0 || limit > 100 { limit = 10 }] *)
Definition clampLimit (limit : Z) : Z :=
  if (limit <=? 0) || (100 <? limit) then 10 else limit.

(** [func (s *userService) ListUsers(page, limit int)];
    [offset := (page - 1) * limit] is arithmetic on [int]. *)
Definition ListUsers s (page limit : Z)
  : M W (option PagedUsers.t * option error) :=
  logInfo s "ListUsers called"
          [("page", SprintInt page); ("limit", SprintInt limit)] ;;;
  let page := clampPage page in
  let limit := clampLimit limit in
  let offset := int_mul (int_sub page 1) limit in
  let* (items, total, err) := call (RepoList offset limit)
                                    (List (repo s) offset limit) in
  match err with
  | Some err =>
    logError s "ListUsers db error" [("err", Error err)] ;;;
    ret (None, Some err)
  | None =>
    let resp := PagedUsers.mk items total page limit in
    logInfo s "ListUsers success"
            [("count", SprintInt (Z.of_nat (length items)));
             ("total", SprintInt total)] ;;;
    ret (Some resp, None)
  end.

(** The cache write of GetByID after a store fetch of [u]: one SET with the
    fixed time-to-live when the encoder produced bytes, none otherwise. *)
Definition populate (id : N) (u : User.t) : list Event :=
  if 0 <? len (fst (json_Marshal u))
  then [RedisSet (cacheKeyUser id) (fst (json_Marshal u)) userCacheTTL]
  else [].

(** A call that either writes nothing to the cache, or returns a user and
    writes once: the encoding of that user's tagged fields, with the fixed
    time-to-live. *)
Definition cachesOnlyResult (x : (option User.t * option error) * W * list Event)
  : Prop :=
  cacheSets (events x) = []
  \/ exists u, result x = (Some u, None)
               /\ cacheSets (events x)
                  = [(fst (json_encode (jsonFields u)), userCacheTTL)].

End Methods.


(** ** Further classes of calls *)

Definition isRedisCall (e : Event) : bool :=
  match e with
  | RedisGet _ | RedisSet _ _ _ | RedisDel _ => true
  | _ => false
  end.

(** The key a cache command is issued on. *)
Definition redisKey (e : Event) : option string :=
  match e with
  | RedisGet key | RedisSet key _ _ | RedisDel key => Some key
  | _ => None
  end.

(** The cache commands of a call all bear the key [key]. *)
Definition onlyKey (key : string) (evs : list Event) : bool :=
  forallb (fun e => match redisKey e with
                    | Some k => String.eqb k key
                    | None => true
                    end) evs.

(** The claims Login signs for [u] at the two clock readings. *)
Definition loginClaims (u : User.t) (t_exp t_iat : Z) (exp : Duration)
  : gmap string any :=
  list_to_map [("sub", anyUint (User.ID u));
               ("exp", anyInt64 (Unix (t_exp + exp)));
               ("iat", anyInt64 (Unix t_iat));
               ("eml", anyString (User.Email u))].

(** The cache refresh of UpdateUser for the updated user [u]: DEL, then
    SET when the encoder produced bytes; nothing without a cache. *)
Definition refresh {W} `{P : Platform W} (s : userService W) (id : N)
    (u : User.t) : list Event :=
  match rdb s with
  | None => []
  | Some _ => RedisDel (cacheKeyUser id) :: populate id u
  end.

(** The world in which GetByID queries the store after a GET that failed
    with [err] in world [w1]: the miss or the error has been logged. *)
Definition afterFailedGet {W} (s : userService W) (id : N) (err : error)
    (w1 : W) : W :=
  if decide (err = redisNil) then
    logged "warn" s "cache MISS"
           [("key", cacheKeyUser id); ("user_id", SprintUint id)] w1
  else
    logged "error" s "cache GET error"
           [("key", cacheKeyUser id); ("err", Error err)] w1.


End services.

(* ===================================================================== *)
(** * package global, package middlewares                                 *)
(* ===================================================================== *)

Module global.
(** [CtxUserIDKey = "uid"] *)
Definition CtxUserIDKey : string := "uid".
End global.

Module middlewares.
Import GoLib.

(** What the middleware touches of a [*gin.Context]: the request headers,
    the per-request key/value store [Keys], and the response written when
    the chain is aborted. *)
Module Context.
Record t := mk {
  Header : gmap string string;
  Keys : gmap string any;
  Aborted : bool;
  Status : Z;
  Body : gmap string string          (* the gin.H written as JSON *)
}.
End Context.

(** [c.GetHeader(key)]: the empty string when the header is absent. *)
Definition GetHeader (c : Context.t) (key : string) : string :=
  default "" (Context.Header c !! key).

(** [c.Set(key, value)] *)
Definition Set_ (c : Context.t) (key : string) (value : any) : Context.t :=
  Context.mk (Context.Header c) (<[key := value]> (Context.Keys c))
             (Context.Aborted c) (Context.Status c) (Context.Body c).

(** [c.AbortWithStatusJSON(code, gin.H{"error": msg})]: no later handler
    runs. *)
Definition AbortWithStatusJSON (c : Context.t) (code : Z) (msg : string)
  : Context.t :=
  Context.mk (Context.Header c) (Context.Keys c) true code
             {[ "error" := msg ]}.

Definition StatusUnauthorized : Z := 401.

(** The claims of a parsed token: [jwt.Parse] fills a [jwt.MapClaims]; the
    middleware tests for it with a type assertion. *)
Inductive Claims :=
| MapClaims (m : gmap string any)
| OtherClaims.

Module Token.
Record t := mk { Valid : bool; Claims : Claims }.
End Token.

Section Auth.

(** [jwt.Parse(raw, keyFunc)] with the key function that returns the
    shared secret: signature and expiry are checked by the library. *)
Variable jwt_Parse : string -> string -> Token.t + error.

(** The compiler's result for [uint(v)] where the language leaves it
    open. *)
Variable uint_impl : float -> N.

(** The rest of the handler chain, run by [c.Next()]. *)
Variable Next : Context.t -> Context.t.

(** The type switch on [claims["sub"]]. A missing key reads as [nil]. *)
Definition setSubject (c : Context.t) (claims : gmap string any) : Context.t :=
  match claims !! "sub" with
  | Some (anyFloat64 v) =>
    Set_ c global.CtxUserIDKey (anyUint (uint_of_float64 uint_impl v))
  | Some (anyString v) =>
    match Atoi v with
    | (n, None) => Set_ c global.CtxUserIDKey (anyUint (uint_of_int n))
    | (_, Some _) => c
    end
  | _ => c
  end.

(** [func Auth(jwtSecret string) gin.HandlerFunc], the returned handler
    applied to a context. *)
Definition Auth (jwtSecret : string) (c : Context.t) : Context.t :=
  let auth := GetHeader c "Authorization" in
  if (len auth <? 8) || negb (String.eqb (take 7 auth) "Bearer ") then
    AbortWithStatusJSON c StatusUnauthorized "missing bearer token"
  else
    let raw := drop 7 auth in
    match jwt_Parse raw jwtSecret with
    | inr _ => AbortWithStatusJSON c StatusUnauthorized "invalid token"
    | inl t =>
      if negb (Token.Valid t) then
        AbortWithStatusJSON c StatusUnauthorized "invalid token"
      else
        match Token.Claims t with
        | OtherClaims =>
          AbortWithStatusJSON c StatusUnauthorized "invalid claims"
        | MapClaims claims => Next (setSubject c claims)
        end
    end.

End Auth.

End middlewares.

(* ===================================================================== *)
(** * package strconv, in full                                             *)
(* ===================================================================== *)

Module strconv.
Import GoLib.

Definition maxUint64 : Z := 2 ^ 64 - 1.

(** [cutoff]: the smallest number such that [cutoff * 10 > maxUint64]. *)
Definition cutoff : Z := maxUint64 / 10 + 1.

Definition syntaxError (fn : string) : error := otherError fn "invalid syntax".
Definition rangeError (fn : string) : error := otherError fn "value out of range".

(** The loop of [ParseUint(s, 10, 0)]: a byte that is not a decimal digit
    ends it with a syntax error; an overflow ends it with a range error and
    the largest value, before the bytes that follow are looked at. *)
Fixpoint parseUintLoop (s : string) (n : Z) : Z * option error :=
  match s with
  | EmptyString => (n, None)
  | String c r =>
    let d := byteval c - 48 in
    if (0 <=? d) && (d <=? 9) then
      if cutoff <=? n then (maxUint64, Some (rangeError "strconv.ParseUint"))
      else
        let n1 := n * 10 + d in
        if maxUint64 <? n1 then (maxUint64, Some (rangeError "strconv.ParseUint"))
        else parseUintLoop r n1
    else (0, Some (syntaxError "strconv.ParseUint"))
  end.

(** [strconv.ParseUint(s, 10, 0)] *)
Definition ParseUint (s : string) : Z * option error :=
  match s with
  | EmptyString => (0, Some (syntaxError "strconv.ParseUint"))
  | _ => parseUintLoop s 0
  end.

Definition isRangeError (e : error) : bool :=
  match e with
  | otherError _ msg => String.eqb msg "value out of range"
  | _ => false
  end.

(** [strconv.ParseInt(s, 10, 0)] *)
Definition ParseInt (s : string) : Z * option error :=
  match s with
  | EmptyString => (0, Some (syntaxError "strconv.ParseInt"))
  | String c0 r =>
    let neg := Ascii.eqb c0 "-" in
    let body := if Ascii.eqb c0 "+" || neg then r else s in
    let '(un, err) := ParseUint body in
    match err with
    | Some e =>
      if negb (isRangeError e) then (0, Some (syntaxError "strconv.ParseInt"))
      else if neg then (int_min, Some (rangeError "strconv.ParseInt"))
      else (int_max, Some (rangeError "strconv.ParseInt"))
    | None =>
      if negb neg && (2 ^ 63 <=? un) then
        (int_max, Some (rangeError "strconv.ParseInt"))
      else if neg && (2 ^ 63 <? un) then
        (int_min, Some (rangeError "strconv.ParseInt"))
      else (if neg then - un else un, None)
    end
  end.

(** [strconv.Atoi]: the fast path for strings of 1 to 18 bytes, which
    cannot overflow, and [ParseInt] for the others. The function [Atoi]
    above accepts the same strings with the same values; this one also
    gives the value Go returns along with an error. *)
Definition Atoi (s : string) : Z * option error :=
  let sLen := len s in
  if (0 <? sLen) && (sLen <? 19) then
    match s with
    | EmptyString => (0, Some (syntaxError "strconv.Atoi"))
    | String c0 r =>
      let body := if Ascii.eqb c0 "-" || Ascii.eqb c0 "+" then r else s in
      match body with
      | EmptyString => (0, Some (syntaxError "strconv.Atoi"))
      | _ =>
        match parseDigits body 0 with
        | None => (0, Some (syntaxError "strconv.Atoi"))
        | Some n => (if Ascii.eqb c0 "-" then - n else n, None)
        end
      end
    end
  else
    let '(i64, err) := ParseInt s in
    (i64, match err with
          | Some e => Some (if isRangeError e then rangeError "strconv.Atoi"
                            else syntaxError "strconv.Atoi")
          | None => None
          end).

End strconv.

(* ===================================================================== *)
(** * package repositories                                                 *)
(* ===================================================================== *)

Module repositories.
Import GoLib models services.

Section Repo.
Context {W : Type}.

(** What [userRepo] asks of [*gorm.DB]: one field per chain of calls, each
    giving the [.Error] of the chain and what the chain wrote through its
    pointer argument. *)
Record DB := {
  (** [db.Create(u)] *)
  dbCreate : User.t -> W -> (User.t * option error) * W;
  (** [db.Where("email = ?", email).First(&u)] *)
  dbFirstByEmail : string -> W -> (User.t * option error) * W;
  (** [db.First(&u, id)] *)
  dbFirstByID : N -> W -> (User.t * option error) * W;
  (** [db.Save(u)] *)
  dbSave : User.t -> W -> (User.t * option error) * W;
  (** [db.Delete(&models.User{}, id)]: [Error] and [RowsAffected] *)
  dbDelete : N -> W -> (option error * Z) * W;
  (** [db.Model(&models.User{}).Count(&total)] *)
  dbCount : W -> (Z * option error) * W;
  (** [db.Limit(limit).Offset(offset).Order("id ASC").Find(&items)] *)
  dbFind : Z -> Z -> W -> (list User.t * option error) * W
}.

Definition userRepo_FindByEmail (db : DB) (email : string) (w : W)
  : (User.t + error) * W :=
  let '((u, err), w') := dbFirstByEmail db email w in
  (match err with Some e => inr e | None => inl u end, w').

Definition userRepo_FindByID (db : DB) (id : N) (w : W)
  : (User.t + error) * W :=
  let '((u, err), w') := dbFirstByID db id w in
  (match err with Some e => inr e | None => inl u end, w').

(** [[
res := r.db.Delete(&models.User{}, id)
if res.Error != nil { return res.Error }
if res.RowsAffected == 0 { return gorm.ErrRecordNotFound }
return nil
]] *)
Definition userRepo_Delete (db : DB) (id : N) (w : W) : option error * W :=
  let '((err, rows), w') := dbDelete db id w in
  (match err with
   | Some e => Some e
   | None => if rows =? 0 then Some ErrRecordNotFound else None
   end, w').

(** Count, then the page; [nil, 0, err] on either failure. *)
Definition userRepo_List (db : DB) (offset limit : Z) (w : W)
  : (list User.t * Z * option error) * W :=
  let '((total, err), w1) := dbCount db w in
  match err with
  | Some e => (([], 0, Some e), w1)
  | None =>
    let '((items, err), w2) := dbFind db offset limit w1 in
    match err with
    | Some e => (([], 0, Some e), w2)
    | None => ((items, total, None), w2)
    end
  end.

(** [NewUserRepository(db)] *)
Definition NewUserRepository (db : DB) : UserRepository W := {|
  Create := dbCreate db;
  FindByEmail := userRepo_FindByEmail db;
  FindByID := userRepo_FindByID db;
  Update := dbSave db;
  Delete := userRepo_Delete db;
  List := userRepo_List db
|}.

End Repo.
Arguments DB : clear implicits.

End repositories.

(* ===================================================================== *)
(** * package handlers                                                     *)
(* ===================================================================== *)

Module handlers.
Import GoLib models services.
Local Open Scope svc_scope.

(** What a handler reads of the request: the path parameters, the query
    string and the body. *)
Module Request.
Record t := mk {
  Params : gmap string string;
  Query : gmap string string;
  Body : string
}.
End Request.

(** A user as [c.JSON] writes it: encoding/json at the tagged fields; a
    nil pointer is written as null. *)
Definition userBody (u : option User.t) : option UserJSON.t :=
  option_map jsonFields u.

(** What a handler writes. *)
Inductive payload :=
| NoBody                                   (* c.Status(code) *)
| ErrorBody (msg : string)                 (* gin.H{"error": msg} *)
| UserBody (u : option UserJSON.t)         (* a *models.User *)
| TokenBody (token : string)               (* models.AuthResponse *)
| PagedBody (p : option (list UserJSON.t * Z * Z * Z)). (* a *models.PagedUsers *)

Definition pagedBody (p : option PagedUsers.t)
  : option (list UserJSON.t * Z * Z * Z) :=
  option_map (fun p => (List.map jsonFields (PagedUsers.Items p),
                        PagedUsers.Total p, PagedUsers.Page p,
                        PagedUsers.Limit p)) p.

Module Response.
Record t := mk { Status : Z; Body : payload }.
End Response.

Definition StatusOK : Z := 200.
Definition StatusCreated : Z := 201.
Definition StatusNoContent : Z := 204.
Definition StatusBadRequest : Z := 400.
Definition StatusUnauthorized : Z := 401.
Definition StatusNotFound : Z := 404.
Definition StatusInternalServerError : Z := 500.

(** [c.Param(key)]: the empty string when the route has no such
    parameter. *)
Definition Param (c : Request.t) (key : string) : string :=
  default "" (Request.Params c !! key).

(** [c.DefaultQuery(key, def)]: [def] when the key is absent from the
    query string. *)
Definition DefaultQuery (c : Request.t) (key def : string) : string :=
  default def (Request.Query c !! key).

(** [[
func parseUint(s string) (uint, error) {
	id64, err := strconv.ParseUint(s, 10, 0)
	return uint(id64), err
}
]] *)
Definition parseUint (s : string) : N * option error :=
  let '(id64, err) := strconv.ParseUint s in (Z.to_N id64, err).

Section Handlers.
Context {W : Type}.

(** [services.UserService], the interface the handlers are written
    against. *)
Record UserService := {
  svcRegister : RegisterRequest.t -> M W (option User.t * option error);
  svcLogin : LoginRequest.t -> string -> Duration -> M W (string * option error);
  svcGetByID : N -> M W (option User.t * option error);
  svcCreateUser : RegisterRequest.t -> M W (option User.t * option error);
  svcGetUser : N -> M W (option User.t * option error);
  svcUpdateUser : N -> UpdateUserRequest.t -> M W (option User.t * option error);
  svcDeleteUser : N -> M W (option error);
  svcListUsers : Z -> Z -> M W (option PagedUsers.t * option error)
}.

(** [services.NewUserService(repo, rdb, rlog)] *)
Definition NewUserService `{P : Platform W} (s : userService W) : UserService := {|
  svcRegister := Register s;
  svcLogin := Login s;
  svcGetByID := GetByID s;
  svcCreateUser := CreateUser s;
  svcGetUser := GetUser s;
  svcUpdateUser := UpdateUser s;
  svcDeleteUser := DeleteUser s;
  svcListUsers := ListUsers s
|}.

(** [c.ShouldBindJSON(&req)] at the three request types: the struct as the
    binder leaves it and the binding or validation error. *)
Record Binder := {
  bindRegister : string -> RegisterRequest.t * option error;
  bindLogin : string -> LoginRequest.t * option error;
  bindUpdate : string -> UpdateUserRequest.t * option error
}.

Record UserHandler := {
  svc : UserService;
  jwtSecret : string;
  jwtExpires : Duration
}.

Variable B : Binder.
Implicit Type h : UserHandler.

Definition respond (code : Z) (body : payload) : M W Response.t :=
  ret (Response.mk code body).

Definition Register h (c : Request.t) : M W Response.t :=
  let '(req, err) := bindRegister B (Request.Body c) in
  match err with
  | Some err => respond StatusBadRequest (ErrorBody (Error err))
  | None =>
    let* (u, err) := svcRegister (svc h) req in
    match err with
    | Some err => respond StatusBadRequest (ErrorBody (Error err))
    | None => respond StatusCreated (UserBody (userBody u))
    end
  end.

Definition Login h (c : Request.t) : M W Response.t :=
  let '(req, err) := bindLogin B (Request.Body c) in
  match err with
  | Some err => respond StatusBadRequest (ErrorBody (Error err))
  | None =>
    let* (tok, err) := svcLogin (svc h) req (jwtSecret h) (jwtExpires h) in
    match err with
    | Some err => respond StatusUnauthorized (ErrorBody (Error err))
    | None => respond StatusOK (TokenBody tok)
    end
  end.

Definition GetUser h (c : Request.t) : M W Response.t :=
  let '(id, err) := parseUint (Param c "id") in
  match err with
  | Some _ => respond StatusBadRequest (ErrorBody "invalid id")
  | None =>
    let* (u, err) := svcGetUser (svc h) id in
    match err with
    | Some _ => respond StatusNotFound (ErrorBody "user not found")
    | None => respond StatusOK (UserBody (userBody u))
    end
  end.

Definition CreateUser h (c : Request.t) : M W Response.t :=
  let '(req, err) := bindRegister B (Request.Body c) in
  match err with
  | Some err => respond StatusBadRequest (ErrorBody (Error err))
  | None =>
    let* (u, err) := svcCreateUser (svc h) req in
    match err with
    | Some err => respond StatusBadRequest (ErrorBody (Error err))
    | None => respond StatusCreated (UserBody (userBody u))
    end
  end.

Definition UpdateUser h (c : Request.t) : M W Response.t :=
  let '(id, err) := parseUint (Param c "id") in
  match err with
  | Some _ => respond StatusBadRequest (ErrorBody "invalid id")
  | None =>
    let '(req, err) := bindUpdate B (Request.Body c) in
    match err with
    | Some err => respond StatusBadRequest (ErrorBody (Error err))
    | None =>
      let* (u, err) := svcUpdateUser (svc h) id req in
      match err with
      | Some err => respond StatusBadRequest (ErrorBody (Error err))
      | None => respond StatusOK (UserBody (userBody u))
      end
    end
  end.

Definition DeleteUser h (c : Request.t) : M W Response.t :=
  let '(id, err) := parseUint (Param c "id") in
  match err with
  | Some _ => respond StatusBadRequest (ErrorBody "invalid id")
  | None =>
    let* err := svcDeleteUser (svc h) id in
    match err with
    | Some _ => respond StatusNotFound (ErrorBody "user not found")
    | None => respond StatusNoContent NoBody
    end
  end.

(** The two conversions ignore their error: [page, _ := strconv.Atoi(...)]. *)
Definition ListUsers h (c : Request.t) : M W Response.t :=
  let '(page, _) := strconv.Atoi (DefaultQuery c "page" "1") in
  let '(limit, _) := strconv.Atoi (DefaultQuery c "limit" "10") in
  let* (paged, err) := svcListUsers (svc h) page limit in
  match err with
  | Some err => respond StatusInternalServerError (ErrorBody (Error err))
  | None => respond StatusOK (PagedBody (pagedBody paged))
  end.

End Handlers.
Arguments UserService : clear implicits.
Arguments UserHandler : clear implicits.

(** ** The wiring of main.go *)

Section Wiring.
Context {W : Type} `{P : Platform W}.

(** The handler over the service built by [NewUserService]:
    [handlers.NewUserHandler(svc, jwtSecret, jwtExp)]. *)
Definition wired (s : userService W) (secret : string) (exp : Duration)
  : UserHandler W :=
  {| svc := NewUserService s;
     jwtSecret := secret;
     jwtExpires := exp |}.

(** [[
userRepo := repositories.NewUserRepository(db)
userSvc := services.NewUserService(userRepo, rdb, rlog)
]] *)
Definition assemble (db : repositories.DB W) (rdb_ : option (RedisClient W))
    (log_ : option (Logger W)) : userService W :=
  {| repo := repositories.NewUserRepository db; rdb := rdb_; log := log_ |}.

End Wiring.


End handlers.

(* ===================================================================== *)
(** * package redislog                                                     *)
(* ===================================================================== *)

Module redislog.
Import GoLib.

(** The part of a Redis server the logger talks to: the lists it holds
    and the time-to-live of their keys. The three commands below are the
    ones of the Redis documentation, on a key that holds a list or
    nothing. *)
Module Server.
Record t := mk {
  lists : gmap string (list string);
  expiry : gmap string Duration
}.
End Server.

(** [LPUSH key value]: the value becomes the head of the list, which is
    created if the key is absent. *)
Definition LPush (key value : string) (srv : Server.t) : Server.t :=
  Server.mk (<[key := value :: default [] (Server.lists srv !! key)]>
               (Server.lists srv))
            (Server.expiry srv).

(** [LTRIM key start stop]: keep the elements from index [start] to index
    [stop], both included; a negative index counts from the end; a range
    that is empty removes the key. *)
Definition LTrim (key : string) (start stop : Z) (srv : Server.t) : Server.t :=
  match Server.lists srv !! key with
  | None => srv
  | Some l =>
    let llen := Z.of_nat (length l) in
    let start := if start <? 0 then llen + start else start in
    let stop := if stop <? 0 then llen + stop else stop in
    let start := if start <? 0 then 0 else start in
    if (stop <? start) || (llen <=? start) then
      Server.mk (delete key (Server.lists srv)) (delete key (Server.expiry srv))
    else
      let stop := if llen <=? stop then llen - 1 else stop in
      Server.mk (<[key := firstn (Z.to_nat (stop - start + 1))
                            (skipn (Z.to_nat start) l)]>
                   (Server.lists srv))
                (Server.expiry srv)
  end.

(** [EXPIRE key ttl]: set the time-to-live of an existing key. *)
Definition Expire (key : string) (ttl : Duration) (srv : Server.t) : Server.t :=
  match Server.lists srv !! key with
  | None => srv
  | Some _ => Server.mk (Server.lists srv) (<[key := ttl]> (Server.expiry srv))
  end.

(** [[
type Logger struct {
	rdb       *redis.Client
	key       string
	max       int64
	retention time.Duration
}
]]
    [rdb] tells whether the client is there. *)
Module Logger.
Record t := mk {
  rdb : bool;
  key : string;
  max : Z;
  retention : Duration
}.
End Logger.

(** [New(rdb, key, max, retention)] *)
Definition New (rdb : bool) (key : string) (max : Z) (retention : Duration)
  : Logger.t := Logger.mk rdb key max retention.

(** The method [log] of a non-nil logger; [entry] is the JSON text of the
    entry, stamped with the current time. The errors of the three commands
    are ignored. *)
Definition log (l : Logger.t) (entry : string) (srv : Server.t) : Server.t :=
  if negb (Logger.rdb l) then srv
  else
    let srv := LPush (Logger.key l) entry srv in
    let srv := LTrim (Logger.key l) 0 (int_sub (Logger.max l) 1) srv in
    if 0 <? Logger.retention l
    then Expire (Logger.key l) (Logger.retention l) srv
    else srv.

(** The entries held under the logger's key, newest first. *)
Definition entries (l : Logger.t) (srv : Server.t) : list string :=
  default [] (Server.lists srv !! Logger.key l).

End redislog.

(* ===================================================================== *)
(** * package mocks: test doubles                                          *)
(* ===================================================================== *)

Module mocks.
Import GoLib models services.

(** The world of the doubles is the content of the mocked cache server. *)
Abbreviation World := (gmap string string).

(** [UserRepositoryMock]: every method returns what the test configured
    for its arguments ([repo.On(...).Return(...)]) and touches nothing. *)
Module Returns.
Record t := mk {
  Create : User.t -> User.t * option error;
  FindByEmail : string -> User.t + error;
  FindByID : N -> User.t + error;
  Update : User.t -> User.t * option error;
  Delete : N -> option error;
  List : Z -> Z -> list User.t * Z * option error
}.
End Returns.

Definition UserRepositoryMock (r : Returns.t) : UserRepository World := {|
  services.Create u w := (Returns.Create r u, w);
  services.FindByEmail email w := (Returns.FindByEmail r email, w);
  services.FindByID id w := (Returns.FindByID r id, w);
  services.Update u w := (Returns.Update r u, w);
  services.Delete id w := (Returns.Delete r id, w);
  services.List offset limit w := (Returns.List r offset limit, w)
|}.

(** A repository on which nothing is configured to succeed. *)
Definition noReturns : Returns.t := {|
  Returns.Create u := (u, Some (otherError "mock" "unexpected call"));
  Returns.FindByEmail _ := inr ErrRecordNotFound;
  Returns.FindByID _ := inr ErrRecordNotFound;
  Returns.Update u := (u, Some (otherError "mock" "unexpected call"));
  Returns.Delete _ := Some ErrRecordNotFound;
  Returns.List _ _ := ([], 0, Some (otherError "mock" "unexpected call"))
|}.

(** The mocked cache: a key/value map. GET of an absent key is
    [redis.Nil]; SET and DEL succeed. *)
Definition RedisMock : RedisClient World := {|
  Get key w := match w !! key with
               | Some v => ((v, None), w)
               | None => (("", Some redisNil), w)
               end;
  Set_ key value _ w := (None, <[key := value]> w);
  Del key w := (None, delete key w)
|}.

(** A cache server that cannot be reached. *)
Definition RedisDown : RedisClient World := {|
  Get _ w := (("", Some (otherError "redis" "connection refused")), w);
  Set_ _ _ _ w := (Some (otherError "redis" "connection refused"), w);
  Del _ w := (Some (otherError "redis" "connection refused"), w)
|}.

Definition quote : string := String (byte 34) EmptyString.

(** A stand-in for the encoder: the tagged fields in the order of the
    struct, instants as plain numbers. *)
Definition encodeUser (j : UserJSON.t) : string :=
  "{" +:+ quote +:+ "id" +:+ quote +:+ ":" +:+ SprintUint (UserJSON.id j)
  +:+ "," +:+ quote +:+ "name" +:+ quote +:+ ":"
  +:+ quote +:+ UserJSON.name j +:+ quote
  +:+ "," +:+ quote +:+ "email" +:+ quote +:+ ":"
  +:+ quote +:+ UserJSON.email j +:+ quote
  +:+ "," +:+ quote +:+ "created_at" +:+ quote +:+ ":"
  +:+ SprintInt (UserJSON.created_at j)
  +:+ "," +:+ quote +:+ "updated_at" +:+ quote +:+ ":"
  +:+ SprintInt (UserJSON.updated_at j) +:+ "}".

(** A stand-in for the decoder: it reads back the documents of the users
    in [known] and rejects every other text. *)
Definition decodeUser (known : list UserJSON.t) (text : string)
  : UserJSON.t * option error :=
  match List.find (fun j => String.eqb (encodeUser j) text) known with
  | Some j => (j, None)
  | None => (UserJSON.mk 0 "" "" 0 0,
             Some (otherError "json" "invalid character"))
  end.

(** A stand-in for bcrypt with a fixed salt. *)
Definition fakeHash (raw : string) : string := "$2a$10$fixedsalt$" +:+ raw.

Definition PlatformMock (known : list UserJSON.t) : Platform World := {|
  bcrypt_GenerateFromPassword raw _ w := ((fakeHash raw, None), w);
  bcrypt_CompareHashAndPassword hash raw :=
    if String.eqb hash (fakeHash raw) then None
    else Some (otherError "bcrypt"
                 "hashedPassword is not the hash of the given password");
  jwt_SignedString _ key := ("header.payload." +:+ key, None);
  time_Now w := (1700000000000000000, w);
  json_encode j := (encodeUser j, None);
  json_decode := decodeUser known
|}.

(** [newSvc(repo, rdb, nil)] of the service tests. *)
Definition newSvc (r : Returns.t) (rdb : option (RedisClient World))
  : userService World :=
  {| repo := UserRepositoryMock r; rdb := rdb; log := None |}.

(** A logger over a nil client, [redislog.New(nil, "", 0, 0)]. *)
Definition noLog : Logger World := {| push := None |}.

(** ** Fixtures *)

Definition ahmed : User.t :=
  User.mk 5 "Ahmed" "a@b.c" (fakeHash "123456") 0 0.

(** The store refuses the insert because another request took the email
    after the pre-check. *)
Definition lateDuplicate : Returns.t := {|
  Returns.Create u := (u, Some ErrDuplicatedKey);
  Returns.FindByEmail _ := inr ErrRecordNotFound;
  Returns.FindByID id := if (id =? 5)%N then inl ahmed else inr ErrRecordNotFound;
  Returns.Update u := (u, Some ErrDuplicatedKey);
  Returns.Delete _ := Some ErrRecordNotFound;
  Returns.List _ _ := ([], 0, None)
|}.

(** A store holding [ahmed] only; inserts get identifier 10. *)
Definition oneUser : Returns.t := {|
  Returns.Create u :=
    (User.mk 10 (User.Name u) (User.Email u) (User.Password u) 0 0, None);
  Returns.FindByEmail email :=
    if String.eqb email "a@b.c" then inl ahmed else inr ErrRecordNotFound;
  Returns.FindByID id := if (id =? 5)%N then inl ahmed else inr ErrRecordNotFound;
  Returns.Update u := (u, None);
  Returns.Delete id := if (id =? 5)%N then None else Some ErrRecordNotFound;
  Returns.List offset limit := ([ahmed], 1, None)
|}.

(** A store whose queries fail for a reason other than absence. *)
Definition brokenReads : Returns.t := {|
  Returns.Create u :=
    (User.mk 10 (User.Name u) (User.Email u) (User.Password u) 0 0, None);
  Returns.FindByEmail _ := inr (otherError "mysql" "connection lost");
  Returns.FindByID _ := inr (otherError "mysql" "connection lost");
  Returns.Update u := (u, None);
  Returns.Delete _ := Some (otherError "mysql" "connection lost");
  Returns.List _ _ := ([], 0, Some (otherError "mysql" "connection lost"))
|}.

(** A store holding [ahmed] and [sara]. *)
Definition sara : User.t :=
  User.mk 7 "Sara" "s@t.u" (fakeHash "abcdef") 0 0.

Definition twoUsers : Returns.t := {|
  Returns.Create u :=
    (User.mk 10 (User.Name u) (User.Email u) (User.Password u) 0 0, None);
  Returns.FindByEmail email :=
    if String.eqb email "a@b.c" then inl ahmed
    else if String.eqb email "s@t.u" then inl sara
    else inr ErrRecordNotFound;
  Returns.FindByID id :=
    if (id =? 5)%N then inl ahmed
    else if (id =? 7)%N then inl sara
    else inr ErrRecordNotFound;
  Returns.Update u := (u, None);
  Returns.Delete id :=
    if (id =? 5)%N || (id =? 7)%N then None else Some ErrRecordNotFound;
  Returns.List offset limit := ([ahmed; sara], 2, None)
|}.

(** The platform of the examples: its decoder knows the document of
    [ahmed]. *)
Definition platform : Platform World := PlatformMock [jsonFields ahmed].

(** The services of the examples. *)
Definition cached : userService World := newSvc twoUsers (Some RedisMock).

Definition logging : userService World :=
  {| repo := UserRepositoryMock twoUsers;
     rdb := Some RedisMock;
     log := Some noLog |}.

Definition racing : userService World := newSvc lateDuplicate None.

Definition flaky : userService World := newSvc brokenReads (Some RedisMock).

Definition ahmedAgain : RegisterRequest.t :=
  RegisterRequest.mk "  aHMED " "a@b.c" "123456".

Definition newcomer : RegisterRequest.t :=
  RegisterRequest.mk "  aHMED " "x@y.z" "123456".

Definition onlyEmail (email : string) : UpdateUserRequest.t :=
  UpdateUserRequest.mk None (Some email) None.

(** A cache that holds the document of [ahmed] under his key, and one that
    holds a text that is not a document. *)
Definition warm : World := {[ "user:5" := encodeUser (jsonFields ahmed) ]}.
Definition garbled : World := {[ "user:5" := "<html>" ]}.

(** ** Doubles for the middleware *)

(** A verifier that accepts three tokens signed with "test-secret": one
    whose subject is the number 1, one whose subject is the string "42",
    one whose subject is the string "admin". *)
Definition parseMock (raw secret : string)
  : middlewares.Token.t + error :=
  if negb (String.eqb secret "test-secret") then
    inr (otherError "jwt" "signature is invalid")
  else if String.eqb raw "tok.number" then
    inl (middlewares.Token.mk true
           (middlewares.MapClaims {[ "sub" := anyFloat64 1%float ]}))
  else if String.eqb raw "tok.string" then
    inl (middlewares.Token.mk true
           (middlewares.MapClaims {[ "sub" := anyString "42" ]}))
  else if String.eqb raw "tok.name" then
    inl (middlewares.Token.mk true
           (middlewares.MapClaims {[ "sub" := anyString "admin" ]}))
  else inr (otherError "jwt" "token is malformed").

(** A request carrying the bearer token [raw]. *)
Definition request (raw : string) : middlewares.Context.t :=
  middlewares.Context.mk {[ "Authorization" := "Bearer " +:+ raw ]}
                         ∅ false 0 ∅.

(** A handler chain that does nothing more. *)
Definition lastHandler (c : middlewares.Context.t) : middlewares.Context.t := c.

(** A compiler that yields 0 where the conversion is left open. *)
Definition uintImpl (v : float) : N := 0%N.


(** ** Further doubles *)

(** A service without a cache. *)
Definition plain : userService World := newSvc twoUsers None.

(** bcrypt as the library ships it: a password of more than 72 bytes is
    refused. *)
Definition strict : Platform World := {|
  bcrypt_GenerateFromPassword raw _ w :=
    if 72 <? len raw
    then (("", Some (otherError "bcrypt" "password length exceeds 72 bytes")), w)
    else ((fakeHash raw, None), w);
  bcrypt_CompareHashAndPassword := @bcrypt_CompareHashAndPassword _ platform;
  jwt_SignedString := @jwt_SignedString _ platform;
  time_Now := @time_Now _ platform;
  json_encode := @json_encode _ platform;
  json_decode := @json_decode _ platform
|}.

(** A password of 80 bytes. *)
Definition longPassword : string :=
  String.concat "" (List.repeat "0123456789" 8).

(** [newcomer] as the store of the examples returns it. *)
Definition joined : User.t :=
  User.mk 10 "AHMED" "x@y.z" (fakeHash "123456") 0 0.

(** A verifier that also accepts a token whose subject is the string
    "-1". *)
Definition parseSigned (raw secret : string)
  : middlewares.Token.t + error :=
  if String.eqb secret "test-secret" && String.eqb raw "tok.negative" then
    inl (middlewares.Token.mk true
           (middlewares.MapClaims {[ "sub" := anyString "-1" ]}))
  else parseMock raw secret.

(** A request without an Authorization header. *)
Definition anonymous : middlewares.Context.t :=
  middlewares.Context.mk ∅ ∅ false 0 ∅.

(** A binder that knows the bodies the examples send, by name, and fails
    on every other body as on an empty one. *)
Definition BinderMock : handlers.Binder := {|
  handlers.bindRegister body :=
    if String.eqb body "newcomer" then (newcomer, None)
    else if String.eqb body "ahmedAgain" then (ahmedAgain, None)
    else (RegisterRequest.mk "" "" "", Some (otherError "binding" "EOF"));
  handlers.bindLogin body :=
    if String.eqb body "stranger"
    then (LoginRequest.mk "x@y.z" "123456", None)
    else if String.eqb body "guess"
    then (LoginRequest.mk "a@b.c" "letmein", None)
    else (LoginRequest.mk "" "", Some (otherError "binding" "EOF"));
  handlers.bindUpdate body :=
    if String.eqb body "rename"
    then (UpdateUserRequest.mk (Some " mona ") None None, None)
    else (UpdateUserRequest.mk None None None,
          Some (otherError "binding" "EOF"))
|}.

(** The request of a route with the path parameter [id]. *)
Definition onUser (id body : string) : handlers.Request.t :=
  handlers.Request.mk {[ "id" := id ]} ∅ body.

(** A request with a body only. *)
Definition posted (body : string) : handlers.Request.t :=
  handlers.Request.mk ∅ ∅ body.

(** A database that answers from a fixed table. *)
Definition DBMock (table : list User.t) : repositories.DB World := {|
  repositories.dbCreate u w :=
    ((User.mk 10 (User.Name u) (User.Email u) (User.Password u) 0 0, None), w);
  repositories.dbFirstByEmail email w :=
    (match List.find (fun u => String.eqb (User.Email u) email) table with
     | Some u => (u, None)
     | None => (User.zero, Some ErrRecordNotFound)
     end, w);
  repositories.dbFirstByID id w :=
    (match List.find (fun u => (User.ID u =? id)%N) table with
     | Some u => (u, None)
     | None => (User.zero, Some ErrRecordNotFound)
     end, w);
  repositories.dbSave u w := ((u, None), w);
  repositories.dbDelete id w :=
    ((None, if existsb (fun u => (User.ID u =? id)%N) table then 1 else 0), w);
  repositories.dbCount w := ((Z.of_nat (length table), None), w);
  repositories.dbFind offset limit w :=
    ((firstn (Z.to_nat limit) (skipn (Z.to_nat offset) table), None), w)
|}.

(** The logger of the examples keeps the last two entries under
    "logs:app"; the server holds two entries. *)
Definition appLog : redislog.Logger.t := redislog.New true "logs:app" 2 0.

Definition twoEntries : redislog.Server.t :=
  redislog.Server.mk {[ "logs:app" := ["second"; "first"] ]} ∅.

(** A verifier that also accepts a token whose subject is the decimal text
    of the identifier 2^63. *)
Definition parseWide (raw secret : string)
  : middlewares.Token.t + error :=
  if String.eqb secret "test-secret" && String.eqb raw "tok.large" then
    inl (middlewares.Token.mk true
           (middlewares.MapClaims
              {[ "sub" := anyString "9223372036854775808" ]}))
  else parseMock raw secret.

End mocks.

(* ===================================================================== *)
(** * Properties                                                           *)
(* ===================================================================== *)

Import GoLib models services.
Local Open Scope svc_scope.

Arguments metaMap : simpl never.

(** ** The monad *)

Section MonadFacts.
Context {W : Type}.

Lemma result_bind {A B} (m : M W A) (k : A -> M W B) w :
  result (bind m k w) = result (k (result (m w)) (world (m w))).
Proof.
  unfold bind, result, world.
  destruct (m w) as [[a w1] e1]; simpl.
  destruct (k a w1) as [[b w2] e2]; reflexivity.
Qed.

Lemma world_bind {A B} (m : M W A) (k : A -> M W B) w :
  world (bind m k w) = world (k (result (m w)) (world (m w))).
Proof.
  unfold bind, result, world.
  destruct (m w) as [[a w1] e1]; simpl.
  destruct (k a w1) as [[b w2] e2]; reflexivity.
Qed.

Lemma events_bind {A B} (m : M W A) (k : A -> M W B) w :
  events (bind m k w)
  = events (m w) ++ events (k (result (m w)) (world (m w))).
Proof.
  unfold bind, result, world, events.
  destruct (m w) as [[a w1] e1]; simpl.
  destruct (k a w1) as [[b w2] e2]; reflexivity.
Qed.

Lemma withoutLogs_app (a b : list Event) :
  withoutLogs (a ++ b) = withoutLogs a ++ withoutLogs b.
Proof. unfold withoutLogs. apply List.filter_app. Qed.

End MonadFacts.

(** ** Machine integers *)

Ltac int_bounds :=
  unfold int_min, int_max in *;
  change (2 ^ 63) with 9223372036854775808 in *.

Lemma wrap_int_small z : int_min <= z <= int_max -> wrap_int z = z.
Proof.
  unfold wrap_int, int_min, int_max.
  change (2 ^ 63) with 9223372036854775808.
  change (2 ^ 64) with 18446744073709551616.
  intros H. rewrite Z.mod_small by lia. lia.
Qed.

Lemma clampPage_ge1 page : 1 <= clampPage page.
Proof. unfold clampPage. destruct (Z.ltb_spec page 1); lia. Qed.

Lemma clampLimit_range limit : 1 <= clampLimit limit <= 100.
Proof.
  unfold clampLimit.
  destruct (Z.leb_spec limit 0); destruct (Z.ltb_spec 100 limit);
    cbn [orb]; lia.
Qed.

(** ** Register *)

Section ServiceProps.
Context {W : Type} `{P : Platform W}.
Implicit Types (s : userService W) (w : W).

(** Expose the optional logger and its optional client. *)
Ltac logs s :=
  unfold logged, logInfo, logWarn, logError, logAt;
  destruct (log s) as [[[?|]]|]; simpl.

(** C6. When the store finds a user under the email of a Register request,
    Register fails with "email already exists"; the only call it has made
    to the store, the hasher or the cache is that lookup: no password is
    hashed, nothing is inserted and nothing is written to the cache. *)
Theorem Register_existing_email s req w found w1 :
  FindByEmail (repo s) (RegisterRequest.Email req) w = (inl found, w1) ->
  result (Register s req w) = (None, Some (errors_New "email already exists"))
  /\ world (Register s req w)
     = logged "warn" s "register email exists"
              [("email", RegisterRequest.Email req)] w1
  /\ withoutLogs (events (Register s req w))
     = [RepoFindByEmail (RegisterRequest.Email req)]
  /\ forallb quiet (events (Register s req w)) = true.
Proof.
  intros H. unfold Register, bind, call. rewrite H.
  logs s; auto.
Qed.

(** C10. When the store's find-by-email returns an error, whatever the
    error is, Register goes on: it hashes the password and, if hashing
    succeeds, attempts the insert. Its result is the hashing error, else the
    insert error, else the created user; the error of the lookup is not
    part of it. *)
Theorem Register_precheck_failure_ignored
    s req w e w1 hash herr w2 u' cerr w3 :
  FindByEmail (repo s) (RegisterRequest.Email req) w = (inr e, w1) ->
  bcrypt_GenerateFromPassword (RegisterRequest.Password req) DefaultCost w1
    = ((hash, herr), w2) ->
  Create (repo s) (newUser req hash) w2 = ((u', cerr), w3) ->
  result (Register s req w)
    = match herr, cerr with
      | Some he, _ => (None, Some he)
      | None, Some ce => (None, Some ce)
      | None, None => (Some u', None)
      end
  /\ firstn 2 (withoutLogs (events (Register s req w)))
     = [RepoFindByEmail (RegisterRequest.Email req);
        HashCall (RegisterRequest.Password req)]
  /\ (herr = None ->
      firstn 3 (withoutLogs (events (Register s req w)))
      = [RepoFindByEmail (RegisterRequest.Email req);
         HashCall (RegisterRequest.Password req);
         RepoCreate (newUser req hash)]).
Proof.
  intros Hfind Hhash Hcreate.
  unfold Register, HashPassword, newUser, bind, call in *.
  rewrite Hfind; cbv beta iota; rewrite Hhash; cbv beta iota.
  destruct herr as [he|].
  - logs s; repeat split; auto; discriminate.
  - rewrite Hcreate; cbv beta iota. destruct cerr as [ce|].
    + logs s; repeat split; auto.
    + unfold setIfMarshalled, json_Marshal, bind, call, ret.
      destruct (rdb s) as [c|];
        [ destruct (json_encode (jsonFields u')) as [b merr];
          destruct (0 <? len b);
          [ destruct (Set_ c _ b userCacheTTL w3) | ] | ];
        logs s; repeat split; auto.
Qed.

(** C1, as the code has it. An error of the store's insert is returned by
    Register as it is, and an error of the store's update is returned by
    UpdateUser as it is: a uniqueness violation detected by the store
    reaches the caller as the store's own error. *)
Theorem store_write_error_returned_unchanged :
  (forall s req w e w1 hash w2 u' err w3,
      FindByEmail (repo s) (RegisterRequest.Email req) w = (inr e, w1) ->
      bcrypt_GenerateFromPassword (RegisterRequest.Password req) DefaultCost w1
        = ((hash, None), w2) ->
      Create (repo s) (newUser req hash) w2 = ((u', Some err), w3) ->
      result (Register s req w) = (None, Some err))
  /\
  (forall s id req w cur w1 u1 w2 ev1 u2 w3 ev2 u' err w4,
      FindByID (repo s) id
        (logged "info" s "UpdateUser called" [("user_id", SprintUint id)] w)
        = (inl cur, w1) ->
      applyEmail s (applyName cur req) req w1 = (inl u1, w2, ev1) ->
      applyPassword s id u1 req w2 = (inl u2, w3, ev2) ->
      Update (repo s) u2 w3 = ((u', Some err), w4) ->
      result (UpdateUser s id req w) = (None, Some err)).
Proof.
  split.
  - intros s req w e w1 hash w2 u' err w3 Hfind Hhash Hcreate.
    unfold Register, HashPassword, newUser, bind, call in *.
    rewrite Hfind; cbv beta iota; rewrite Hhash; cbv beta iota.
    rewrite Hcreate; cbv beta iota. logs s; reflexivity.
  - intros s id req w cur w1 u1 w2 ev1 u2 w3 ev2 u' err w4
           Hfind Hemail Hpass Hupd.
    unfold UpdateUser, bind, call.
    unfold logged, logInfo, logError, logAt, call, world, ret in *.
    destruct (log s) as [[[f|]]|]; cbn [fst snd] in Hfind;
      cbv beta iota; rewrite Hfind; cbv beta iota;
      rewrite Hemail; cbv beta iota; rewrite Hpass; cbv beta iota;
      rewrite Hupd; reflexivity.
Qed.

(** ** UpdateUser *)

(** C5. When an UpdateUser request carries an email that differs from the
    current one and the store finds a user under the new email, UpdateUser
    fails with "email already exists"; its only calls to the store are the
    two lookups, so the store's Update is not called and nothing is
    persisted. *)
Theorem UpdateUser_email_taken s id req w cur w1 email other w2 :
  FindByID (repo s) id
    (logged "info" s "UpdateUser called" [("user_id", SprintUint id)] w)
    = (inl cur, w1) ->
  UpdateUserRequest.Email req = Some email ->
  email <> User.Email cur ->
  FindByEmail (repo s) email w1 = (inl other, w2) ->
  result (UpdateUser s id req w)
    = (None, Some (errors_New "email already exists"))
  /\ withoutLogs (events (UpdateUser s id req w))
     = [RepoFindByID id; RepoFindByEmail email]
  /\ existsb isRepoUpdate (events (UpdateUser s id req w)) = false
  /\ existsb isRepoWrite (events (UpdateUser s id req w)) = false.
Proof.
  intros Hfind Hreq Hne Hother.
  assert (Hneb : String.eqb email (User.Email (applyName cur req)) = false).
  { apply String.eqb_neq. unfold applyName.
    destruct (UpdateUserRequest.Name req); exact Hne. }
  unfold UpdateUser, applyEmail, bind, call.
  unfold logged, logInfo, logWarn, logError, logAt, call, world, ret in *.
  destruct (log s) as [[[f|]]|]; cbn [fst snd] in Hfind |- *;
    cbv beta iota; rewrite Hfind; cbv beta iota;
    rewrite Hreq; cbv beta iota; rewrite Hneb; cbn [negb]; cbv beta iota;
    rewrite Hother; cbv beta iota; repeat split; reflexivity.
Qed.

(** ** Login *)

(** C2. A Login whose email lookup fails and a Login whose lookup succeeds
    but whose password does not match the stored hash return the same
    value to the caller: the empty token and the error "invalid
    credentials". *)
Theorem Login_failures_indistinguishable
    s1 req1 secret1 exp1 w1 e w1'
    s2 req2 secret2 exp2 w2 u w2' :
  FindByEmail (repo s1) (LoginRequest.Email req1) w1 = (inr e, w1') ->
  FindByEmail (repo s2) (LoginRequest.Email req2) w2 = (inl u, w2') ->
  CheckPassword (User.Password u) (LoginRequest.Password req2) = false ->
  result (Login s1 req1 secret1 exp1 w1)
    = ("", Some (errors_New "invalid credentials"))
  /\ result (Login s2 req2 secret2 exp2 w2)
     = result (Login s1 req1 secret1 exp1 w1).
Proof.
  intros Hmiss Hfound Hwrong.
  assert (R1 : result (Login s1 req1 secret1 exp1 w1)
               = ("", Some (errors_New "invalid credentials"))).
  { unfold Login, bind, call. rewrite Hmiss. logs s1; reflexivity. }
  split; [exact R1|]. rewrite R1.
  unfold Login, bind, call. rewrite Hfound; cbv beta iota.
  rewrite Hwrong. logs s2; reflexivity.
Qed.

(** ** GetByID *)

(** A cached value that decodes is returned at once. *)
Lemma GetByID_decodable s id w c val w1 j :
  rdb s = Some c ->
  Get c (cacheKeyUser id)
      (logged "info" s "cache try GET"
              [("key", cacheKeyUser id); ("user_id", SprintUint id)] w)
    = ((val, None), w1) ->
  json_decode val = (j, None) ->
  result (GetByID s id w) = (Some (setJSONFields User.zero j), None).
Proof.
  intros Hrdb Hget Hj.
  unfold GetByID, tryCache, json_Unmarshal, bind, call.
  unfold logged, logInfo, logWarn, logError, logAt, call, world, ret in *.
  rewrite Hrdb.
  destruct (log s) as [[[f|]]|]; cbn [fst snd push] in Hget |- *;
    cbv beta iota; rewrite Hget; cbv beta iota; rewrite Hj; reflexivity.
Qed.

(** C4. With a cache configured and a value returned for the key
    "user:<id>": if the value decodes, GetByID returns the decoded user and
    calls the store not at all; if it does not decode, GetByID queries the
    store by id exactly once, returns what the store returns (the user, or
    the store's error: never the decoder's), and after a successful fetch
    writes the user to the cache with the fixed time-to-live. *)
Theorem GetByID_cached_value s id w c val w1 :
  rdb s = Some c ->
  Get c (cacheKeyUser id)
      (logged "info" s "cache try GET"
              [("key", cacheKeyUser id); ("user_id", SprintUint id)] w)
    = ((val, None), w1) ->
  match json_decode val with
  | (j, None) =>
    result (GetByID s id w) = (Some (setJSONFields User.zero j), None)
    /\ withoutLogs (events (GetByID s id w)) = [RedisGet (cacheKeyUser id)]
    /\ existsb isRepoCall (events (GetByID s id w)) = false
  | (_, Some _) =>
    match FindByID (repo s) id
            (logged "warn" s "cache unmarshal failed"
                    [("key", cacheKeyUser id)] w1) with
    | (inl u, _) =>
      result (GetByID s id w) = (Some u, None)
      /\ withoutLogs (events (GetByID s id w))
         = [RedisGet (cacheKeyUser id); RepoFindByID id] ++ populate id u
    | (inr err, _) =>
      result (GetByID s id w) = (None, Some err)
      /\ withoutLogs (events (GetByID s id w))
         = [RedisGet (cacheKeyUser id); RepoFindByID id]
    end
    /\ length (List.filter isRepoCall (events (GetByID s id w))) = 1%nat
  end.
Proof.
  intros Hrdb Hget.
  unfold GetByID, tryCache, populate, json_Unmarshal, json_Marshal, bind, call.
  unfold logged, logInfo, logWarn, logError, logAt, call, world, ret in *.
  rewrite Hrdb.
  destruct (log s) as [[[f|]]|]; cbn [fst snd push] in Hget |- *;
    cbv beta iota; rewrite Hget; cbv beta iota;
    destruct (json_decode val) as [j [de|]]; cbv beta iota;
    try (repeat split; reflexivity);
    match goal with
    | |- context [FindByID (repo s) id ?w'] =>
      destruct (FindByID (repo s) id w') as [[u|err] w2]
    end; cbv beta iota;
    try (destruct (json_encode (jsonFields u)) as [b merr]; cbn [fst snd];
         destruct (0 <? len b); cbv beta iota;
         try match goal with
             | |- context [Set_ c (cacheKeyUser id) b userCacheTTL ?w'] =>
               destruct (Set_ c (cacheKeyUser id) b userCacheTTL w')
                 as [[serr|] w3]; cbv beta iota
             end);
    repeat split; reflexivity.
Qed.

(** ** What the cache holds *)

(** Case analysis on every collaborator's answer met along a method. *)
Ltac cases :=
  repeat (cbv beta iota;
          match goal with
          | |- context [match ?x with _ => _ end] =>
            lazymatch x with
            | context [match _ with _ => _ end] => fail
            | _ => destruct x eqn:?
            end
          end).

(** Close a goal [cachesOnlyResult] once the call is evaluated. *)
Ltac onlyResult :=
  cbn;
  first [ left; reflexivity
        | right; eexists; split; [reflexivity|];
          match goal with
          | H : json_encode _ = _ |- _ => rewrite H
          end; reflexivity ].

Lemma Register_cachesOnlyResult s req w : cachesOnlyResult (Register s req w).
Proof.
  unfold cachesOnlyResult, Register, setIfMarshalled, HashPassword,
    json_Marshal, logInfo, logWarn, logError, logAt, bind, call, ret.
  cases; onlyResult.
Qed.

Lemma GetByID_cachesOnlyResult s id w : cachesOnlyResult (GetByID s id w).
Proof.
  unfold cachesOnlyResult, GetByID, tryCache, json_Unmarshal,
    json_Marshal, logInfo, logWarn, logError, logAt, bind, call, ret.
  cases; onlyResult.
Qed.

Lemma UpdateUser_cachesOnlyResult s id req w :
  cachesOnlyResult (UpdateUser s id req w).
Proof.
  unfold cachesOnlyResult, UpdateUser, applyEmail, applyPassword,
    setIfMarshalled, HashPassword, json_Marshal,
    logInfo, logWarn, logError, logAt, bind, call, ret.
  cases; onlyResult.
Qed.

(** C9. The text written to the cache is computed from the tagged fields
    of the user, so it is the same whatever the password hash is; Register,
    GetByID and UpdateUser write nothing else to the cache than that text
    for the user they return. A GetByID answered from the cache returns a
    user whose password hash is empty (so it differs from any stored user
    with a hash), while a GetByID that falls through to the store returns
    the stored user, hash included. *)
Theorem cache_omits_password_hash :
  (forall u hash, json_Marshal (User.with_Password u hash) = json_Marshal u)
  /\ (forall s req w, cachesOnlyResult (Register s req w))
  /\ (forall s id w, cachesOnlyResult (GetByID s id w))
  /\ (forall s id req w, cachesOnlyResult (UpdateUser s id req w))
  /\ (forall s id w c val w1,
        rdb s = Some c ->
        Get c (cacheKeyUser id)
            (logged "info" s "cache try GET"
                    [("key", cacheKeyUser id); ("user_id", SprintUint id)] w)
          = ((val, None), w1) ->
        snd (json_decode val) = None ->
        exists u, result (GetByID s id w) = (Some u, None)
                  /\ User.Password u = ""
                  /\ forall stored, User.Password stored <> "" -> u <> stored)
  /\ (forall s id w stored w',
        result (tryCache s id w) = None ->
        FindByID (repo s) id (world (tryCache s id w)) = (inl stored, w') ->
        result (GetByID s id w) = (Some stored, None)).
Proof.
  split; [reflexivity|].
  split; [exact Register_cachesOnlyResult|].
  split; [exact GetByID_cachesOnlyResult|].
  split; [exact UpdateUser_cachesOnlyResult|].
  split.
  - intros s id w c val w1 Hrdb Hget Hdec.
    destruct (json_decode val) as [j [de|]] eqn:Hj; [discriminate|].
    pose proof (GetByID_decodable s id w c val w1 j Hrdb Hget Hj) as H.
    eexists; split; [exact H|].
    split; [reflexivity|].
    intros stored Hne Heq. apply Hne. rewrite <- Heq. reflexivity.
  - intros s id w stored w' Hmiss Hfind.
    unfold GetByID. rewrite result_bind, Hmiss.
    rewrite result_bind. unfold call at 1 2. rewrite Hfind.
    unfold result at 2, world at 1; cbn [fst snd].
    rewrite result_bind, result_bind. reflexivity.
Qed.

(** ** ListUsers *)

(** C7, within the range of [int]. For every page and limit such that the
    product (page-1) * limit of the clamped values fits an [int], ListUsers
    clamps page < 1 to 1 and limit <= 0 or limit > 100 to 10, makes one
    call to the store, List(offset, limit) with offset = (page-1) * limit
    on the clamped values, and returns the envelope {items, total, page,
    limit} of the clamped values when the store succeeds; ListUsers(0,
    1000) calls List(0, 10). *)
Theorem ListUsers_clamps_and_pages s page limit w :
  int_min <= page <= int_max ->
  (clampPage page - 1) * clampLimit limit <= int_max ->
  (page < 1 -> clampPage page = 1)
  /\ (1 <= page -> clampPage page = page)
  /\ (limit <= 0 \/ 100 < limit -> clampLimit limit = 10)
  /\ (0 < limit <= 100 -> clampLimit limit = limit)
  /\ withoutLogs (events (ListUsers s page limit w))
     = [RepoList ((clampPage page - 1) * clampLimit limit) (clampLimit limit)]
  /\ match List (repo s) ((clampPage page - 1) * clampLimit limit)
                (clampLimit limit)
                (logged "info" s "ListUsers called"
                        [("page", SprintInt page); ("limit", SprintInt limit)] w)
     with
     | ((items, total, None), _) =>
       result (ListUsers s page limit w)
       = (Some (PagedUsers.mk items total (clampPage page) (clampLimit limit)),
          None)
     | ((_, _, Some err), _) =>
       result (ListUsers s page limit w) = (None, Some err)
     end
  /\ withoutLogs (events (ListUsers s 0 1000 w)) = [RepoList 0 10].
Proof.
  intros Hpage Hfit.
  pose proof (clampPage_ge1 page) as Hp.
  pose proof (clampLimit_range limit) as Hl.
  assert (Hoff : int_mul (int_sub (clampPage page) 1) (clampLimit limit)
                 = (clampPage page - 1) * clampLimit limit).
  { unfold int_mul, int_sub.
    assert (Hpm : clampPage page <= int_max).
    { unfold clampPage. destruct (Z.ltb_spec page 1); int_bounds; lia. }
    rewrite (wrap_int_small (clampPage page - 1)) by (int_bounds; lia).
    apply wrap_int_small. split; [|exact Hfit].
    apply Z.le_trans with 0; [int_bounds; lia|].
    apply Z.mul_nonneg_nonneg; lia. }
  split. { unfold clampPage. destruct (Z.ltb_spec page 1); lia. }
  split. { unfold clampPage. destruct (Z.ltb_spec page 1); lia. }
  split. { unfold clampLimit.
           destruct (Z.leb_spec limit 0); destruct (Z.ltb_spec 100 limit);
             cbn [orb]; lia. }
  split. { unfold clampLimit.
           destruct (Z.leb_spec limit 0); destruct (Z.ltb_spec 100 limit);
             cbn [orb]; lia. }
  assert (Hgen : forall page limit,
             withoutLogs (events (ListUsers s page limit w))
             = [RepoList (int_mul (int_sub (clampPage page) 1) (clampLimit limit))
                         (clampLimit limit)]).
  { intros p l. unfold ListUsers, bind, call.
    unfold logInfo, logError, logAt, call, ret.
    destruct (log s) as [[[f|]]|]; cbn [push]; cbv beta iota;
      match goal with
      | |- context [List (repo s) ?o ?l' ?w'] =>
        destruct (List (repo s) o l' w') as [[[items total] [err|]] w2]
      end; reflexivity. }
  split. { rewrite Hgen, Hoff. reflexivity. }
  split.
  - rewrite <- Hoff.
    unfold ListUsers, bind, call.
    unfold logged, logInfo, logError, logAt, call, world, ret.
    destruct (log s) as [[[f|]]|]; cbn [fst snd push]; cbv beta iota;
      match goal with
      | |- context [List (repo s) ?o ?l' ?w'] =>
        destruct (List (repo s) o l' w') as [[[items total] [err|]] w2]
      end; reflexivity.
  - rewrite Hgen. reflexivity.
Qed.

End ServiceProps.

(** ** NormalizeName *)

Section NormalizeNameProps.
Import core.

Lemma length_app (a b : string) :
  String.length (a +:+ b) = (String.length a + String.length b)%nat.
Proof.
  induction a as [|c a IH]; [reflexivity|].
  change (String c a +:+ b) with (String c (a +:+ b)).
  cbn [String.length]. rewrite IH. reflexivity.
Qed.

(** The examples of the table-driven test of the package. *)
Lemma NormalizeName_examples :
  NormalizeName "" = ""
  /\ NormalizeName "   " = ""
  /\ NormalizeName "a" = "A"
  /\ NormalizeName "  aHMED " = "AHMED"
  /\ NormalizeName "Ahmed" = "Ahmed".
Proof. repeat split; vm_compute; reflexivity. Qed.

Lemma NormalizeName_blank s : TrimSpace s = "" -> NormalizeName s = "".
Proof. intros H. unfold NormalizeName. rewrite H. reflexivity. Qed.

(** When the trimmed name starts with an ASCII byte, that byte is
    upper-cased and the rest is kept. *)
Lemma NormalizeName_ascii_first s c rest :
  TrimSpace s = String c rest ->
  byteval c < 128 ->
  NormalizeName s = String (upperASCII c) rest.
Proof.
  intros H Hc. unfold NormalizeName, ToUpper1, RuneSelf. rewrite H.
  destruct (Z.ltb_spec (byteval c) 128); [reflexivity | lia].
Qed.

(** C3, at a name whose first letter is not ASCII. "élan" is the byte
    string C3 A9 6C 61 6E; upper-casing its first character gives "Élan",
    C3 89 6C 61 6E. NormalizeName cuts the name after its first byte:
    the byte C3 alone is upper-cased to the replacement character EF BF BD
    and the second byte of the letter, A9, is left behind it. Whatever the
    first byte is turned into, keeping the bytes after it cannot give
    "Élan". *)
Theorem NormalizeName_multibyte_first_letter :
  TrimSpace elan = elan
  /\ NormalizeName elan
     = String (byte 239) (String (byte 191) (String (byte 189)
         (String (byte 169) "lan")))
  /\ NormalizeName elan <> Elan
  /\ (forall first : string, first +:+ drop 1 elan <> Elan).
Proof.
  split; [vm_compute; reflexivity|].
  split; [vm_compute; reflexivity|].
  split; [vm_compute; discriminate|].
  intros first H.
  assert (Hlen : String.length (first +:+ drop 1 elan) = String.length Elan)
    by (rewrite H; reflexivity).
  rewrite length_app in Hlen.
  destruct first as [|c [|c' first]];
    cbn [String.length drop elan Elan Nat.add] in Hlen; try lia.
  vm_compute in H. discriminate H.
Qed.

End NormalizeNameProps.

(** ** Decimal identifiers *)

Lemma append_cons c (a b : string) : String c a +:+ b = String c (a +:+ b).
Proof. reflexivity. Qed.

Lemma append_assoc3 (a b c : string) : (a +:+ b) +:+ c = a +:+ (b +:+ c).
Proof.
  induction a as [|x a IH]; [reflexivity|].
  rewrite !append_cons. f_equal. exact IH.
Qed.

Lemma parseDigits_app a b n :
  parseDigits (a +:+ b) n
  = match parseDigits a n with
    | Some m => parseDigits b m
    | None => None
    end.
Proof.
  revert n. induction a as [|ch a IH]; intros n; [reflexivity|].
  rewrite append_cons. cbn [parseDigits].
  destruct ((0 <=? byteval ch - 48) && (byteval ch - 48 <=? 9));
    [apply IH | reflexivity].
Qed.

Lemma formatBits_acc k u acc :
  formatBits k u acc = formatBits k u "" +:+ acc.
Proof.
  revert u acc. induction k as [|k IH]; intros u acc; cbn [formatBits];
    [reflexivity|].
  destruct (u <? 10)%N; [reflexivity|].
  rewrite (IH _ (String _ acc)), (IH _ (String _ "")).
  rewrite append_assoc3. reflexivity.
Qed.

Lemma byteval_digit (d : N) : (d < 10)%N -> byteval (ascii_of_N (48 + d)) - 48 = Z.of_N d.
Proof.
  intros H. unfold byteval. rewrite N_ascii_embedding by lia. lia.
Qed.

Lemma parseDigits_digit (d : N) n :
  (d < 10)%N ->
  parseDigits (String (ascii_of_N (48 + d)) "") n = Some (n * 10 + Z.of_N d).
Proof.
  intros H. cbn [parseDigits]. rewrite (byteval_digit d H).
  destruct (Z.leb_spec 0 (Z.of_N d)); [|lia].
  destruct (Z.leb_spec (Z.of_N d) 9); [reflexivity | lia].
Qed.

Lemma parseDigits_formatBits k u :
  (u < 10 ^ N.of_nat k)%N ->
  parseDigits (formatBits k u "") 0 = Some (Z.of_N u).
Proof.
  revert u. induction k as [|k IH]; intros u Hu.
  - simpl in *. f_equal. lia.
  - cbn [formatBits].
    destruct (N.ltb_spec u 10) as [Hlt|Hge].
    + rewrite (parseDigits_digit u 0 Hlt). f_equal.
    + rewrite formatBits_acc, parseDigits_app.
      assert (Hq : (u / 10 < 10 ^ N.of_nat k)%N).
      { apply N.Div0.div_lt_upper_bound.
        replace (10 * 10 ^ N.of_nat k)%N with (10 ^ N.of_nat (S k))%N; [exact Hu|].
        rewrite Nat2N.inj_succ, N.pow_succ_r'. reflexivity. }
      rewrite (IH _ Hq).
      rewrite parseDigits_digit by (apply N.mod_lt; lia).
      f_equal.
      pose proof (N.div_mod u 10 ltac:(lia)) as Hdm. lia.
Qed.

Lemma digit_range (d : N) :
  (d < 10)%N -> 48 <= byteval (ascii_of_N (48 + d)) <= 57.
Proof.
  intros H. pose proof (byteval_digit d H) as Hb.
  remember (byteval (ascii_of_N (48 + d))) as b. lia.
Qed.

Lemma formatBits_cons k u acc :
  exists c r, formatBits (S k) u acc = String c r
              /\ 48 <= byteval c <= 57.
Proof.
  revert u acc. induction k as [|k IH]; intros u acc.
  - cbn [formatBits]. destruct (N.ltb_spec u 10).
    + eexists _, _; split; [reflexivity|]. now apply digit_range.
    + eexists _, _; split; [reflexivity|].
      apply digit_range, N.mod_lt. discriminate.
  - cbn [formatBits]. destruct (N.ltb_spec u 10).
    + eexists _, _; split; [reflexivity|]. now apply digit_range.
    + apply IH.
Qed.

(** The decimal text of an identifier below [2^63] is read back by
    [strconv.Atoi] as that identifier. *)
Lemma Atoi_SprintUint (n : N) :
  (n < 2 ^ 63)%N -> Atoi (SprintUint n) = (Z.of_N n, None).
Proof.
  intros Hn. unfold SprintUint.
  assert (Hp : parseDigits (formatBits 20 n "") 0 = Some (Z.of_N n)).
  { apply parseDigits_formatBits.
    eapply N.lt_trans; [exact Hn|]. vm_compute. reflexivity. }
  destruct (formatBits_cons 19 n "") as (c & r & Hs & Hc).
  rewrite Hs in *. unfold Atoi.
  assert (Hm : Ascii.eqb c "-" = false).
  { apply Ascii.eqb_neq. intros ->. vm_compute in Hc. destruct Hc as [Hc _]. apply Hc. reflexivity. }
  assert (Hpl : Ascii.eqb c "+" = false).
  { apply Ascii.eqb_neq. intros ->. vm_compute in Hc. destruct Hc as [Hc _]. apply Hc. reflexivity. }
  rewrite Hm, Hpl. cbn [orb]. rewrite Hp.
  destruct (Z.ltb_spec (Z.of_N n) (2 ^ 63)) as [|Hge]; [reflexivity|].
  exfalso. apply Hge. change (2 ^ 63) with (Z.of_N (2 ^ 63)). lia.
Qed.

Lemma uint_of_int_of_N (n : N) :
  (n < 2 ^ 64)%N -> uint_of_int (Z.of_N n) = n.
Proof.
  intros Hn. unfold uint_of_int.
  rewrite Z.mod_small; [apply N2Z.id|].
  change (2 ^ 64) with (Z.of_N (2 ^ 64)). lia.
Qed.

Lemma uint_of_int_range z : (uint_of_int z < 2 ^ 64)%N.
Proof.
  unfold uint_of_int.
  pose proof (Z.mod_pos_bound z (2 ^ 64) ltac:(reflexivity)) as H.
  change (2 ^ 64)%N with (Z.to_N (2 ^ 64)). lia.
Qed.

Lemma uint_of_float64_range impl v : (uint_of_float64 impl v < 2 ^ 64)%N.
Proof.
  unfold uint_of_float64.
  destruct (float64_trunc v) as [z|];
    [destruct (Z.leb_spec 0 z); destruct (Z.ltb_spec z (2 ^ 64)); cbn [andb]|];
    try (apply N.mod_lt; discriminate).
  change (2 ^ 64)%N with (Z.to_N (2 ^ 64)). lia.
Qed.

Lemma parseDigits_ge s : forall n v,
  0 <= n -> parseDigits s n = Some v -> n <= v.
Proof.
  induction s as [|ch s IH]; intros n v Hn H; cbn [parseDigits] in H.
  - injection H as <-. lia.
  - destruct (Z.leb_spec 0 (byteval ch - 48)); [|discriminate].
    destruct (Z.leb_spec (byteval ch - 48) 9); [|discriminate].
    cbn [andb] in H. apply IH in H; lia.
Qed.

(** What [strconv.Atoi] accepts is an [int]. *)
Lemma Atoi_range v n : Atoi v = (n, None) -> int_min <= n <= int_max.
Proof.
  unfold Atoi, int_min, int_max. intros H.
  destruct v as [|c0 r]; [discriminate|].
  destruct ((if (c0 =? "-")%char || (c0 =? "+")%char then r
             else String c0 r)); [discriminate|].
  destruct (parseDigits _ 0) as [un|] eqn:Hp; [|discriminate].
  apply parseDigits_ge in Hp; [|lia].
  change (2 ^ 63) with 9223372036854775808 in *.
  destruct (c0 =? "-")%char.
  - destruct (Z.leb_spec un 9223372036854775808); [|discriminate].
    injection H as <-. lia.
  - destruct (Z.ltb_spec un 9223372036854775808); [|discriminate].
    injection H as <-. lia.
Qed.

(** The decimal text of an identifier from [2^63] up to [2^64 - 1] is out
    of the range of [int]: [strconv.Atoi] rejects it. *)
Lemma Atoi_SprintUint_large (n : N) :
  (2 ^ 63 <= n)%N -> (n < 2 ^ 64)%N ->
  Atoi (SprintUint n) = (int_max, Some ErrRange).
Proof.
  intros Hlo Hhi. unfold SprintUint.
  assert (Hp : parseDigits (formatBits 20 n "") 0 = Some (Z.of_N n)).
  { apply parseDigits_formatBits.
    eapply N.lt_trans; [exact Hhi|]. vm_compute. reflexivity. }
  destruct (formatBits_cons 19 n "") as (c & r & Hs & Hc).
  rewrite Hs in *. unfold Atoi.
  assert (Hm : Ascii.eqb c "-" = false).
  { apply Ascii.eqb_neq. intros ->. vm_compute in Hc. destruct Hc as [Hc _]. apply Hc. reflexivity. }
  assert (Hpl : Ascii.eqb c "+" = false).
  { apply Ascii.eqb_neq. intros ->. vm_compute in Hc. destruct Hc as [Hc _]. apply Hc. reflexivity. }
  rewrite Hm, Hpl. cbn [orb]. rewrite Hp.
  destruct (Z.ltb_spec (Z.of_N n) (2 ^ 63)) as [Hlt|]; [|reflexivity].
  exfalso. change (2 ^ 63) with (Z.of_N (2 ^ 63)) in Hlt. lia.
Qed.

(** [uint(n)] of a negative [int] is [2^64 + n]. *)
Lemma uint_of_int_negative (n : Z) :
  int_min <= n < 0 -> uint_of_int n = Z.to_N (2 ^ 64 + n).
Proof.
  unfold uint_of_int, int_min. intros H. f_equal.
  change (2 ^ 63) with 9223372036854775808 in H.
  change (2 ^ 64) with 18446744073709551616.
  symmetry. apply Z.mod_unique with (q := -1); lia.
Qed.

(** ** The Auth middleware *)

Section AuthProps.
Import middlewares.
Variable jwt_Parse : string -> string -> Token.t + error.
Variable uint_impl : float -> N.
Variable Next : Context.t -> Context.t.

(** A request whose bearer token the library accepts reaches the type
    switch and then the next handler. *)
Lemma Auth_valid_token secret c t claims :
  8 <= len (GetHeader c "Authorization") ->
  take 7 (GetHeader c "Authorization") = "Bearer " ->
  jwt_Parse (drop 7 (GetHeader c "Authorization")) secret = inl t ->
  Token.Valid t = true ->
  Token.Claims t = MapClaims claims ->
  Auth jwt_Parse uint_impl Next secret c
  = Next (setSubject uint_impl c claims).
Proof.
  intros Hlen Hprefix Hparse Hvalid Hclaims. unfold Auth.
  destruct (Z.ltb_spec (len (GetHeader c "Authorization")) 8); [lia|].
  rewrite Hprefix. cbn [orb negb String.eqb].
  replace (("Bearer " =? "Bearer ")%string) with true
    by (symmetry; apply String.eqb_refl).
  cbn [negb]. rewrite Hparse, Hvalid, Hclaims. reflexivity.
Qed.

(** C8, as the code has it. For a token that passes the library's
    verification, the middleware always hands the request to the next
    handler. Before that, a subject that is a JSON number is stored under
    "uid" converted to [uint]; a subject that is a string [strconv.Atoi]
    accepts is stored converted to [uint]: the decimal text of an
    identifier below 2^63 gives that identifier, a negative integer [n]
    gives [2^64 + n]; in both cases the stored value is below 2^64. Any
    other subject (absent, of another type, or a string Atoi rejects, as it
    does the decimal text of an identifier from 2^63 up to 2^64 - 1) leaves
    the context as it was: no identifier is set. *)
Theorem Auth_subject_normalized secret c t claims :
  8 <= len (GetHeader c "Authorization") ->
  take 7 (GetHeader c "Authorization") = "Bearer " ->
  jwt_Parse (drop 7 (GetHeader c "Authorization")) secret = inl t ->
  Token.Valid t = true ->
  Token.Claims t = MapClaims claims ->
  exists c',
    Auth jwt_Parse uint_impl Next secret c = Next c'
    /\ match claims !! "sub" with
       | Some (anyFloat64 v) =>
         c' = Set_ c global.CtxUserIDKey (anyUint (uint_of_float64 uint_impl v))
         /\ Context.Keys c' !! "uid"
            = Some (anyUint (uint_of_float64 uint_impl v))
         /\ (uint_of_float64 uint_impl v < 2 ^ 64)%N
       | Some (anyString v) =>
         match Atoi v with
         | (n, None) =>
           c' = Set_ c global.CtxUserIDKey (anyUint (uint_of_int n))
           /\ Context.Keys c' !! "uid" = Some (anyUint (uint_of_int n))
           /\ (uint_of_int n < 2 ^ 64)%N
           /\ (0 <= n -> uint_of_int n = Z.to_N n)
           /\ (n < 0 -> uint_of_int n = Z.to_N (2 ^ 64 + n))
         | (_, Some _) => c' = c
         end
         /\ (forall id : N, (id < 2 ^ 63)%N -> v = SprintUint id ->
               c' = Set_ c global.CtxUserIDKey (anyUint id))
         /\ (forall id : N, (2 ^ 63 <= id)%N -> (id < 2 ^ 64)%N ->
               v = SprintUint id -> c' = c)
       | _ => c' = c
       end.
Proof.
  intros Hlen Hprefix Hparse Hvalid Hclaims.
  exists (setSubject uint_impl c claims).
  split; [now apply Auth_valid_token with t|].
  unfold setSubject.
  destruct (claims !! "sub") as [[| | v | v | | | |]|]; try reflexivity.
  - split; [reflexivity|]. split; [apply lookup_insert_eq|].
    apply uint_of_float64_range.
  - split; [|split].
    + destruct (Atoi v) as [n [err|]] eqn:Hatoi; [reflexivity|].
      pose proof (Atoi_range v n Hatoi) as Hr.
      split; [reflexivity|]. split; [apply lookup_insert_eq|].
      split; [apply uint_of_int_range|]. split.
      * intros Hn. unfold uint_of_int. f_equal. apply Z.mod_small.
        unfold int_max in Hr. change (2 ^ 63) with 9223372036854775808 in Hr.
        change (2 ^ 64) with 18446744073709551616. lia.
      * intros Hn. apply uint_of_int_negative. lia.
    + intros id Hid ->. rewrite (Atoi_SprintUint id Hid).
      rewrite uint_of_int_of_N; [reflexivity|].
      eapply N.lt_trans; [exact Hid|]. vm_compute. reflexivity.
    + intros id Hlo Hhi ->. rewrite (Atoi_SprintUint_large id Hlo Hhi).
      reflexivity.
Qed.

End AuthProps.

(* ===================================================================== *)
(** * Further properties of the service                                    *)
(* ===================================================================== *)

Section ServiceMore.
Context {W : Type} `{P : Platform W}.
Implicit Types (s : userService W) (w : W).

(** Expose the optional logger and its optional client. *)
Ltac unlog s :=
  unfold logged, logInfo, logWarn, logError, logAt, call, world, ret in *;
  destruct (log s) as [[[?|]]|]; cbn [fst snd push] in *; cbv beta iota.

(** Case analysis on every answer met along a method, innermost first. *)
Ltac branches :=
  repeat (cbv beta iota;
          match goal with
          | |- context [match ?x with _ => _ end] =>
            lazymatch x with
            | context [match _ with _ => _ end] => fail
            | _ => destruct x eqn:?
            end
          end).

Ltac unfold_service :=
  unfold Register, Login, GetByID, tryCache, UpdateUser, DeleteUser, ListUsers,
    applyEmail, applyPassword, setIfMarshalled, HashPassword,
    json_Marshal, json_Unmarshal, populate,
    logInfo, logWarn, logError, logAt, bind, call, lift, ret.

(** X1. A registration that passes the pre-check, the hashing and the
    insert returns the user as the store left it and, with a cache
    configured, issues one SET on the key of the identifier the store
    assigned, with the fixed time-to-live; the entity handed to the store
    has identifier 0, the normalized name and the hash, never the password.
    Whether the SET succeeds does not matter. *)
Theorem Register_success_warms_cache
    s req w e w1 hash w2 u' w3 c b merr :
  FindByEmail (repo s) (RegisterRequest.Email req) w = (inr e, w1) ->
  bcrypt_GenerateFromPassword (RegisterRequest.Password req) DefaultCost w1
    = ((hash, None), w2) ->
  Create (repo s)
         (User.mk 0 (core.NormalizeName (RegisterRequest.Name req))
                  (RegisterRequest.Email req) hash 0 0) w2
    = ((u', None), w3) ->
  rdb s = Some c ->
  json_encode (jsonFields u') = (b, merr) ->
  0 < len b ->
  result (Register s req w) = (Some u', None)
  /\ withoutLogs (events (Register s req w))
     = [RepoFindByEmail (RegisterRequest.Email req);
        HashCall (RegisterRequest.Password req);
        RepoCreate (User.mk 0 (core.NormalizeName (RegisterRequest.Name req))
                            (RegisterRequest.Email req) hash 0 0);
        RedisSet (cacheKeyUser (User.ID u')) b userCacheTTL].
Proof.
  intros Hfind Hhash Hcreate Hrdb Henc Hlen.
  assert (Hb : (0 <? len b) = true) by (apply Z.ltb_lt; exact Hlen).
  unfold Register, setIfMarshalled, HashPassword, newUser, json_Marshal,
    bind, call.
  rewrite Hfind; cbv beta iota. rewrite Hhash; cbv beta iota.
  rewrite Hcreate; cbv beta iota. rewrite Hrdb, Henc, Hb; cbv beta iota.
  destruct (Set_ c (cacheKeyUser (User.ID u')) b userCacheTTL w3)
    as [serr w4].
  unlog s; split; reflexivity.
Qed.

(** X2. When hashing fails, Register returns the hasher's error and stops:
    nothing is inserted and nothing is written to the cache. *)
Theorem Register_hash_failure s req w e w1 hash he w2 :
  FindByEmail (repo s) (RegisterRequest.Email req) w = (inr e, w1) ->
  bcrypt_GenerateFromPassword (RegisterRequest.Password req) DefaultCost w1
    = ((hash, Some he), w2) ->
  result (Register s req w) = (None, Some he)
  /\ withoutLogs (events (Register s req w))
     = [RepoFindByEmail (RegisterRequest.Email req);
        HashCall (RegisterRequest.Password req)].
Proof.
  intros Hfind Hhash.
  unfold Register, HashPassword, bind, call.
  rewrite Hfind; cbv beta iota. rewrite Hhash; cbv beta iota.
  unlog s; split; reflexivity.
Qed.

(** X3. Login only reads: whatever the store, the hasher and the signer
    answer, its one call to a collaborator (logging apart) is the lookup by
    email. It never writes to the store and never touches the cache. *)
Theorem Login_only_reads s req secret exp w :
  withoutLogs (events (Login s req secret exp w))
  = [RepoFindByEmail (LoginRequest.Email req)].
Proof.
  unfold_service. branches; reflexivity.
Qed.

(** X4. With the right password, Login returns exactly what the signer
    returns for the claims sub = the user's identifier, eml = the user's
    email, exp = the first clock reading plus the lifetime and iat = the
    second clock reading, both in whole seconds; if the signer fails, its
    error is returned with an empty token. *)
Theorem Login_signs_identity s req secret exp w u w1 t1 w2 t2 w3 :
  FindByEmail (repo s) (LoginRequest.Email req) w = (inl u, w1) ->
  CheckPassword (User.Password u) (LoginRequest.Password req) = true ->
  time_Now w1 = (t1, w2) ->
  time_Now w2 = (t2, w3) ->
  loginClaims u t1 t2 exp !! "sub" = Some (anyUint (User.ID u))
  /\ loginClaims u t1 t2 exp !! "eml" = Some (anyString (User.Email u))
  /\ loginClaims u t1 t2 exp !! "exp" = Some (anyInt64 ((t1 + exp) / Second))
  /\ loginClaims u t1 t2 exp !! "iat" = Some (anyInt64 (t2 / Second))
  /\ result (Login s req secret exp w)
     = match jwt_SignedString (loginClaims u t1 t2 exp) secret with
       | (signed, None) => (signed, None)
       | (_, Some err) => ("", Some err)
       end.
Proof.
  intros Hfind Hpw Ht1 Ht2.
  split; [reflexivity|]. split; [reflexivity|].
  split; [reflexivity|]. split; [reflexivity|].
  unfold Login, loginClaims, bind, call, lift.
  rewrite Hfind; cbv beta iota. rewrite Hpw; cbn [negb]; cbv beta iota.
  rewrite Ht1; cbv beta iota. rewrite Ht2; cbv beta iota.
  destruct (jwt_SignedString _ secret) as [signed [err|]];
    unlog s; reflexivity.
Qed.

(** ** GetByID *)

(** X5. Without a cache, GetByID is one query of the store by id and
    returns what the store returns; no cache command is issued. *)
Theorem GetByID_without_cache s id w :
  rdb s = None ->
  withoutLogs (events (GetByID s id w)) = [RepoFindByID id]
  /\ match FindByID (repo s) id w with
     | (inl u, _) => result (GetByID s id w) = (Some u, None)
     | (inr err, _) => result (GetByID s id w) = (None, Some err)
     end.
Proof.
  intros Hrdb. unfold GetByID, tryCache, bind, call. rewrite Hrdb.
  unlog s; destruct (FindByID (repo s) id w) as [[u|err] w1];
    split; reflexivity.
Qed.

(** X6. When the GET on the cache fails, be it a miss (redis.Nil) or any
    other error, GetByID falls through: it queries the store once, returns
    what the store returns, and after a successful fetch writes the user to
    the cache. The cache's error never reaches the caller. *)
Theorem GetByID_cache_failure_falls_through s id w c val err w1 :
  rdb s = Some c ->
  Get c (cacheKeyUser id)
      (logged "info" s "cache try GET"
              [("key", cacheKeyUser id); ("user_id", SprintUint id)] w)
    = ((val, Some err), w1) ->
  match FindByID (repo s) id (afterFailedGet s id err w1) with
  | (inl u, _) =>
    result (GetByID s id w) = (Some u, None)
    /\ withoutLogs (events (GetByID s id w))
       = [RedisGet (cacheKeyUser id); RepoFindByID id] ++ populate id u
  | (inr e, _) =>
    result (GetByID s id w) = (None, Some e)
    /\ withoutLogs (events (GetByID s id w))
       = [RedisGet (cacheKeyUser id); RepoFindByID id]
  end.
Proof.
  intros Hrdb Hget.
  unfold GetByID, tryCache, afterFailedGet, populate, json_Marshal, bind, call.
  rewrite Hrdb.
  unlog s; rewrite Hget; cbv beta iota;
    destruct (decide (err = redisNil)); cbv beta iota;
    match goal with
    | |- context [FindByID (repo s) id ?w'] =>
      destruct (FindByID (repo s) id w') as [[u|e'] w3]
    end; cbv beta iota;
    try (destruct (json_encode (jsonFields u)) as [b merr]; cbn [fst snd];
         destruct (0 <? len b); cbv beta iota;
         try match goal with
             | |- context [Set_ c (cacheKeyUser id) b userCacheTTL ?w'] =>
               destruct (Set_ c (cacheKeyUser id) b userCacheTTL w')
                 as [[serr|] w4]; cbv beta iota
             end);
    split; reflexivity.
Qed.

(** X7. In every run, GetByID queries the store at most once, never writes
    to it, and issues its cache commands on the key of the requested id
    only. *)
Theorem GetByID_footprint s id w :
  (length (List.filter isRepoCall (events (GetByID s id w))) <= 1)%nat
  /\ existsb isRepoWrite (events (GetByID s id w)) = false
  /\ onlyKey (cacheKeyUser id) (events (GetByID s id w)) = true.
Proof.
  unfold_service. branches; cbn [events snd app List.filter isRepoCall
    isRepoWrite existsb orb length onlyKey forallb redisKey andb];
    rewrite ?String.eqb_refl; repeat split; auto.
Qed.

(** ** UpdateUser *)

(** X8. When the store does not find the id, UpdateUser returns the
    store's error after that single query: no other lookup, no hashing, no
    update, no cache command. *)
Theorem UpdateUser_not_found s id req w err w1 :
  FindByID (repo s) id
    (logged "info" s "UpdateUser called" [("user_id", SprintUint id)] w)
    = (inr err, w1) ->
  result (UpdateUser s id req w) = (None, Some err)
  /\ withoutLogs (events (UpdateUser s id req w)) = [RepoFindByID id].
Proof.
  intros Hfind. unfold UpdateUser, bind, call.
  unlog s; rewrite Hfind; split; reflexivity.
Qed.

(** X9. An update that gets through the email and password steps and is
    accepted by the store returns the user as the store left it. The calls
    come in this order: the lookup by id, the calls of the two steps, the
    store's Update, then on the cache DEL followed by SET of the updated
    user. The outcome of DEL and SET does not matter. *)
Theorem UpdateUser_success_refreshes_cache
    s id req w cur w1 u1 w2 ev1 u2 w3 ev2 u' w4 :
  FindByID (repo s) id
    (logged "info" s "UpdateUser called" [("user_id", SprintUint id)] w)
    = (inl cur, w1) ->
  applyEmail s (applyName cur req) req w1 = (inl u1, w2, ev1) ->
  applyPassword s id u1 req w2 = (inl u2, w3, ev2) ->
  Update (repo s) u2 w3 = ((u', None), w4) ->
  result (UpdateUser s id req w) = (Some u', None)
  /\ withoutLogs (events (UpdateUser s id req w))
     = [RepoFindByID id] ++ withoutLogs ev1 ++ withoutLogs ev2
       ++ [RepoUpdate u2] ++ refresh s id u'.
Proof.
  intros Hfind Hemail Hpass Hupd.
  unfold UpdateUser, refresh, populate, setIfMarshalled, json_Marshal,
    bind, call.
  unlog s; rewrite Hfind; cbv beta iota;
    rewrite Hemail; cbv beta iota; rewrite Hpass; cbv beta iota;
    rewrite Hupd; cbv beta iota;
    (destruct (rdb s) as [c|]; cbv beta iota;
     [ match goal with
       | |- context [Del c (cacheKeyUser id) ?w'] =>
         destruct (Del c (cacheKeyUser id) w') as [derr w5]
       end; cbv beta iota;
       destruct (json_encode (jsonFields u')) as [b merr]; cbn [fst snd];
       destruct (0 <? len b); cbv beta iota;
       try match goal with
           | |- context [Set_ c (cacheKeyUser id) b userCacheTTL ?w'] =>
             destruct (Set_ c (cacheKeyUser id) b userCacheTTL w')
               as [serr w6]; cbv beta iota
           end
     | ]);
    (split; [reflexivity|]);
    cbn [events snd]; rewrite ?withoutLogs_app; cbn [withoutLogs List.filter
      isLogCall negb app]; rewrite ?app_nil_r; reflexivity.
Qed.


(** X11. When hashing the new password fails, UpdateUser returns the
    hasher's error before anything is persisted: the store's Update is not
    called and no cache command is issued. *)
Theorem UpdateUser_hash_failure s id req w cur w1 u1 w2 ev1 raw hash he w3 :
  FindByID (repo s) id
    (logged "info" s "UpdateUser called" [("user_id", SprintUint id)] w)
    = (inl cur, w1) ->
  applyEmail s (applyName cur req) req w1 = (inl u1, w2, ev1) ->
  UpdateUserRequest.Password req = Some raw ->
  bcrypt_GenerateFromPassword raw DefaultCost w2 = ((hash, Some he), w3) ->
  result (UpdateUser s id req w) = (None, Some he)
  /\ withoutLogs (events (UpdateUser s id req w))
     = [RepoFindByID id] ++ withoutLogs ev1 ++ [HashCall raw].
Proof.
  intros Hfind Hemail Hraw Hhash.
  unfold UpdateUser, applyPassword, HashPassword, bind, call.
  rewrite Hraw.
  unlog s; rewrite Hfind; cbv beta iota;
    rewrite Hemail; cbv beta iota; rewrite Hhash; cbv beta iota;
    (split; [reflexivity|]);
    cbn [events snd]; rewrite ?withoutLogs_app; cbn [withoutLogs List.filter
      isLogCall negb app]; rewrite ?app_nil_r; reflexivity.
Qed.

(** ** DeleteUser *)

(** X12. DeleteUser returns what the store's Delete returns. When the
    store fails (the id is absent, or any other error) the cache is left
    alone; when it succeeds and a cache is configured, one DEL is issued on
    the key of the id, and its outcome is ignored. *)
Theorem DeleteUser_store_decides s id w :
  match Delete (repo s) id
          (logged "info" s "DeleteUser called" [("user_id", SprintUint id)] w)
  with
  | (Some err, _) =>
    result (DeleteUser s id w) = Some err
    /\ withoutLogs (events (DeleteUser s id w)) = [RepoDelete id]
  | (None, _) =>
    result (DeleteUser s id w) = None
    /\ withoutLogs (events (DeleteUser s id w))
       = RepoDelete id
         :: match rdb s with
            | Some _ => [RedisDel (cacheKeyUser id)]
            | None => []
            end
  end.
Proof.
  unfold DeleteUser, bind, call.
  unlog s;
    match goal with
    | |- context [Delete (repo s) id ?w'] =>
      destruct (Delete (repo s) id w') as [[err|] w1]
    end; cbv beta iota; try (split; reflexivity);
    (destruct (rdb s) as [c|]; cbv beta iota;
     [ match goal with
       | |- context [Del c (cacheKeyUser id) ?w'] =>
         destruct (Del c (cacheKeyUser id) w') as [derr w2]
       end |]); split; reflexivity.
Qed.

(** ** ListUsers *)


(** ** Cache keys *)

Lemma SprintUint_inj (a b : N) :
  (a < 2 ^ 64)%N -> (b < 2 ^ 64)%N -> SprintUint a = SprintUint b -> a = b.
Proof.
  intros Ha Hb Heq. unfold SprintUint in Heq.
  assert (Hbound : forall n : N, (n < 2 ^ 64)%N -> (n < 10 ^ N.of_nat 20)%N).
  { intros n Hn. eapply N.lt_trans; [exact Hn|]. vm_compute. reflexivity. }
  pose proof (parseDigits_formatBits 20 a (Hbound a Ha)) as Pa.
  pose proof (parseDigits_formatBits 20 b (Hbound b Hb)) as Pb.
  rewrite Heq in Pa. rewrite Pa in Pb. injection Pb as Pb. lia.
Qed.

(** X14. Two different identifiers have different cache keys: the
    cached copy of one user is never read or overwritten as another's. *)
Theorem cacheKeyUser_injective (a b : N) :
  (a < 2 ^ 64)%N -> (b < 2 ^ 64)%N ->
  a <> b -> cacheKeyUser a <> cacheKeyUser b.
Proof.
  intros Ha Hb Hne Heq. apply Hne. unfold cacheKeyUser in Heq.
  apply (SprintUint_inj a b Ha Hb).
  change ("user:" +:+ SprintUint a)
    with (String "u" (String "s" (String "e" (String "r" (String ":"
            (SprintUint a)))))) in Heq.
  change ("user:" +:+ SprintUint b)
    with (String "u" (String "s" (String "e" (String "r" (String ":"
            (SprintUint b)))))) in Heq.
  congruence.
Qed.

(** X15. A service built without a cache never issues a cache command,
    whatever method is called and whatever the collaborators answer. *)
Theorem no_cache_no_cache_command s :
  rdb s = None ->
  (forall req w, existsb isRedisCall (events (Register s req w)) = false)
  /\ (forall req secret exp w,
        existsb isRedisCall (events (Login s req secret exp w)) = false)
  /\ (forall id w, existsb isRedisCall (events (GetByID s id w)) = false)
  /\ (forall id req w,
        existsb isRedisCall (events (UpdateUser s id req w)) = false)
  /\ (forall id w, existsb isRedisCall (events (DeleteUser s id w)) = false)
  /\ (forall page limit w,
        existsb isRedisCall (events (ListUsers s page limit w)) = false).
Proof.
  intros Hrdb.
  repeat split; intros; unfold_service; rewrite ?Hrdb; branches; reflexivity.
Qed.

(** ** Reading after the cache was filled *)

Lemma setJSONFields_zero u :
  setJSONFields User.zero (jsonFields u) = User.with_Password u "".
Proof. destruct u; reflexivity. Qed.

(** X16. A cache-aside round trip, for a service without a logger. A
    GetByID that misses, fetches [u] from the store and succeeds in the SET
    leaves the world the SET produced; if the cache then returns the value
    just set and the decoder reads back what the encoder wrote, the next
    GetByID returns [u] with an empty password hash, and its only call is
    the GET: the store is not queried again. *)
Theorem GetByID_read_after_populate
    s id w c val err w1 u w2 b merr w3 w4 :
  log s = None ->
  rdb s = Some c ->
  Get c (cacheKeyUser id) w = ((val, Some err), w1) ->
  FindByID (repo s) id w1 = (inl u, w2) ->
  json_encode (jsonFields u) = (b, merr) ->
  0 < len b ->
  Set_ c (cacheKeyUser id) b userCacheTTL w2 = (None, w3) ->
  Get c (cacheKeyUser id) w3 = ((b, None), w4) ->
  json_decode b = (jsonFields u, None) ->
  result (GetByID s id w) = (Some u, None)
  /\ world (GetByID s id w) = w3
  /\ result (GetByID s id w3) = (Some (User.with_Password u ""), None)
  /\ events (GetByID s id w3) = [RedisGet (cacheKeyUser id)].
Proof.
  intros Hlog Hrdb Hget Hfind Henc Hlen Hset Hget2 Hdec.
  assert (Hb : (0 <? len b) = true) by (apply Z.ltb_lt; exact Hlen).
  unfold GetByID, tryCache, json_Unmarshal, json_Marshal, bind, call.
  unfold logInfo, logWarn, logError, logAt, ret.
  rewrite Hlog, Hrdb; cbv beta iota.
  rewrite Hget, Hget2; cbv beta iota.
  rewrite Hdec; cbv beta iota.
  destruct (decide (err = redisNil)); cbv beta iota;
    rewrite Hfind; cbv beta iota; rewrite Henc, Hb; cbv beta iota;
    rewrite Hset; cbv beta iota; rewrite setJSONFields_zero;
    repeat split; reflexivity.
Qed.

End ServiceMore.

(* ===================================================================== *)
(** * Further properties of the Auth middleware                            *)
(* ===================================================================== *)

Section AuthMore.
Import middlewares.
Variable jwt_Parse : string -> string -> Token.t + error.
Variable uint_impl : float -> N.
Variable Next : Context.t -> Context.t.

(** X17. A request whose Authorization header is shorter than eight bytes
    or does not start with "Bearer " is answered 401 "missing bearer token"
    whatever the verifier would say; the next handler does not run and the
    request's keys are untouched. This covers the absent header and the
    header "Bearer " with an empty token. *)
Theorem Auth_requires_bearer secret c :
  (len (GetHeader c "Authorization") < 8
   \/ take 7 (GetHeader c "Authorization") <> "Bearer ") ->
  Auth jwt_Parse uint_impl Next secret c
  = AbortWithStatusJSON c StatusUnauthorized "missing bearer token"
  /\ Context.Keys (Auth jwt_Parse uint_impl Next secret c) = Context.Keys c
  /\ Context.Aborted (Auth jwt_Parse uint_impl Next secret c) = true.
Proof.
  intros H.
  assert (E : Auth jwt_Parse uint_impl Next secret c
              = AbortWithStatusJSON c StatusUnauthorized "missing bearer token").
  { unfold Auth.
    destruct (Z.ltb_spec (len (GetHeader c "Authorization")) 8) as [|Hge];
      [reflexivity|].
    destruct H as [H|H]; [lia|].
    apply String.eqb_neq in H. rewrite H. reflexivity. }
  rewrite E. repeat split.
Qed.

(** What the type switch can change: nothing but the key "uid", and that
    only to an unsigned identifier. *)
Lemma setSubject_frame c claims :
  Context.Header (setSubject uint_impl c claims) = Context.Header c
  /\ Context.Aborted (setSubject uint_impl c claims) = Context.Aborted c
  /\ Context.Status (setSubject uint_impl c claims) = Context.Status c
  /\ Context.Body (setSubject uint_impl c claims) = Context.Body c
  /\ (forall k, k <> global.CtxUserIDKey ->
        Context.Keys (setSubject uint_impl c claims) !! k
        = Context.Keys c !! k)
  /\ (setSubject uint_impl c claims = c
      \/ exists n, (n < 2 ^ 64)%N
                   /\ Context.Keys (setSubject uint_impl c claims)
                        !! global.CtxUserIDKey = Some (anyUint n)).
Proof.
  unfold setSubject.
  destruct (claims !! "sub") as [[| | v | v | | | |]|];
    try (repeat split; auto; fail).
  - repeat split; try reflexivity.
    + intros k Hk. cbn [Set_ Context.Keys]. apply lookup_insert_ne. congruence.
    + right. exists (uint_of_float64 uint_impl v).
      split; [apply uint_of_float64_range | apply lookup_insert_eq].
  - destruct (Atoi v) as [n [err|]]; [repeat split; auto|].
    repeat split; try reflexivity.
    + intros k Hk. cbn [Set_ Context.Keys]. apply lookup_insert_ne. congruence.
    + right. exists (uint_of_int n).
      split; [apply uint_of_int_range | apply lookup_insert_eq].
Qed.

(** X18. Every request ends in one of two ways. Either Auth answers 401
    with one of its three messages, without running the next handler and
    without touching the request's keys; or it runs the next handler on a
    context that differs from the request at most in the key "uid", which
    then holds an unsigned identifier below 2^64. *)
Theorem Auth_outcomes secret c :
  (exists msg,
      Auth jwt_Parse uint_impl Next secret c
      = AbortWithStatusJSON c StatusUnauthorized msg
      /\ (msg = "missing bearer token" \/ msg = "invalid token"
          \/ msg = "invalid claims"))
  \/
  (exists c',
      Auth jwt_Parse uint_impl Next secret c = Next c'
      /\ Context.Header c' = Context.Header c
      /\ Context.Aborted c' = Context.Aborted c
      /\ Context.Status c' = Context.Status c
      /\ Context.Body c' = Context.Body c
      /\ (forall k, k <> "uid" -> Context.Keys c' !! k = Context.Keys c !! k)
      /\ (c' = c
          \/ exists n, (n < 2 ^ 64)%N
                       /\ Context.Keys c' !! "uid" = Some (anyUint n))).
Proof.
  unfold Auth.
  destruct ((len (GetHeader c "Authorization") <? 8)
            || negb (take 7 (GetHeader c "Authorization") =? "Bearer ")%string);
    [left; eexists; split; [reflexivity | auto]|].
  destruct (jwt_Parse _ secret) as [t|err];
    [|left; eexists; split; [reflexivity | auto]].
  destruct (Token.Valid t); cbn [negb];
    [|left; eexists; split; [reflexivity | auto]].
  destruct (Token.Claims t) as [claims|];
    [|left; eexists; split; [reflexivity | auto]].
  right. exists (setSubject uint_impl c claims).
  split; [reflexivity|]. apply setSubject_frame.
Qed.

(** X19. A string subject that reads as a negative integer is not
    rejected: the identifier stored is that integer plus 2^64. *)
Theorem Auth_negative_subject_wraps secret c t claims v n :
  8 <= len (GetHeader c "Authorization") ->
  take 7 (GetHeader c "Authorization") = "Bearer " ->
  jwt_Parse (drop 7 (GetHeader c "Authorization")) secret = inl t ->
  Token.Valid t = true ->
  Token.Claims t = MapClaims claims ->
  claims !! "sub" = Some (anyString v) ->
  Atoi v = (n, None) ->
  n < 0 ->
  Auth jwt_Parse uint_impl Next secret c
  = Next (Set_ c global.CtxUserIDKey (anyUint (Z.to_N (2 ^ 64 + n)))).
Proof.
  intros Hlen Hprefix Hparse Hvalid Hclaims Hsub Hatoi Hneg.
  rewrite (Auth_valid_token jwt_Parse uint_impl Next secret c t claims
             Hlen Hprefix Hparse Hvalid Hclaims).
  unfold setSubject. rewrite Hsub, Hatoi.
  pose proof (Atoi_range v n Hatoi) as [Hmin _].
  do 3 f_equal. unfold uint_of_int. f_equal.
  unfold int_min in Hmin.
  change (2 ^ 63) with 9223372036854775808 in *.
  change (2 ^ 64) with 18446744073709551616 in *.
  rewrite <- (Z.mod_add n 1 18446744073709551616) by lia.
  rewrite Z.mod_small; lia.
Qed.

End AuthMore.

(* ===================================================================== *)
(** * Further properties of NormalizeName                                  *)
(* ===================================================================== *)

Section NormalizeNameMore.
Import core.

Lemma byteval_range c : 0 <= byteval c < 256.
Proof.
  unfold byteval. pose proof (N_ascii_bounded c). lia.
Qed.

Lemma asciiSpace_decode c r :
  asciiSpace c = true ->
  DecodeRuneInString (String c r) = (byteval c, 1%nat)
  /\ IsSpace (byteval c) = true.
Proof.
  unfold asciiSpace, DecodeRuneInString, first, IsSpace. intros H.
  pose proof (byteval_range c) as Hr.
  remember (byteval c) as b.
  assert (Hb : (9 <= b <= 13) \/ b = 32) by lia.
  assert (Hlt : (b <? 128) = true) by (apply Z.ltb_lt; lia).
  rewrite Hlt. split; [reflexivity|].
  replace ((0 <=? b) && (b <=? 255)) with true
    by (symmetry; apply andb_true_intro; split; lia).
  lia.
Qed.

Lemma asciiInk_decode c r :
  asciiInk c = true ->
  DecodeRuneInString (String c r) = (byteval c, 1%nat)
  /\ IsSpace (byteval c) = false.
Proof.
  unfold asciiInk, asciiSpace, DecodeRuneInString, first, IsSpace. intros H.
  pose proof (byteval_range c) as Hr.
  remember (byteval c) as b.
  apply andb_prop in H as [Hlt Hns]. rewrite Hlt.
  split; [reflexivity|].
  apply Z.ltb_lt in Hlt.
  replace ((0 <=? b) && (b <=? 255)) with true
    by (symmetry; apply andb_true_intro; split; lia).
  lia.
Qed.

(** Leading ASCII white space is dropped up to the first ink byte. *)
Lemma trimLeftSpace_blank pre : forall fuel c r,
  asciiBlank pre = true ->
  asciiInk c = true ->
  (String.length pre <= fuel)%nat ->
  trimLeftSpace fuel (pre +:+ String c r) = String c r.
Proof.
  induction pre as [|sp pre IH]; intros fuel c r Hpre Hc Hfuel.
  - change ("" +:+ String c r) with (String c r).
    destruct fuel as [|k]; [reflexivity|]. cbn [trimLeftSpace].
    destruct (asciiInk_decode c r Hc) as [-> ->]. reflexivity.
  - cbn [asciiBlank] in Hpre. apply andb_prop in Hpre as [Hsp Hpre].
    destruct fuel as [|k]; [cbn [String.length] in Hfuel; lia|].
    rewrite append_cons. cbn [trimLeftSpace].
    destruct (asciiSpace_decode sp (pre +:+ String c r) Hsp) as [-> ->].
    cbn [drop]. apply IH; auto. cbn [String.length] in Hfuel. lia.
Qed.

Lemma srev_app (a b : string) : rev (a +:+ b) = rev b +:+ rev a.
Proof.
  induction a as [|c a IH].
  - change ("" +:+ b) with b. cbn [rev].
    induction (rev b) as [|x y IHy]; [reflexivity|].
    rewrite append_cons. f_equal. exact IHy.
  - rewrite append_cons. cbn [rev]. rewrite IH. apply append_assoc3.
Qed.

Lemma take_app_length (a b : string) : take (String.length a) (a +:+ b) = a.
Proof.
  induction a as [|c a IH]; [reflexivity|].
  rewrite append_cons. cbn [String.length take]. f_equal. exact IH.
Qed.

(** The last rune of a string that ends with an ASCII byte is that byte. *)
Lemma DecodeLastRune_ascii (a : string) c :
  byteval c < 128 ->
  DecodeLastRuneInString (a +:+ String c "") = (byteval c, 1%nat).
Proof.
  intros Hc. unfold DecodeLastRuneInString, len, RuneSelf.
  rewrite length_app. cbn [String.length].
  destruct (Z.eqb_spec (Z.of_nat (String.length a + 1)) 0) as [E|_]; [lia|].
  rewrite srev_app. cbn [rev]. change ("" +:+ String c "") with (String c "").
  rewrite append_cons.
  destruct (Z.ltb_spec (byteval c) 128); [reflexivity | lia].
Qed.

Lemma append_nonempty (a : string) c : a +:+ String c "" <> "".
Proof. destruct a; discriminate. Qed.

(** Trailing ASCII white space is dropped down to the last ink byte. *)
Lemma trimRightSpace_blank (a : string) l post : forall fuel,
  asciiInk l = true ->
  asciiBlank (rev post) = true ->
  (String.length post <= fuel)%nat ->
  trimRightSpace fuel ((a +:+ String l "") +:+ rev post)
  = a +:+ String l "".
Proof.
  induction post as [|sp post IH]; intros fuel Hl Hpost Hfuel.
  - cbn [rev]. replace ((a +:+ String l "") +:+ "") with (a +:+ String l "")
      by (induction (a +:+ String l "") as [|x y IHy];
          [reflexivity | rewrite append_cons; f_equal; exact IHy]).
    destruct fuel as [|k]; [reflexivity|]. cbn [trimRightSpace].
    destruct (a +:+ String l "") eqn:E; [exact (False_ind _ (append_nonempty a l E))|].
    rewrite <- E.
    apply andb_prop in Hl as [Hlt Hns]. apply Z.ltb_lt in Hlt.
    rewrite (DecodeLastRune_ascii a l Hlt).
    assert (Hnot : IsSpace (byteval l) = false).
    { destruct (asciiInk_decode l "") as [_ H]; [|exact H].
      unfold asciiInk. rewrite Hns. apply andb_true_intro. split; [|reflexivity].
      apply Z.ltb_lt; exact Hlt. }
    rewrite Hnot. reflexivity.
  - cbn [rev] in *.
    assert (Hsp : asciiSpace sp = true /\ asciiBlank (rev post) = true).
    { clear - Hpost. induction (rev post) as [|x y IHy].
      - change ("" +:+ String sp "") with (String sp "") in Hpost.
        cbn [asciiBlank] in Hpost. apply andb_prop in Hpost as [H _]. auto.
      - rewrite append_cons in Hpost. cbn [asciiBlank] in *.
        apply andb_prop in Hpost as [Hx Hy]. destruct (IHy Hy) as [H1 H2].
        split; [exact H1|]. rewrite Hx, H2. reflexivity. }
    destruct Hsp as [Hsp Hrest].
    destruct fuel as [|k]; [cbn [String.length] in Hfuel; lia|].
    rewrite <- append_assoc3.
    set (body := (a +:+ String l "") +:+ rev post).
    cbn [trimRightSpace].
    destruct (body +:+ String sp "") eqn:E;
      [exact (False_ind _ (append_nonempty body sp E))|].
    rewrite <- E.
    assert (Hlt : byteval sp < 128).
    { unfold asciiSpace in Hsp. lia. }
    rewrite (DecodeLastRune_ascii body sp Hlt).
    destruct (asciiSpace_decode sp "" Hsp) as [_ ->].
    rewrite length_app. cbn [String.length].
    replace (String.length body + 1 - 1)%nat with (String.length body) by lia.
    rewrite take_app_length. unfold body.
    apply IH; auto. cbn [String.length] in Hfuel. lia.
Qed.

Lemma srev_length (s : string) : String.length (rev s) = String.length s.
Proof.
  induction s as [|c s IH]; [reflexivity|].
  cbn [rev]. rewrite length_app, IH. cbn [String.length]. lia.
Qed.

Lemma srev_involutive (s : string) : rev (rev s) = s.
Proof.
  induction s as [|c s IH]; [reflexivity|].
  cbn [rev]. rewrite srev_app, IH. reflexivity.
Qed.

Lemma asciiBlank_app (a b : string) :
  asciiBlank (a +:+ b) = asciiBlank a && asciiBlank b.
Proof.
  induction a as [|c a IH]; [reflexivity|].
  rewrite append_cons. cbn [asciiBlank]. rewrite IH. apply andb_assoc.
Qed.

Lemma asciiBlank_rev (s : string) : asciiBlank (rev s) = asciiBlank s.
Proof.
  induction s as [|c s IH]; [reflexivity|].
  cbn [rev asciiBlank]. rewrite asciiBlank_app, IH. cbn [asciiBlank].
  rewrite andb_true_r. apply andb_comm.
Qed.

Lemma lastByte_split (s : string) l :
  lastByte s = Some l -> exists a, s = a +:+ String l "".
Proof.
  induction s as [|c s IH]; [discriminate|].
  destruct s as [|c' s'].
  - cbn [lastByte]. intros [= <-]. exists "". reflexivity.
  - intros H. change (lastByte (String c (String c' s')))
      with (lastByte (String c' s')) in H.
    destruct (IH H) as [a Ha]. exists (String c a).
    rewrite append_cons, <- Ha. reflexivity.
Qed.

(** The core of a padded ASCII name survives trimming, and its first byte
    alone is upper-cased. *)
Lemma NormalizeName_padded_core pre c rest post :
  asciiBlank pre = true ->
  asciiBlank post = true ->
  inkBounded (String c rest) = true ->
  TrimSpace (pre +:+ String c rest +:+ post) = String c rest
  /\ NormalizeName (pre +:+ String c rest +:+ post)
     = String (upperASCII c) rest.
Proof.
  intros Hpre Hpost Hink.
  assert (Hc : asciiInk c = true /\ exists l, lastByte (String c rest) = Some l
                                              /\ asciiInk l = true).
  { unfold inkBounded in Hink.
    destruct (lastByte (String c rest)) as [l|]; [|discriminate].
    apply andb_prop in Hink as [H1 H2]. split; [exact H1|]. exists l. auto. }
  destruct Hc as [Hc (l & Hlast & Hl)].
  destruct (lastByte_split _ l Hlast) as [a Ha].
  assert (Htrim : TrimSpace (pre +:+ String c rest +:+ post) = String c rest).
  { unfold TrimSpace. rewrite append_cons.
    rewrite (trimLeftSpace_blank pre _ c (rest +:+ post) Hpre Hc)
      by (rewrite length_app; lia).
    rewrite <- append_cons, Ha.
    rewrite <- (srev_involutive post).
    apply trimRightSpace_blank; [exact Hl | |].
    - rewrite srev_involutive. exact Hpost.
    - rewrite length_app, !srev_length. lia. }
  split; [exact Htrim|].
  apply andb_prop in Hc as [Hlt _]. apply Z.ltb_lt in Hlt.
  exact (NormalizeName_ascii_first _ c rest Htrim Hlt).
Qed.

(** X20. For a name made of a core between ASCII white space (tabs, line
    breaks, spaces; possibly none), where the core begins and ends with an
    ASCII byte that is not white space: trimming gives the core, and
    NormalizeName returns the core with its first byte upper-cased when it
    is a lower-case ASCII letter; all other bytes are kept. *)
Theorem NormalizeName_ascii_padded pre c rest post :
  asciiBlank pre = true ->
  asciiBlank post = true ->
  inkBounded (String c rest) = true ->
  TrimSpace (pre +:+ String c rest +:+ post) = String c rest
  /\ NormalizeName (pre +:+ String c rest +:+ post)
     = String (upperASCII c) rest.
Proof. exact (NormalizeName_padded_core pre c rest post). Qed.

Lemma upperASCII_ink c : asciiInk c = true -> asciiInk (upperASCII c) = true.
Proof.
  unfold asciiInk, asciiSpace, upperASCII. intros H.
  pose proof (byteval_range c) as Hr.
  destruct (Z.leb_spec 97 (byteval c)); destruct (Z.leb_spec (byteval c) 122);
    cbn [andb]; try exact H.
  unfold byteval, byte. rewrite N_ascii_embedding.
  - fold (byteval c). rewrite Z2N.id by lia.
    remember (byteval c) as b. lia.
  - fold (byteval c). lia.
Qed.

Lemma upperASCII_idem c : upperASCII (upperASCII c) = upperASCII c.
Proof.
  pose proof (byteval_range c) as Hr.
  destruct ((97 <=? byteval c) && (byteval c <=? 122)) eqn:E.
  - assert (Hu : upperASCII c = byte (byteval c - 32))
      by (unfold upperASCII; rewrite E; reflexivity).
    rewrite Hu. unfold upperASCII.
    assert (Hb : byteval (byte (byteval c - 32)) = byteval c - 32).
    { apply andb_prop in E as [E1 E2].
      unfold byteval at 1, byte. rewrite N_ascii_embedding by lia. lia. }
    rewrite Hb. apply andb_prop in E as [E1 E2].
    destruct (Z.leb_spec 97 (byteval c - 32)); [lia | reflexivity].
  - assert (Hu : upperASCII c = c)
      by (unfold upperASCII; rewrite E; reflexivity).
    rewrite !Hu. reflexivity.
Qed.

(** X21. On such names NormalizeName is idempotent: normalizing a
    normalized name changes nothing, so a name read back from the store
    and written again keeps its form. *)
Theorem NormalizeName_idempotent_ascii pre c rest post :
  asciiBlank pre = true ->
  asciiBlank post = true ->
  inkBounded (String c rest) = true ->
  NormalizeName (NormalizeName (pre +:+ String c rest +:+ post))
  = NormalizeName (pre +:+ String c rest +:+ post).
Proof.
  intros Hpre Hpost Hink.
  destruct (NormalizeName_padded_core pre c rest post Hpre Hpost Hink)
    as [_ ->].
  assert (Hink' : inkBounded (String (upperASCII c) rest) = true).
  { unfold inkBounded in *. destruct rest as [|c' rest'].
    - cbn [lastByte] in *. apply andb_prop in Hink as [H _].
      rewrite (upperASCII_ink c H). reflexivity.
    - change (lastByte (String (upperASCII c) (String c' rest')))
        with (lastByte (String c (String c' rest'))).
      destruct (lastByte (String c (String c' rest'))); [|discriminate].
      apply andb_prop in Hink as [H1 H2].
      rewrite (upperASCII_ink c H1), H2. reflexivity. }
  destruct (NormalizeName_padded_core "" (upperASCII c) rest "" eq_refl eq_refl
              Hink') as [_ H].
  change ("" +:+ String (upperASCII c) rest +:+ "")
    with (String (upperASCII c) rest +:+ "") in H.
  replace (String (upperASCII c) rest +:+ "")
    with (String (upperASCII c) rest) in H.
  - rewrite H, upperASCII_idem. reflexivity.
  - clear. induction (String (upperASCII c) rest) as [|x y IH];
      [reflexivity | rewrite append_cons; f_equal; exact IH].
Qed.

End NormalizeNameMore.

(* ===================================================================== *)
(** * Properties of strconv and of the handlers                            *)
(* ===================================================================== *)

Section StrconvProps.

Lemma parseDigits_lt s : forall n v,
  0 <= n -> parseDigits s n = Some v ->
  v < (n + 1) * 10 ^ Z.of_nat (String.length s).
Proof.
  induction s as [|ch s IH]; intros n v Hn H; cbn [parseDigits] in H.
  - injection H as <-. cbn [String.length]. change (10 ^ Z.of_nat 0) with 1. lia.
  - destruct (Z.leb_spec 0 (byteval ch - 48)); [|discriminate].
    destruct (Z.leb_spec (byteval ch - 48) 9); [|discriminate].
    cbn [andb] in H. apply IH in H; [|lia].
    cbn [String.length]. rewrite Nat2Z.inj_succ, Z.pow_succ_r by lia.
    assert (0 < 10 ^ Z.of_nat (String.length s)) by (apply Z.pow_pos_nonneg; lia).
    nia.
Qed.

(** The loop of ParseUint reads what [parseDigits] reads, as long as the
    value fits 64 bits. *)
Lemma parseUintLoop_fits s : forall n v,
  0 <= n ->
  parseDigits s n = Some v -> v <= strconv.maxUint64 ->
  strconv.parseUintLoop s n = (v, None).
Proof.
  induction s as [|ch s IH]; intros n v Hn H Hv;
    cbn [parseDigits strconv.parseUintLoop] in *.
  - congruence.
  - destruct ((0 <=? byteval ch - 48) && (byteval ch - 48 <=? 9)) eqn:E;
      [|discriminate].
    apply andb_prop in E as [E1 E2]. apply Z.leb_le in E1, E2.
    assert (Hn1 : 0 <= n * 10 + (byteval ch - 48)) by lia.
    pose proof (parseDigits_ge s _ _ Hn1 H) as Hge.
    unfold strconv.cutoff, strconv.maxUint64 in *.
    change (2 ^ 64 - 1) with 18446744073709551615 in *.
    change (18446744073709551615 / 10 + 1) with 1844674407370955162.
    destruct (Z.leb_spec 1844674407370955162 n); [lia|].
    destruct (Z.ltb_spec 18446744073709551615 (n * 10 + (byteval ch - 48)));
      [lia|].
    apply IH; [lia | exact H | exact Hv].
Qed.

Lemma parseUintLoop_accepts s : forall n v,
  0 <= n ->
  strconv.parseUintLoop s n = (v, None) ->
  parseDigits s n = Some v /\ (n <= strconv.maxUint64 -> v <= strconv.maxUint64).
Proof.
  induction s as [|ch s IH]; intros n v Hn H;
    cbn [parseDigits strconv.parseUintLoop] in *.
  - injection H as <-. auto.
  - destruct ((0 <=? byteval ch - 48) && (byteval ch - 48 <=? 9)) eqn:E;
      [|discriminate].
    apply andb_prop in E as [E1 E2]. apply Z.leb_le in E1, E2.
    destruct (strconv.cutoff <=? n); [discriminate|].
    destruct (Z.ltb_spec strconv.maxUint64 (n * 10 + (byteval ch - 48)));
      [discriminate|].
    assert (Hn1 : 0 <= n * 10 + (byteval ch - 48)) by lia.
    destruct (IH _ _ Hn1 H) as [Hp Hb]. split; [exact Hp|]. auto.
Qed.

Lemma SprintUint_cons n :
  exists c r, SprintUint n = String c r /\ 48 <= byteval c <= 57.
Proof. exact (formatBits_cons 19 n ""). Qed.

Lemma ParseUint_SprintUint (n : N) :
  (n < 2 ^ 64)%N -> strconv.ParseUint (SprintUint n) = (Z.of_N n, None).
Proof.
  intros Hn.
  assert (Hp : parseDigits (SprintUint n) 0 = Some (Z.of_N n)).
  { apply parseDigits_formatBits.
    eapply N.lt_trans; [exact Hn|]. vm_compute. reflexivity. }
  destruct (SprintUint_cons n) as (c & r & Hs & _).
  unfold strconv.ParseUint. rewrite Hs. rewrite <- Hs.
  apply parseUintLoop_fits; [lia | exact Hp |].
  unfold strconv.maxUint64. change (2 ^ 64 - 1) with (Z.of_N (2 ^ 64) - 1). lia.
Qed.

(** Every string the short [Atoi] accepts is accepted by the full one,
    with the same value. *)
Lemma Atoi_full s n : Atoi s = (n, None) -> strconv.Atoi s = (n, None).
Proof.
  unfold Atoi, strconv.Atoi. intros H.
  destruct s as [|c0 r]; [discriminate|].
  set (s := String c0 r) in *.
  destruct (Ascii.eqb c0 "-") eqn:Eneg; cbn [orb] in *.
  - (* a minus sign *)
    destruct r as [|c1 r1]; [discriminate|].
    set (body := String c1 r1) in *.
    destruct (parseDigits body 0) as [un|] eqn:Hp; [|discriminate].
    destruct (Z.leb_spec un (2 ^ 63)) as [Hle|]; [|discriminate].
    injection H as <-.
    destruct ((0 <? len s) && (len s <? 19)) eqn:Efast; [reflexivity|].
    unfold strconv.ParseInt. subst s. cbv beta iota. rewrite Eneg.
    rewrite orb_true_r.
    unfold strconv.ParseUint. fold body.
    replace (match body with
             | "" => (0, Some (strconv.syntaxError "strconv.ParseUint"))
             | String _ _ => strconv.parseUintLoop body 0
             end) with (strconv.parseUintLoop body 0) by reflexivity.
    rewrite (parseUintLoop_fits body 0 un (Z.le_refl 0) Hp)
      by (unfold strconv.maxUint64;
          change (2 ^ 63) with 9223372036854775808 in Hle;
          change (2 ^ 64 - 1) with 18446744073709551615; lia).
    cbn [negb andb].
    destruct (Z.ltb_spec (2 ^ 63) un); [lia | reflexivity].
  - (* a plus sign or none *)
    destruct (if Ascii.eqb c0 "+" then r else s) as [|c1 r1] eqn:Ebody;
      [discriminate|].
    set (body := String c1 r1) in *.
    destruct (parseDigits body 0) as [un|] eqn:Hp; [|discriminate].
    destruct (Z.ltb_spec un (2 ^ 63)) as [Hlt|]; [|discriminate].
    injection H as <-.
    destruct ((0 <? len s) && (len s <? 19)) eqn:Efast.
    + reflexivity.
    + unfold strconv.ParseInt. subst s. cbv beta iota. rewrite Eneg.
      rewrite orb_false_r. rewrite Ebody.
      unfold strconv.ParseUint. fold body.
      replace (match body with
               | "" => (0, Some (strconv.syntaxError "strconv.ParseUint"))
               | String _ _ => strconv.parseUintLoop body 0
               end) with (strconv.parseUintLoop body 0) by reflexivity.
      rewrite (parseUintLoop_fits body 0 un (Z.le_refl 0) Hp)
        by (unfold strconv.maxUint64;
            change (2 ^ 63) with 9223372036854775808 in Hlt;
            change (2 ^ 64 - 1) with 18446744073709551615; lia).
      cbn [negb andb].
      destruct (Z.leb_spec (2 ^ 63) un); [lia | reflexivity].
Qed.

End StrconvProps.

Section HandlerProps.
Context {W : Type}.
Variable B : handlers.Binder.
Implicit Types (h : handlers.UserHandler W) (c : handlers.Request.t) (w : W).

(** X23. parseUint reads back the decimal text of every identifier below
    2^64; what it accepts is below 2^64; it accepts neither the empty
    string nor a sign, so "/users/+5" and "/users/-5" are invalid ids. *)
Theorem parseUint_decimal :
  (forall n : N, (n < 2 ^ 64)%N ->
     handlers.parseUint (SprintUint n) = (n, None))
  /\ (forall s n, handlers.parseUint s = (n, None) -> (n < 2 ^ 64)%N)
  /\ snd (handlers.parseUint "") <> None
  /\ (forall r, snd (handlers.parseUint (String "-" r)) <> None)
  /\ (forall r, snd (handlers.parseUint (String "+" r)) <> None).
Proof.
  split; [|split; [|split; [|split]]].
  - intros n Hn. unfold handlers.parseUint.
    rewrite (ParseUint_SprintUint n Hn). rewrite N2Z.id. reflexivity.
  - intros s n H. unfold handlers.parseUint in H.
    destruct (strconv.ParseUint s) as [v err] eqn:E.
    injection H as <- ->.
    unfold strconv.ParseUint in E. destruct s as [|c0 r]; [discriminate|].
    apply parseUintLoop_accepts in E; [|lia].
    destruct E as [Hp Hb].
    pose proof (parseDigits_ge _ _ _ (Z.le_refl 0) Hp) as Hge.
    assert (Hv : v <= strconv.maxUint64)
      by (apply Hb; unfold strconv.maxUint64; vm_compute; discriminate).
    unfold strconv.maxUint64 in Hv.
    change (2 ^ 64)%N with (Z.to_N (2 ^ 64)).
    change (2 ^ 64 - 1) with 18446744073709551615 in Hv.
    change (2 ^ 64) with 18446744073709551616. lia.
  - vm_compute. discriminate.
  - intros r. vm_compute. discriminate.
  - intros r. vm_compute. discriminate.
Qed.

(** X24. How the handlers answer a failure of the service, whatever the
    service is and whatever the error: Register and CreateUser 400 with the
    error's message, Login 401 with the message, UpdateUser 400 with the
    message, ListUsers 500 with the message; GetUser and DeleteUser 404
    "user not found", the error's own message being dropped. *)
Theorem handlers_map_service_errors h c w :
  (forall req u e w' evs,
     handlers.bindRegister B (handlers.Request.Body c) = (req, None) ->
     handlers.svcRegister (handlers.svc h) req w = ((u, Some e), w', evs) ->
     handlers.Register B h c w
     = (handlers.Response.mk 400 (handlers.ErrorBody (Error e)), w', evs))
  /\ (forall req u e w' evs,
     handlers.bindRegister B (handlers.Request.Body c) = (req, None) ->
     handlers.svcCreateUser (handlers.svc h) req w = ((u, Some e), w', evs) ->
     handlers.CreateUser B h c w
     = (handlers.Response.mk 400 (handlers.ErrorBody (Error e)), w', evs))
  /\ (forall req tok e w' evs,
     handlers.bindLogin B (handlers.Request.Body c) = (req, None) ->
     handlers.svcLogin (handlers.svc h) req (handlers.jwtSecret h)
                       (handlers.jwtExpires h) w = ((tok, Some e), w', evs) ->
     handlers.Login B h c w
     = (handlers.Response.mk 401 (handlers.ErrorBody (Error e)), w', evs))
  /\ (forall id u e w' evs,
     handlers.parseUint (handlers.Param c "id") = (id, None) ->
     handlers.svcGetUser (handlers.svc h) id w = ((u, Some e), w', evs) ->
     handlers.GetUser h c w
     = (handlers.Response.mk 404 (handlers.ErrorBody "user not found"),
        w', evs))
  /\ (forall id req u e w' evs,
     handlers.parseUint (handlers.Param c "id") = (id, None) ->
     handlers.bindUpdate B (handlers.Request.Body c) = (req, None) ->
     handlers.svcUpdateUser (handlers.svc h) id req w = ((u, Some e), w', evs) ->
     handlers.UpdateUser B h c w
     = (handlers.Response.mk 400 (handlers.ErrorBody (Error e)), w', evs))
  /\ (forall id e w' evs,
     handlers.parseUint (handlers.Param c "id") = (id, None) ->
     handlers.svcDeleteUser (handlers.svc h) id w = (Some e, w', evs) ->
     handlers.DeleteUser h c w
     = (handlers.Response.mk 404 (handlers.ErrorBody "user not found"),
        w', evs))
  /\ (forall p e w' evs,
     handlers.svcListUsers (handlers.svc h)
       (fst (strconv.Atoi (handlers.DefaultQuery c "page" "1")))
       (fst (strconv.Atoi (handlers.DefaultQuery c "limit" "10"))) w
     = ((p, Some e), w', evs) ->
     handlers.ListUsers h c w
     = (handlers.Response.mk 500 (handlers.ErrorBody (Error e)), w', evs)).
Proof.
  repeat split.
  - intros req u e w' evs Hb Hs.
    unfold handlers.Register, bind. rewrite Hb, Hs. cbv beta iota; unfold handlers.respond, ret; cbv beta iota; rewrite app_nil_r; reflexivity.
  - intros req u e w' evs Hb Hs.
    unfold handlers.CreateUser, bind. rewrite Hb, Hs. cbv beta iota; unfold handlers.respond, ret; cbv beta iota; rewrite app_nil_r; reflexivity.
  - intros req tok e w' evs Hb Hs.
    unfold handlers.Login, bind. rewrite Hb, Hs. cbv beta iota; unfold handlers.respond, ret; cbv beta iota; rewrite app_nil_r; reflexivity.
  - intros id u e w' evs Hp Hs.
    unfold handlers.GetUser, bind. rewrite Hp, Hs. cbv beta iota; unfold handlers.respond, ret; cbv beta iota; rewrite app_nil_r; reflexivity.
  - intros id req u e w' evs Hp Hb Hs.
    unfold handlers.UpdateUser, bind. rewrite Hp, Hb, Hs. cbv beta iota; unfold handlers.respond, ret; cbv beta iota; rewrite app_nil_r; reflexivity.
  - intros id e w' evs Hp Hs.
    unfold handlers.DeleteUser, bind. rewrite Hp, Hs. cbv beta iota; unfold handlers.respond, ret; cbv beta iota; rewrite app_nil_r; reflexivity.
  - intros p e w' evs Hs.
    unfold handlers.ListUsers, bind.
    destruct (strconv.Atoi (handlers.DefaultQuery c "page" "1")) as [page perr].
    destruct (strconv.Atoi (handlers.DefaultQuery c "limit" "10")) as [limit lerr].
    cbn [fst] in Hs. rewrite Hs. cbv beta iota; unfold handlers.respond, ret; cbv beta iota; rewrite app_nil_r; reflexivity.
Qed.

(** X25. A request the handler cannot read is answered 400 without any
    call to the service: a body that does not bind (Register, CreateUser,
    Login, UpdateUser) and an id that does not parse (GetUser, UpdateUser,
    DeleteUser, answered "invalid id"). The world is left as it was. *)
Theorem handlers_reject_before_service h c w :
  (forall req e,
     handlers.bindRegister B (handlers.Request.Body c) = (req, Some e) ->
     handlers.Register B h c w
     = (handlers.Response.mk 400 (handlers.ErrorBody (Error e)), w, [])
     /\ handlers.CreateUser B h c w
        = (handlers.Response.mk 400 (handlers.ErrorBody (Error e)), w, []))
  /\ (forall req e,
     handlers.bindLogin B (handlers.Request.Body c) = (req, Some e) ->
     handlers.Login B h c w
     = (handlers.Response.mk 400 (handlers.ErrorBody (Error e)), w, []))
  /\ (forall id e,
     handlers.parseUint (handlers.Param c "id") = (id, Some e) ->
     handlers.GetUser h c w
     = (handlers.Response.mk 400 (handlers.ErrorBody "invalid id"), w, [])
     /\ handlers.UpdateUser B h c w
        = (handlers.Response.mk 400 (handlers.ErrorBody "invalid id"), w, [])
     /\ handlers.DeleteUser h c w
        = (handlers.Response.mk 400 (handlers.ErrorBody "invalid id"), w, []))
  /\ (forall id req e,
     handlers.parseUint (handlers.Param c "id") = (id, None) ->
     handlers.bindUpdate B (handlers.Request.Body c) = (req, Some e) ->
     handlers.UpdateUser B h c w
     = (handlers.Response.mk 400 (handlers.ErrorBody (Error e)), w, [])).
Proof.
  split; [|split; [|split]].
  - intros req e H. split.
    + unfold handlers.Register. rewrite H. reflexivity.
    + unfold handlers.CreateUser. rewrite H. reflexivity.
  - intros req e H. unfold handlers.Login. rewrite H. reflexivity.
  - intros id e H. split; [|split].
    + unfold handlers.GetUser. rewrite H. reflexivity.
    + unfold handlers.UpdateUser. rewrite H. reflexivity.
    + unfold handlers.DeleteUser. rewrite H. reflexivity.
  - intros id req e H H0.
    unfold handlers.UpdateUser. rewrite H, H0. reflexivity.
Qed.

End HandlerProps.

Section HandlerOverService.
Context {W : Type} `{P : Platform W}.
Variable B : handlers.Binder.
Implicit Types (s : userService W) (c : handlers.Request.t) (w : W).

Ltac unlog' s :=
  unfold logged, logInfo, logWarn, logError, logAt, call, world, ret in *;
  destruct (log s) as [[[?|]]|]; cbn [fst snd push] in *; cbv beta iota.

(** X26. Over HTTP too, a login with an unknown email and a login with a
    wrong password cannot be told apart: both are answered 401 with the
    body {"error": "invalid credentials"}. *)
Theorem Login_handler_indistinguishable
    s secret exp c1 req1 w1 e w1' c2 req2 w2 u w2' :
  handlers.bindLogin B (handlers.Request.Body c1) = (req1, None) ->
  handlers.bindLogin B (handlers.Request.Body c2) = (req2, None) ->
  FindByEmail (repo s) (LoginRequest.Email req1) w1 = (inr e, w1') ->
  FindByEmail (repo s) (LoginRequest.Email req2) w2 = (inl u, w2') ->
  CheckPassword (User.Password u) (LoginRequest.Password req2) = false ->
  result (handlers.Login B (handlers.wired s secret exp) c1 w1)
    = handlers.Response.mk 401 (handlers.ErrorBody "invalid credentials")
  /\ result (handlers.Login B (handlers.wired s secret exp) c2 w2)
     = result (handlers.Login B (handlers.wired s secret exp) c1 w1).
Proof.
  intros Hb1 Hb2 Hmiss Hfound Hwrong.
  assert (R1 : result (handlers.Login B (handlers.wired s secret exp) c1 w1)
               = handlers.Response.mk 401
                   (handlers.ErrorBody "invalid credentials")).
  { unfold handlers.Login, handlers.wired. rewrite Hb1.
    cbn [handlers.svc handlers.svcLogin handlers.NewUserService
         handlers.jwtSecret handlers.jwtExpires].
    unfold Login, bind, call. rewrite Hmiss. unlog' s; reflexivity. }
  split; [exact R1|]. rewrite R1.
  unfold handlers.Login, handlers.wired. rewrite Hb2.
  cbn [handlers.svc handlers.svcLogin handlers.NewUserService
       handlers.jwtSecret handlers.jwtExpires].
  unfold Login, bind, call. rewrite Hfound; cbv beta iota.
  rewrite Hwrong. unlog' s; reflexivity.
Qed.



(** X28. Through the three layers: DELETE /users/<id> for an id the
    database deletes no row for is answered 404 "user not found", and the
    cache entry of that id is left alone; when a row is deleted the answer
    is 204 and, with a cache configured, one DEL is issued on the key of
    the id. *)
Theorem DeleteUser_end_to_end
    (db : repositories.DB W) rdb_ log_ secret exp c w (id : N) rows w1 :
  (id < 2 ^ 64)%N ->
  handlers.Param c "id" = SprintUint id ->
  repositories.dbDelete db id
    (logged "info" (handlers.assemble db rdb_ log_) "DeleteUser called" [("user_id", SprintUint id)] w)
    = ((None, rows), w1) ->
  (rows = 0 ->
   result (handlers.DeleteUser (handlers.wired (handlers.assemble db rdb_ log_) secret exp) c w)
     = handlers.Response.mk 404 (handlers.ErrorBody "user not found")
   /\ withoutLogs (events (handlers.DeleteUser (handlers.wired (handlers.assemble db rdb_ log_) secret exp) c w))
      = [RepoDelete id])
  /\ (rows <> 0 ->
      result (handlers.DeleteUser (handlers.wired (handlers.assemble db rdb_ log_) secret exp) c w)
        = handlers.Response.mk 204 handlers.NoBody
      /\ withoutLogs (events (handlers.DeleteUser (handlers.wired (handlers.assemble db rdb_ log_) secret exp) c w))
         = RepoDelete id
           :: match rdb_ with
              | Some _ => [RedisDel (cacheKeyUser id)]
              | None => []
              end).
Proof.
  intros Hid Hparam Hdel.
  set (s := handlers.assemble db rdb_ log_) in *.
  assert (Hparse : handlers.parseUint (handlers.Param c "id") = (id, None)).
  { rewrite Hparam. unfold handlers.parseUint.
    rewrite (ParseUint_SprintUint id Hid), N2Z.id. reflexivity. }
  unfold handlers.DeleteUser, handlers.wired. rewrite Hparse.
  cbn [handlers.svc handlers.svcDeleteUser handlers.NewUserService].
  unfold DeleteUser, handlers.respond, bind, call.
  subst s. unfold handlers.assemble in *.
  cbn [repo rdb repositories.NewUserRepository Delete].
  unfold repositories.userRepo_Delete.
  unfold logged, logInfo, logWarn, logError, logAt, call, world, ret in *.
  cbn [log] in *.
  split; intros Hrows.
  - subst rows.
    destruct log_ as [[[f|]]|]; cbn [fst snd push] in *; cbv beta iota;
      rewrite Hdel; cbv beta iota; split; reflexivity.
  - apply Z.eqb_neq in Hrows.
    destruct log_ as [[[f|]]|]; cbn [fst snd push] in *; cbv beta iota;
      rewrite Hdel; cbv beta iota; rewrite Hrows; cbv beta iota;
      (destruct rdb_ as [c0|]; cbv beta iota;
       [ match goal with
         | |- context [Del c0 (cacheKeyUser id) ?w'] =>
           destruct (Del c0 (cacheKeyUser id) w') as [derr w2]
         end |]); split; reflexivity.
Qed.

End HandlerOverService.

(* ===================================================================== *)
(** * Properties of the Redis logger                                       *)
(* ===================================================================== *)

Section RedislogProps.
Import redislog.

(** LTRIM from index 0: the head of the list is kept. *)
Lemma LTrim_head key stop srv (l : list string) :
  Server.lists srv !! key = Some l ->
  l <> [] ->
  -1 <= stop ->
  Server.lists (LTrim key 0 stop srv) !! key
  = Some (if stop =? -1 then l else firstn (Z.to_nat (stop + 1)) l).
Proof.
  intros Hl Hne Hstop. unfold LTrim. rewrite Hl.
  assert (Hlen : 1 <= Z.of_nat (length l)).
  { destruct l; [congruence | cbn [length]; lia]. }
  change (0 <? 0) with false. cbv beta iota.
  remember (Z.of_nat (length l)) as llen.
  destruct (Z.ltb_spec stop 0) as [Hneg|Hpos].
  - assert (stop = -1) by lia. subst stop.
    replace (llen + -1 <? 0) with false by (symmetry; apply Z.ltb_ge; lia).
    replace (llen <=? 0) with false by (symmetry; apply Z.leb_gt; lia).
    change (if 0 <? 0 then 0 else 0) with 0.
    replace (llen + -1 <? 0) with false by (symmetry; apply Z.ltb_ge; lia).
    replace (llen <=? 0) with false by (symmetry; apply Z.leb_gt; lia).
    cbn [orb].
    replace (llen <=? llen + -1) with false by (symmetry; apply Z.leb_gt; lia).
    cbn [Server.lists]. rewrite lookup_insert_eq. f_equal.
    change (Z.to_nat 0) with 0%nat; rewrite skipn_O; cbn [Z.eqb].
    assert (E1 : Z.to_nat (llen + -1 - 0 + 1) = length l) by lia.
    rewrite E1. apply firstn_all.
  - change (if 0 <? 0 then 0 else 0) with 0.
    replace (stop <? 0) with false by (symmetry; apply Z.ltb_ge; lia).
    replace (llen <=? 0) with false by (symmetry; apply Z.leb_gt; lia).
    cbn [orb].
    destruct (Z.eqb_spec stop (-1)); [lia|].
    destruct (Z.leb_spec llen stop) as [Hbig|Hsmall];
      cbn [Server.lists]; rewrite lookup_insert_eq; f_equal;
      change (Z.to_nat 0) with 0%nat; rewrite skipn_O.
    + assert (E1 : Z.to_nat (llen - 1 - 0 + 1) = length l) by lia.
      rewrite E1, firstn_all. symmetry. apply firstn_all2. lia.
    + f_equal. lia.
Qed.

(** X22. A logger with a client and a maximum of at least one keeps, after
    each call, the new entry at the head followed by the most recent of the
    entries it held, [max] entries at most; with a maximum of zero nothing
    is ever trimmed and the list grows by one at each call. *)
Theorem log_keeps_last_entries l entry srv :
  Logger.rdb l = true ->
  0 <= Logger.max l <= int_max ->
  entries l (log l entry srv)
  = (if Logger.max l =? 0 then entry :: entries l srv
     else firstn (Z.to_nat (Logger.max l)) (entry :: entries l srv))
  /\ (1 <= Logger.max l ->
      (length (entries l (log l entry srv)) <= Z.to_nat (Logger.max l))%nat).
Proof.
  intros Hrdb Hmax.
  assert (Hsub : int_sub (Logger.max l) 1 = Logger.max l - 1).
  { unfold int_sub. apply wrap_int_small.
    unfold int_min, int_max in *.
    change (2 ^ 63) with 9223372036854775808 in *. lia. }
  assert (E : entries l (log l entry srv)
              = (if Logger.max l =? 0 then entry :: entries l srv
                 else firstn (Z.to_nat (Logger.max l)) (entry :: entries l srv))).
  { unfold log, entries. rewrite Hrdb, Hsub. cbn [negb].
    set (old := default [] (Server.lists srv !! Logger.key l)).
    assert (Hl : Server.lists (LPush (Logger.key l) entry srv) !! Logger.key l
                 = Some (entry :: old)).
    { unfold LPush. cbn [Server.lists]. apply lookup_insert_eq. }
    assert (Htrim :
      Server.lists (LTrim (Logger.key l) 0 (Logger.max l - 1)
                          (LPush (Logger.key l) entry srv)) !! Logger.key l
      = Some (if Logger.max l =? 0 then entry :: old
              else firstn (Z.to_nat (Logger.max l)) (entry :: old))).
    { rewrite (LTrim_head _ _ _ _ Hl) by (discriminate || lia).
      f_equal.
      destruct (Z.eqb_spec (Logger.max l) 0) as [->|Hn0]; [reflexivity|].
      destruct (Z.eqb_spec (Logger.max l - 1) (-1)); [lia|].
      do 2 f_equal. lia. }
    destruct (0 <? Logger.retention l).
    - unfold Expire. rewrite Htrim. cbn [Server.lists]. rewrite Htrim.
      reflexivity.
    - rewrite Htrim. reflexivity. }
  split; [exact E|].
  intros H1. rewrite E.
  destruct (Z.eqb_spec (Logger.max l) 0); [lia|].
  rewrite length_firstn. lia.
Qed.

End RedislogProps.


(* ===================================================================== *)
(** * The properties on the test doubles                                   *)
(* ===================================================================== *)

Section Examples.
Import mocks.
#[local] Existing Instance platform.

(** C6 on the doubles: registering the email of [ahmed] again. *)
Lemma Register_existing_email_witness :
  FindByEmail (repo logging) (RegisterRequest.Email ahmedAgain) ∅
    = (inl ahmed, ∅)
  /\ result (Register logging ahmedAgain ∅)
     = (None, Some (errors_New "email already exists"))
  /\ withoutLogs (events (Register logging ahmedAgain ∅))
     = [RepoFindByEmail "a@b.c"]
  /\ forallb quiet (events (Register logging ahmedAgain ∅)) = true.
Proof.
  split; [reflexivity|].
  pose proof (Register_existing_email logging ahmedAgain ∅ ahmed ∅ eq_refl)
    as (Hres & _ & Htrace & Hquiet).
  split; [exact Hres|]. split; [exact Htrace | exact Hquiet].
Defined.

(** C10 on the doubles: the lookup fails with "connection lost" and the
    registration goes through. *)
Lemma Register_precheck_failure_ignored_witness :
  FindByEmail (repo flaky) (RegisterRequest.Email newcomer) ∅
    = (inr (otherError "mysql" "connection lost"), ∅)
  /\ bcrypt_GenerateFromPassword (RegisterRequest.Password newcomer)
       DefaultCost ∅
     = ((fakeHash "123456", None), ∅)
  /\ Create (repo flaky) (newUser newcomer (fakeHash "123456")) ∅
     = ((User.mk 10 "AHMED" "x@y.z" (fakeHash "123456") 0 0, None), ∅)
  /\ result (Register flaky newcomer ∅)
     = (Some (User.mk 10 "AHMED" "x@y.z" (fakeHash "123456") 0 0), None)
  /\ firstn 3 (withoutLogs (events (Register flaky newcomer ∅)))
     = [RepoFindByEmail "x@y.z"; HashCall "123456";
        RepoCreate (newUser newcomer (fakeHash "123456"))].
Proof.
  split; [reflexivity|]. split; [reflexivity|]. split; [reflexivity|].
  pose proof (Register_precheck_failure_ignored flaky newcomer ∅
                (otherError "mysql" "connection lost") ∅
                (fakeHash "123456") None ∅
                (User.mk 10 "AHMED" "x@y.z" (fakeHash "123456") 0 0) None ∅
                eq_refl eq_refl eq_refl)
    as (Hres & _ & Hthree).
  split; [exact Hres | exact (Hthree eq_refl)].
Defined.

(** C1 fails on the code: the store refuses the insert, and the update,
    with its uniqueness violation, and the caller receives that error, not
    "email already exists". *)
Lemma late_duplicate_not_EmailExists :
  (Create (repo racing) (newUser newcomer (fakeHash "123456")) ∅
     = ((newUser newcomer (fakeHash "123456"), Some ErrDuplicatedKey), ∅)
   /\ result (Register racing newcomer ∅) = (None, Some ErrDuplicatedKey)
   /\ result (Register racing newcomer ∅)
      <> (None, Some (errors_New "email already exists")))
  /\
  (Update (repo racing) (User.with_Email ahmed "x@y.z") ∅
     = ((User.with_Email ahmed "x@y.z", Some ErrDuplicatedKey), ∅)
   /\ result (UpdateUser racing 5 (onlyEmail "x@y.z") ∅)
      = (None, Some ErrDuplicatedKey)
   /\ result (UpdateUser racing 5 (onlyEmail "x@y.z") ∅)
      <> (None, Some (errors_New "email already exists"))).
Proof.
  split; (split; [reflexivity|]); (split; [reflexivity|]);
    vm_compute; discriminate.
Qed.

(** C1 as amended, on the same doubles. *)
Lemma store_write_error_returned_unchanged_witness :
  (FindByEmail (repo racing) (RegisterRequest.Email newcomer) ∅
     = (inr ErrRecordNotFound, ∅)
   /\ bcrypt_GenerateFromPassword (RegisterRequest.Password newcomer)
        DefaultCost ∅
      = ((fakeHash "123456", None), ∅)
   /\ Create (repo racing) (newUser newcomer (fakeHash "123456")) ∅
      = ((newUser newcomer (fakeHash "123456"), Some ErrDuplicatedKey), ∅)
   /\ result (Register racing newcomer ∅) = (None, Some ErrDuplicatedKey))
  /\
  (FindByID (repo racing) 5
     (logged "info" racing "UpdateUser called" [("user_id", SprintUint 5)] ∅)
     = (inl ahmed, ∅)
   /\ applyEmail racing (applyName ahmed (onlyEmail "x@y.z"))
        (onlyEmail "x@y.z") ∅
      = (inl (User.with_Email ahmed "x@y.z"), ∅, [RepoFindByEmail "x@y.z"])
   /\ applyPassword racing 5 (User.with_Email ahmed "x@y.z")
        (onlyEmail "x@y.z") ∅
      = (inl (User.with_Email ahmed "x@y.z"), ∅, [])
   /\ Update (repo racing) (User.with_Email ahmed "x@y.z") ∅
      = ((User.with_Email ahmed "x@y.z", Some ErrDuplicatedKey), ∅)
   /\ result (UpdateUser racing 5 (onlyEmail "x@y.z") ∅)
      = (None, Some ErrDuplicatedKey)).
Proof.
  destruct (store_write_error_returned_unchanged (W := World))
    as [Hreg Hupd].
  split.
  - split; [reflexivity|]. split; [reflexivity|]. split; [reflexivity|].
    exact (Hreg racing newcomer ∅ ErrRecordNotFound ∅ (fakeHash "123456") ∅
                (newUser newcomer (fakeHash "123456")) ErrDuplicatedKey ∅
                eq_refl eq_refl eq_refl).
  - split; [reflexivity|]. split; [reflexivity|]. split; [reflexivity|].
    split; [reflexivity|].
    exact (Hupd racing 5%N (onlyEmail "x@y.z") ∅ ahmed ∅
                (User.with_Email ahmed "x@y.z") ∅ [RepoFindByEmail "x@y.z"]
                (User.with_Email ahmed "x@y.z") ∅ []
                (User.with_Email ahmed "x@y.z") ErrDuplicatedKey ∅
                eq_refl eq_refl eq_refl eq_refl).
Defined.

(** C5 on the doubles: [sara] asks for the email of [ahmed]. *)
Lemma UpdateUser_email_taken_witness :
  FindByID (repo logging) 7
    (logged "info" logging "UpdateUser called" [("user_id", SprintUint 7)] ∅)
    = (inl sara, ∅)
  /\ UpdateUserRequest.Email (onlyEmail "a@b.c") = Some "a@b.c"
  /\ "a@b.c" <> User.Email sara
  /\ FindByEmail (repo logging) "a@b.c" ∅ = (inl ahmed, ∅)
  /\ result (UpdateUser logging 7 (onlyEmail "a@b.c") ∅)
     = (None, Some (errors_New "email already exists"))
  /\ withoutLogs (events (UpdateUser logging 7 (onlyEmail "a@b.c") ∅))
     = [RepoFindByID 7; RepoFindByEmail "a@b.c"]
  /\ existsb isRepoUpdate (events (UpdateUser logging 7 (onlyEmail "a@b.c") ∅))
     = false.
Proof.
  assert (Hne : "a@b.c" <> User.Email sara) by (vm_compute; discriminate).
  split; [reflexivity|]. split; [reflexivity|]. split; [exact Hne|].
  split; [reflexivity|].
  pose proof (UpdateUser_email_taken logging 7%N (onlyEmail "a@b.c") ∅
                sara ∅ "a@b.c" ahmed ∅ eq_refl eq_refl Hne eq_refl)
    as (Hres & Htrace & Hupd & _).
  split; [exact Hres|]. split; [exact Htrace | exact Hupd].
Defined.

(** C2 on the doubles: an unknown email, and the email of [ahmed] with a
    wrong password. *)
Lemma Login_failures_indistinguishable_witness :
  FindByEmail (repo cached) "x@y.z" ∅ = (inr ErrRecordNotFound, ∅)
  /\ FindByEmail (repo logging) "a@b.c" ∅ = (inl ahmed, ∅)
  /\ CheckPassword (User.Password ahmed) "letmein" = false
  /\ result (Login cached (LoginRequest.mk "x@y.z" "123456") "sec" Minute ∅)
     = ("", Some (errors_New "invalid credentials"))
  /\ result (Login logging (LoginRequest.mk "a@b.c" "letmein") "sec" Minute ∅)
     = result (Login cached (LoginRequest.mk "x@y.z" "123456") "sec" Minute ∅).
Proof.
  split; [reflexivity|]. split; [reflexivity|]. split; [reflexivity|].
  exact (Login_failures_indistinguishable
           cached (LoginRequest.mk "x@y.z" "123456") "sec" Minute ∅
           ErrRecordNotFound ∅
           logging (LoginRequest.mk "a@b.c" "letmein") "sec" Minute ∅
           ahmed ∅ eq_refl eq_refl eq_refl).
Defined.

(** C4 on the doubles: the cache holds the document of [ahmed], then a
    text that does not decode. *)
Lemma GetByID_cached_value_witness :
  (rdb cached = Some RedisMock
   /\ Get RedisMock (cacheKeyUser 5)
        (logged "info" cached "cache try GET"
           [("key", cacheKeyUser 5); ("user_id", SprintUint 5)] warm)
      = ((encodeUser (jsonFields ahmed), None), warm)
   /\ result (GetByID cached 5 warm)
      = (Some (User.with_Password ahmed ""), None)
   /\ withoutLogs (events (GetByID cached 5 warm)) = [RedisGet "user:5"])
  /\
  (Get RedisMock (cacheKeyUser 5)
     (logged "info" cached "cache try GET"
        [("key", cacheKeyUser 5); ("user_id", SprintUint 5)] garbled)
     = (("<html>", None), garbled)
   /\ result (GetByID cached 5 garbled) = (Some ahmed, None)
   /\ withoutLogs (events (GetByID cached 5 garbled))
      = [RedisGet "user:5"; RepoFindByID 5;
         RedisSet "user:5" (encodeUser (jsonFields ahmed)) userCacheTTL]
   /\ length (List.filter isRepoCall (events (GetByID cached 5 garbled)))
      = 1%nat).
Proof.
  split.
  - split; [reflexivity|]. split; [reflexivity|].
    pose proof (GetByID_cached_value cached 5%N warm RedisMock
                  (encodeUser (jsonFields ahmed)) warm eq_refl eq_refl)
      as H.
    vm_compute in H. destruct H as (Hres & Htrace & _).
    split; [vm_compute; exact Hres | vm_compute; exact Htrace].
  - split; [reflexivity|].
    pose proof (GetByID_cached_value cached 5%N garbled RedisMock
                  "<html>" garbled eq_refl eq_refl)
      as H.
    vm_compute in H. destruct H as ((Hres & Htrace) & Hone).
    split; [vm_compute; exact Hres|].
    split; [vm_compute; exact Htrace | vm_compute; exact Hone].
Defined.

(** C9 on the doubles: what the cache receives for [ahmed] carries no
    hash; read back from the cache he has none, read from the store he has
    his own. *)
Lemma cache_omits_password_hash_witness :
  cacheSets (events (GetByID cached 5 ∅))
    = [(encodeUser (jsonFields ahmed), userCacheTTL)]
  /\ json_Marshal ahmed = json_Marshal (User.with_Password ahmed "")
  /\ (exists u, result (GetByID cached 5 warm) = (Some u, None)
                /\ User.Password u = "" /\ u <> ahmed)
  /\ result (tryCache cached 5 ∅) = None
  /\ FindByID (repo cached) 5 (world (tryCache cached 5 ∅)) = (inl ahmed, ∅)
  /\ result (GetByID cached 5 ∅) = (Some ahmed, None)
  /\ User.Password ahmed <> "".
Proof.
  destruct (cache_omits_password_hash (W := World))
    as (Hmarshal & _ & Hget & _ & Hhit & Hstore).
  assert (Hhash : User.Password ahmed <> "") by (vm_compute; discriminate).
  split.
  { destruct (Hget cached 5%N ∅) as [Hnone | (u & Hres & Hsets)].
    - vm_compute in Hnone. discriminate.
    - assert (R : result (GetByID cached 5 ∅) = (Some ahmed, None))
        by reflexivity.
      rewrite R in Hres. injection Hres as <-. exact Hsets. }
  split; [symmetry; exact (Hmarshal ahmed "")|].
  split.
  { destruct (Hhit cached 5%N warm RedisMock (encodeUser (jsonFields ahmed))
                   warm eq_refl eq_refl eq_refl) as (u & Hres & Hpw & Hdiff).
    exists u. split; [exact Hres|]. split; [exact Hpw|].
    exact (Hdiff ahmed Hhash). }
  split; [reflexivity|]. split; [reflexivity|].
  split; [exact (Hstore cached 5%N ∅ ahmed ∅ eq_refl eq_refl) | exact Hhash].
Defined.

(** C7 fails on the code: page 2^62 with limit 10 is a request the handler
    can pass on; the offset sent to the store is the product reduced to 64
    bits, not (page-1) * limit. *)
Lemma ListUsers_offset_overflows :
  int_min <= 2 ^ 62 <= int_max
  /\ clampPage (2 ^ 62) = 2 ^ 62
  /\ clampLimit 10 = 10
  /\ withoutLogs (events (ListUsers cached (2 ^ 62) 10 ∅))
     = [RepoList 9223372036854775798 10]
  /\ (clampPage (2 ^ 62) - 1) * clampLimit 10 = 46116860184273879030
  /\ withoutLogs (events (ListUsers cached (2 ^ 62) 10 ∅))
     <> [RepoList ((clampPage (2 ^ 62) - 1) * clampLimit 10) (clampLimit 10)].
Proof.
  split; [vm_compute; split; discriminate|].
  split; [reflexivity|]. split; [reflexivity|]. split; [reflexivity|].
  split; [reflexivity|]. vm_compute. discriminate.
Qed.

(** C7 as amended, on the doubles: the third page of twenty. *)
Lemma ListUsers_clamps_and_pages_witness :
  int_min <= 3 <= int_max
  /\ (clampPage 3 - 1) * clampLimit 20 <= int_max
  /\ withoutLogs (events (ListUsers logging 3 20 ∅)) = [RepoList 40 20]
  /\ result (ListUsers logging 3 20 ∅)
     = (Some (PagedUsers.mk [ahmed; sara] 2 3 20), None)
  /\ withoutLogs (events (ListUsers logging 0 1000 ∅)) = [RepoList 0 10].
Proof.
  assert (H3 : int_min <= 3 <= int_max) by (vm_compute; split; discriminate).
  assert (Hfit : (clampPage 3 - 1) * clampLimit 20 <= int_max)
    by (vm_compute; discriminate).
  split; [exact H3|]. split; [exact Hfit|].
  pose proof (ListUsers_clamps_and_pages logging 3 20 ∅ H3 Hfit)
    as (_ & _ & _ & _ & Htrace & Hres & Hzero).
  split; [exact Htrace|]. split; [exact Hres | exact Hzero].
Defined.

(** C8 on the doubles: a numeric subject, a string subject that reads as a
    number, and one that does not. *)
Lemma Auth_subject_normalized_witness :
  (8 <= len (middlewares.GetHeader (request "tok.number") "Authorization")
   /\ take 7 (middlewares.GetHeader (request "tok.number") "Authorization")
      = "Bearer "
   /\ parseMock
        (drop 7 (middlewares.GetHeader (request "tok.number") "Authorization"))
        "test-secret"
      = inl (middlewares.Token.mk true
               (middlewares.MapClaims {[ "sub" := anyFloat64 1%float ]}))
   /\ middlewares.Auth parseMock uintImpl lastHandler "test-secret"
        (request "tok.number")
      = middlewares.Set_ (request "tok.number") "uid" (anyUint 1))
  /\ middlewares.Auth parseMock uintImpl lastHandler "test-secret"
       (request "tok.string")
     = middlewares.Set_ (request "tok.string") "uid" (anyUint 42)
  /\ middlewares.Auth parseMock uintImpl lastHandler "test-secret"
       (request "tok.name")
     = request "tok.name".
Proof.
  split.
  - split; [vm_compute; discriminate|].
    split; [reflexivity|]. split; [reflexivity|].
    destruct (Auth_subject_normalized parseMock uintImpl lastHandler
                "test-secret" (request "tok.number")
                (middlewares.Token.mk true
                   (middlewares.MapClaims {[ "sub" := anyFloat64 1%float ]}))
                {[ "sub" := anyFloat64 1%float ]}
                ltac:(vm_compute; discriminate)
                eq_refl eq_refl eq_refl eq_refl)
      as (c' & Hauth & Hsub).
    rewrite lookup_singleton_eq in Hsub. destruct Hsub as (Hc' & _).
    rewrite Hauth, Hc'. vm_compute. reflexivity.
  - split.
    + destruct (Auth_subject_normalized parseMock uintImpl lastHandler
                  "test-secret" (request "tok.string")
                  (middlewares.Token.mk true
                     (middlewares.MapClaims {[ "sub" := anyString "42" ]}))
                  {[ "sub" := anyString "42" ]}
                  ltac:(vm_compute; discriminate)
                  eq_refl eq_refl eq_refl eq_refl)
        as (c' & Hauth & Hsub).
      rewrite lookup_singleton_eq in Hsub.
      destruct Hsub as (_ & Hid & _).
      rewrite Hauth, (Hid 42%N eq_refl eq_refl). reflexivity.
    + destruct (Auth_subject_normalized parseMock uintImpl lastHandler
                  "test-secret" (request "tok.name")
                  (middlewares.Token.mk true
                     (middlewares.MapClaims {[ "sub" := anyString "admin" ]}))
                  {[ "sub" := anyString "admin" ]}
                  ltac:(vm_compute; discriminate)
                  eq_refl eq_refl eq_refl eq_refl)
        as (c' & Hauth & Hsub).
      rewrite lookup_singleton_eq in Hsub.
      destruct Hsub as (Hsub & _).
      change (Atoi "admin") with (0, Some ErrSyntax) in Hsub.
      rewrite Hauth, Hsub. reflexivity.
Defined.

(** C8 fails on the code: the subject "9223372036854775808" is the decimal
    text of the unsigned identifier 2^63, yet the middleware sets no
    identifier for it and hands the request on as it came. *)
Lemma Auth_large_string_subject_dropped :
  SprintUint 9223372036854775808 = "9223372036854775808"
  /\ (9223372036854775808 < 2 ^ 64)%N
  /\ parseWide
       (drop 7 (middlewares.GetHeader (request "tok.large") "Authorization"))
       "test-secret"
     = inl (middlewares.Token.mk true
              (middlewares.MapClaims
                 {[ "sub" := anyString "9223372036854775808" ]}))
  /\ Atoi "9223372036854775808" = (int_max, Some ErrRange)
  /\ middlewares.Auth parseWide uintImpl lastHandler "test-secret"
       (request "tok.large")
     = lastHandler (request "tok.large")
  /\ middlewares.Context.Keys
       (middlewares.Auth parseWide uintImpl lastHandler "test-secret"
          (request "tok.large")) !! "uid" = None.
Proof.
  repeat split; vm_compute; reflexivity.
Qed.

End Examples.

(* ===================================================================== *)
(** * The further properties on the test doubles                           *)
(* ===================================================================== *)

Section MoreExamples.
Import mocks.
#[local] Existing Instance platform.

(** ** The service *)

(** A new email on the service with a cache: the user comes back with the
    identifier 10 and is written under "user:10". *)
Lemma Register_success_warms_cache_witness :
  result (Register cached newcomer ∅) = (Some joined, None)
  /\ withoutLogs (events (Register cached newcomer ∅))
     = [RepoFindByEmail "x@y.z"; HashCall "123456";
        RepoCreate (User.mk 0 "AHMED" "x@y.z" (fakeHash "123456") 0 0);
        RedisSet "user:10" (encodeUser (jsonFields joined)) userCacheTTL].
Proof.
  exact (Register_success_warms_cache cached newcomer ∅ ErrRecordNotFound ∅
           (fakeHash "123456") ∅ joined ∅ RedisMock
           (encodeUser (jsonFields joined)) None
           eq_refl eq_refl eq_refl eq_refl eq_refl eq_refl).
Defined.

(** A password of 80 bytes under the strict hasher. *)
Lemma Register_hash_failure_witness :
  result (Register (P := strict) plain
            (RegisterRequest.mk "Ahmed" "x@y.z" longPassword) ∅)
  = (None, Some (otherError "bcrypt" "password length exceeds 72 bytes"))
  /\ withoutLogs (events (Register (P := strict) plain
                            (RegisterRequest.mk "Ahmed" "x@y.z" longPassword) ∅))
     = [RepoFindByEmail "x@y.z"; HashCall longPassword].
Proof.
  exact (Register_hash_failure (P := strict) plain
           (RegisterRequest.mk "Ahmed" "x@y.z" longPassword) ∅
           ErrRecordNotFound ∅ ""
           (otherError "bcrypt" "password length exceeds 72 bytes") ∅
           eq_refl eq_refl).
Defined.

(** [ahmed] logs in: the token is the signer's, for a lifetime of a
    quarter of an hour from 1700000000. *)
Lemma Login_signs_identity_witness :
  loginClaims ahmed 1700000000000000000 1700000000000000000 (15 * Minute)
    !! "exp" = Some (anyInt64 1700000900)
  /\ result (Login cached (LoginRequest.mk "a@b.c" "123456") "test-secret"
               (15 * Minute) ∅)
     = ("header.payload.test-secret", None).
Proof.
  pose proof (Login_signs_identity cached (LoginRequest.mk "a@b.c" "123456")
                "test-secret" (15 * Minute) ∅ ahmed ∅
                1700000000000000000 ∅ 1700000000000000000 ∅
                eq_refl eq_refl eq_refl eq_refl)
    as (_ & _ & Hexp & _ & Hres).
  split; [exact Hexp | exact Hres].
Defined.

Lemma GetByID_without_cache_witness :
  withoutLogs (events (GetByID plain 5 ∅)) = [RepoFindByID 5]
  /\ result (GetByID plain 5 ∅) = (Some ahmed, None).
Proof.
  pose proof (GetByID_without_cache plain 5 ∅ eq_refl) as (Hev & Hres).
  split; [exact Hev | exact Hres].
Defined.

(** A miss on the empty cache. *)
Lemma GetByID_cache_failure_falls_through_witness :
  result (GetByID cached 5 ∅) = (Some ahmed, None)
  /\ withoutLogs (events (GetByID cached 5 ∅))
     = [RedisGet "user:5"; RepoFindByID 5;
        RedisSet "user:5" (encodeUser (jsonFields ahmed)) userCacheTTL].
Proof.
  exact (GetByID_cache_failure_falls_through cached 5 ∅ RedisMock ""
           redisNil ∅ eq_refl eq_refl).
Defined.

Lemma UpdateUser_not_found_witness :
  result (UpdateUser cached 99 (onlyEmail "x@y.z") ∅)
  = (None, Some ErrRecordNotFound)
  /\ withoutLogs (events (UpdateUser cached 99 (onlyEmail "x@y.z") ∅))
     = [RepoFindByID 99].
Proof.
  exact (UpdateUser_not_found cached 99 (onlyEmail "x@y.z") ∅
           ErrRecordNotFound ∅ eq_refl).
Defined.

(** [ahmed] moves to a free email while the cache holds his document. *)
Lemma UpdateUser_success_refreshes_cache_witness :
  result (UpdateUser cached 5 (onlyEmail "x@y.z") warm)
  = (Some (User.with_Email ahmed "x@y.z"), None)
  /\ withoutLogs (events (UpdateUser cached 5 (onlyEmail "x@y.z") warm))
     = [RepoFindByID 5; RepoFindByEmail "x@y.z";
        RepoUpdate (User.with_Email ahmed "x@y.z");
        RedisDel "user:5";
        RedisSet "user:5"
                 (encodeUser (jsonFields (User.with_Email ahmed "x@y.z")))
                 userCacheTTL].
Proof.
  exact (UpdateUser_success_refreshes_cache cached 5 (onlyEmail "x@y.z") warm
           ahmed warm (User.with_Email ahmed "x@y.z") warm
           [RepoFindByEmail "x@y.z"]
           (User.with_Email ahmed "x@y.z") warm []
           (User.with_Email ahmed "x@y.z") warm
           eq_refl eq_refl eq_refl eq_refl).
Defined.


Lemma UpdateUser_hash_failure_witness :
  result (UpdateUser (P := strict) plain 5
            (UpdateUserRequest.mk None None (Some longPassword)) ∅)
  = (None, Some (otherError "bcrypt" "password length exceeds 72 bytes"))
  /\ withoutLogs (events (UpdateUser (P := strict) plain 5
                            (UpdateUserRequest.mk None None (Some longPassword))
                            ∅))
     = [RepoFindByID 5; HashCall longPassword].
Proof.
  exact (UpdateUser_hash_failure (P := strict) plain 5
           (UpdateUserRequest.mk None None (Some longPassword)) ∅
           ahmed ∅ ahmed ∅ [] longPassword ""
           (otherError "bcrypt" "password length exceeds 72 bytes") ∅
           eq_refl eq_refl eq_refl eq_refl).
Defined.

Lemma cacheKeyUser_injective_witness :
  cacheKeyUser 5 <> cacheKeyUser 7.
Proof.
  apply (cacheKeyUser_injective 5 7); [reflexivity | reflexivity | discriminate].
Defined.

Lemma no_cache_no_cache_command_witness :
  existsb isRedisCall (events (GetByID plain 5 ∅)) = false
  /\ existsb isRedisCall
       (events (UpdateUser plain 5 (onlyEmail "x@y.z") ∅)) = false
  /\ existsb isRedisCall (events (DeleteUser plain 5 ∅)) = false.
Proof.
  pose proof (no_cache_no_cache_command plain eq_refl)
    as (_ & _ & Hget & Hupd & Hdel & _).
  split; [exact (Hget 5%N ∅)|].
  split; [exact (Hupd 5%N (onlyEmail "x@y.z") ∅) | exact (Hdel 5%N ∅)].
Defined.

(** A miss that fills the empty cache, then a hit. *)
Lemma GetByID_read_after_populate_witness :
  result (GetByID cached 5 ∅) = (Some ahmed, None)
  /\ world (GetByID cached 5 ∅) = warm
  /\ result (GetByID cached 5 warm) = (Some (User.with_Password ahmed ""), None)
  /\ events (GetByID cached 5 warm) = [RedisGet "user:5"].
Proof.
  exact (GetByID_read_after_populate cached 5 ∅ RedisMock "" redisNil ∅
           ahmed ∅ (encodeUser (jsonFields ahmed)) None warm warm
           eq_refl eq_refl eq_refl eq_refl eq_refl eq_refl eq_refl eq_refl
           eq_refl).
Defined.

(** ** The middleware *)

(** No header at all. *)
Lemma Auth_requires_bearer_witness :
  middlewares.Auth parseMock uintImpl lastHandler "test-secret" anonymous
  = middlewares.AbortWithStatusJSON anonymous middlewares.StatusUnauthorized
      "missing bearer token".
Proof.
  exact (proj1 (Auth_requires_bearer parseMock uintImpl lastHandler
                  "test-secret" anonymous (or_introl eq_refl))).
Defined.

(** The subject "-1" becomes the identifier 2^64 - 1. *)
Lemma Auth_negative_subject_wraps_witness :
  middlewares.Auth parseSigned uintImpl lastHandler "test-secret"
    (request "tok.negative")
  = middlewares.Set_ (request "tok.negative") global.CtxUserIDKey
      (anyUint 18446744073709551615).
Proof.
  apply (Auth_negative_subject_wraps parseSigned uintImpl lastHandler
           "test-secret" (request "tok.negative")
           (middlewares.Token.mk true
              (middlewares.MapClaims {[ "sub" := anyString "-1" ]}))
           {[ "sub" := anyString "-1" ]} "-1" (-1)).
  - vm_compute. discriminate.
  - reflexivity.
  - reflexivity.
  - reflexivity.
  - reflexivity.
  - reflexivity.
  - reflexivity.
  - reflexivity.
Defined.

(** ** NormalizeName *)

(** A name between a tab and spaces. *)
Lemma NormalizeName_ascii_padded_witness :
  TrimSpace (String (byte 9) " " +:+ "ahmed ali" +:+ "  ") = "ahmed ali"
  /\ core.NormalizeName (String (byte 9) " " +:+ "ahmed ali" +:+ "  ")
     = "Ahmed ali".
Proof.
  exact (NormalizeName_ascii_padded (String (byte 9) " ") "a" "hmed ali" "  "
           eq_refl eq_refl eq_refl).
Defined.

Lemma NormalizeName_idempotent_ascii_witness :
  core.NormalizeName
    (core.NormalizeName (String (byte 9) " " +:+ "ahmed ali" +:+ "  "))
  = core.NormalizeName (String (byte 9) " " +:+ "ahmed ali" +:+ "  ").
Proof.
  exact (NormalizeName_idempotent_ascii (String (byte 9) " ") "a" "hmed ali"
           "  " eq_refl eq_refl eq_refl).
Defined.

(** ** The handlers *)

Lemma parseUint_decimal_witness :
  handlers.parseUint (SprintUint 42) = (42%N, None).
Proof.
  exact (proj1 parseUint_decimal 42%N eq_refl).
Defined.

(** GET /users/5 while the store is down: the store's message is replaced
    by "user not found". *)
Lemma handlers_map_service_errors_witness :
  handlers.GetUser (handlers.wired flaky "test-secret" (15 * Minute))
                   (onUser "5" "") ∅
  = (handlers.Response.mk 404 (handlers.ErrorBody "user not found"), ∅,
     [RedisGet "user:5"; RepoFindByID 5]).
Proof.
  pose proof (handlers_map_service_errors BinderMock
                (handlers.wired flaky "test-secret" (15 * Minute))
                (onUser "5" "") ∅)
    as (_ & _ & _ & Hget & _).
  exact (Hget 5%N None (otherError "mysql" "connection lost") ∅
           [RedisGet "user:5"; RepoFindByID 5] eq_refl eq_refl).
Defined.

(** GET /users/abc, and a POST with an empty body. *)
Lemma handlers_reject_before_service_witness :
  handlers.GetUser (handlers.wired cached "test-secret" (15 * Minute))
                   (onUser "abc" "") ∅
  = (handlers.Response.mk 400 (handlers.ErrorBody "invalid id"), ∅, [])
  /\ handlers.Register BinderMock
       (handlers.wired cached "test-secret" (15 * Minute)) (posted "") ∅
     = (handlers.Response.mk 400 (handlers.ErrorBody "binding: EOF"), ∅, []).
Proof.
  split.
  - pose proof (handlers_reject_before_service BinderMock
                  (handlers.wired cached "test-secret" (15 * Minute))
                  (onUser "abc" "") ∅)
      as (_ & _ & Hid & _).
    exact (proj1 (Hid 0%N (strconv.syntaxError "strconv.ParseUint") eq_refl)).
  - pose proof (handlers_reject_before_service BinderMock
                  (handlers.wired cached "test-secret" (15 * Minute))
                  (posted "") ∅)
      as (Hbind & _).
    exact (proj1 (Hbind (RegisterRequest.mk "" "" "")
                    (otherError "binding" "EOF") eq_refl)).
Defined.

(** An unknown email and a wrong password for [ahmed]. *)
Lemma Login_handler_indistinguishable_witness :
  result (handlers.Login BinderMock
            (handlers.wired cached "test-secret" (15 * Minute))
            (posted "stranger") ∅)
  = handlers.Response.mk 401 (handlers.ErrorBody "invalid credentials")
  /\ result (handlers.Login BinderMock
               (handlers.wired cached "test-secret" (15 * Minute))
               (posted "guess") ∅)
     = result (handlers.Login BinderMock
                 (handlers.wired cached "test-secret" (15 * Minute))
                 (posted "stranger") ∅).
Proof.
  exact (Login_handler_indistinguishable BinderMock cached "test-secret"
           (15 * Minute) (posted "stranger") (LoginRequest.mk "x@y.z" "123456")
           ∅ ErrRecordNotFound ∅ (posted "guess")
           (LoginRequest.mk "a@b.c" "letmein") ∅ ahmed ∅
           eq_refl eq_refl eq_refl eq_refl eq_refl).
Defined.


(** DELETE /users/99 and DELETE /users/5 over a table of two users, with
    the document of [ahmed] in the cache. *)
Lemma DeleteUser_end_to_end_witness :
  (result (handlers.DeleteUser
             (handlers.wired
                (handlers.assemble (DBMock [ahmed; sara]) (Some RedisMock) None)
                "test-secret" (15 * Minute))
             (onUser "99" "") warm)
   = handlers.Response.mk 404 (handlers.ErrorBody "user not found")
   /\ withoutLogs
        (events (handlers.DeleteUser
                   (handlers.wired
                      (handlers.assemble (DBMock [ahmed; sara])
                                         (Some RedisMock) None)
                      "test-secret" (15 * Minute))
                   (onUser "99" "") warm))
      = [RepoDelete 99])
  /\ (result (handlers.DeleteUser
                (handlers.wired
                   (handlers.assemble (DBMock [ahmed; sara]) (Some RedisMock)
                                      None)
                   "test-secret" (15 * Minute))
                (onUser "5" "") warm)
      = handlers.Response.mk 204 handlers.NoBody
      /\ withoutLogs
           (events (handlers.DeleteUser
                      (handlers.wired
                         (handlers.assemble (DBMock [ahmed; sara])
                                            (Some RedisMock) None)
                         "test-secret" (15 * Minute))
                      (onUser "5" "") warm))
         = [RepoDelete 5; RedisDel "user:5"]).
Proof.
  split.
  - exact (proj1 (DeleteUser_end_to_end (DBMock [ahmed; sara]) (Some RedisMock)
                    None "test-secret" (15 * Minute) (onUser "99" "") warm
                    99%N 0 warm eq_refl eq_refl eq_refl) eq_refl).
  - refine (proj2 (DeleteUser_end_to_end (DBMock [ahmed; sara])
                     (Some RedisMock) None "test-secret" (15 * Minute)
                     (onUser "5" "") warm 5%N 1 warm eq_refl eq_refl eq_refl)
                  _).
    discriminate.
Defined.

(** ** The Redis logger *)

(** A third entry pushes the oldest one out. *)
Lemma log_keeps_last_entries_witness :
  redislog.entries appLog (redislog.log appLog "third" twoEntries)
  = ["third"; "second"].
Proof.
  refine (proj1 (log_keeps_last_entries appLog "third" twoEntries eq_refl _)).
  split; vm_compute; discriminate.
Defined.

End MoreExamples.
